(** * Performance-profile assistant: requirements validation and parameter synthesis

    A shallow embedding of [hardware_validator.py], [ppc_generator.py] and the
    template catalog of [workload_templates.py], with the properties of the
    validation report and of the resolved parameter set.

    Python values are modelled as follows.
    - [int] is [Z] (unbounded); [//] is [Z.div], [%] with a positive divisor is
      [Z.modulo], [str(n)] is stdpp's [pretty].
    - [str] is [string], read as the UTF-8 bytes of the text.
    - The topology summary and the request of the validator are dictionaries
      read at fixed keys: they are records whose fields are [option]s, [None]
      standing for a key that is absent (or bound to [None] where the code
      reads it with a plain [get]).  The field types are the ones of the
      hosting tool's signature and of the bundle parser.
    - The parameter dictionaries of the generator are keyed dynamically: they
      are [gmap string pyval] objects living in a store, so that aliasing and
      in-place updates are visible.
    - [float] is an interface ([PyFloat]); nothing is assumed about it beyond
      one law on [int(n * 0.1)] for counts of machine size. *)

From Stdlib Require Import ZArith String Ascii List Lia.
From stdpp Require Import base option list strings pretty gmap fin_maps.

Open Scope string_scope.
Open Scope list_scope.
Open Scope Z_scope.

(** ** Exceptions and results *)

Inductive exn : Set :=
  | IndexError
  | ValueError
  | OverflowError
  | TypeError
  | AttributeError.

Inductive result (A : Type) : Type :=
  | Ok (a : A)
  | Raise (e : exn).

Arguments Ok {A} a.
Arguments Raise {A} e.

#[global] Instance result_ret : MRet result := fun A a => Ok a.
#[global] Instance result_bind : MBind result := fun A B f m =>
  match m with
  | Ok a => f a
  | Raise e => Raise e
  end.

(** ** Strings *)

(** [needle in hay] for two strings. *)
Fixpoint str_contains (needle hay : string) : bool :=
  String.prefix needle hay ||
  match hay with
  | EmptyString => false
  | String _ hay' => str_contains needle hay'
  end.

(** [x in xs] for a string and a list of strings. *)
Definition str_in (x : string) (xs : list string) : bool :=
  existsb (String.eqb x) xs.

(** [c.upper()] on one byte: only the ASCII letters change. *)
Definition ascii_upper (c : ascii) : ascii :=
  let n := N_of_ascii c in
  if ((97 <=? n) && (n <=? 122))%N then ascii_of_N (n - 32) else c.

Fixpoint str_upper (s : string) : string :=
  match s with
  | EmptyString => EmptyString
  | String c s' => String (ascii_upper c) (str_upper s')
  end.

(** [s.endswith(c)] for a one-character suffix. *)
Fixpoint str_endswith (s : string) (c : ascii) : bool :=
  match s with
  | EmptyString => false
  | String a EmptyString => Ascii.eqb a c
  | String _ s' => str_endswith s' c
  end.

(** [s[:-1]] *)
Fixpoint str_init (s : string) : string :=
  match s with
  | EmptyString => EmptyString
  | String _ EmptyString => EmptyString
  | String a s' => String a (str_init s')
  end.

(** [sep.join(xs)] *)
Definition str_join (sep : string) (xs : list string) : string :=
  String.concat sep xs.

(** [str(n)] for an int. *)
Definition str_of_int (n : Z) : string := pretty n.

(** Truth value of an optional bool, str and int. *)
Definition truthy_bool (b : option bool) : bool := default false b.
Definition truthy_str (s : option string) : bool :=
  match s with
  | Some s => negb (String.eqb s "")
  | None => false
  end.
Definition truthy_int (n : option Z) : bool :=
  match n with
  | Some n => negb (n =? 0)
  | None => false
  end.

(** ** Floating point

    The two places where the code computes with [float] are
    [_hugepage_to_gb] (parse, divide, multiply, format) and
    [_calculate_reserved_cpus] ([int(cpus_per_node * 0.1)]).  The operations
    are the methods of an interface.  The law [float_tenth_trunc] is the one
    fact of binary64 arithmetic the development relies on: for an int below
    2^32 in absolute value, the product with the literal [0.1] truncates to
    the quotient by ten. *)

Class PyFloat : Type := {
  pyfloat : Type;
  (** [float(s)]; [None] when it raises [ValueError]. *)
  float_of_str : string -> option pyfloat;
  (** [x / n] for a non-zero int constant [n]. *)
  float_div : pyfloat -> Z -> pyfloat;
  (** [x * n] for an int [n]; [None] when the conversion of [n] raises
      [OverflowError]. *)
  float_mul : pyfloat -> Z -> option pyfloat;
  (** The literal [0.1]. *)
  float_tenth : pyfloat;
  (** [int(x)] *)
  float_to_int : pyfloat -> result Z;
  (** [f"{x:.2f}"] *)
  float_format_2f : pyfloat -> string;
  float_tenth_trunc : forall n : Z,
    - 2 ^ 32 < n < 2 ^ 32 ->
    exists x, float_mul float_tenth n = Some x /\ float_to_int x = Ok (Z.quot n 10)
}.

(** A number that is a float or an int ([_hugepage_to_gb] returns the int 0
    on an unrecognised suffix). *)
Inductive pynum `{PyFloat} : Type :=
  | PFloat (x : pyfloat)
  | PInt (n : Z).

(** ** Topology summary *)

Record summary : Type := mk_summary {
  cpus_per_node : option Z;
  numa_nodes_per_node : option Z;
  hyperthreading_enabled : option bool;
  architectures : option (list string)
}.

(** [self.summary.get("architectures", ["unknown"])[0]] *)
Definition first_architecture (s : summary) : result string :=
  match default ["unknown"] (architectures s) with
  | [] => Raise IndexError
  | a :: _ => Ok a
  end.

(** ** Validation requests and reports *)

Record request : Type := mk_request {
  workload_type : option string;
  isolated_cpu_count : option Z;
  reserved_cpu_count : option Z;
  enable_rt_kernel : option bool;
  enable_dpdk : option bool;
  hugepages_size : option string;
  hugepages_count : option Z;
  power_mode : option string;
  per_pod_power_management : option bool
}.

Record cpu_check : Type := mk_cpu_check {
  cpu_is_valid : bool;
  cpu_errors : list string;
  cpu_warnings : list string;
  cpu_recommendations : list string
}.

Record rt_check : Type := mk_rt_check {
  rt_is_valid : bool;
  rt_warnings : list string;
  rt_recommendations : list string
}.

Record hp_check : Type := mk_hp_check {
  hp_is_valid : bool;
  hp_errors : list string;
  hp_recommendations : list string
}.

Record pm_check : Type := mk_pm_check {
  pm_warnings : list string;
  pm_recommendations : list string
}.

Record checks : Type := mk_checks {
  chk_cpu : cpu_check;
  chk_rt_kernel : rt_check;
  chk_hugepages : hp_check;
  chk_power_mode : pm_check
}.

Record report : Type := mk_report {
  is_valid : bool;
  errors : list string;
  warnings : list string;
  recommendations : list string;
  detailed_checks : checks;
  overall_status : string
}.

(** In-place updates of the result dictionary of the CPU check. *)
Definition cpu_error (m : string) (r : cpu_check) : cpu_check :=
  mk_cpu_check (cpu_is_valid r) (cpu_errors r ++ [m]) (cpu_warnings r) (cpu_recommendations r).
Definition cpu_warning (m : string) (r : cpu_check) : cpu_check :=
  mk_cpu_check (cpu_is_valid r) (cpu_errors r) (cpu_warnings r ++ [m]) (cpu_recommendations r).
Definition cpu_recommend (m : string) (r : cpu_check) : cpu_check :=
  mk_cpu_check (cpu_is_valid r) (cpu_errors r) (cpu_warnings r) (cpu_recommendations r ++ [m]).
Definition cpu_invalid (r : cpu_check) : cpu_check :=
  mk_cpu_check false (cpu_errors r) (cpu_warnings r) (cpu_recommendations r).

Definition rt_warning (m : string) (r : rt_check) : rt_check :=
  mk_rt_check (rt_is_valid r) (rt_warnings r ++ [m]) (rt_recommendations r).
Definition rt_recommend (m : string) (r : rt_check) : rt_check :=
  mk_rt_check (rt_is_valid r) (rt_warnings r) (rt_recommendations r ++ [m]).

Definition hp_error (m : string) (r : hp_check) : hp_check :=
  mk_hp_check (hp_is_valid r) (hp_errors r ++ [m]) (hp_recommendations r).
Definition hp_recommend (m : string) (r : hp_check) : hp_check :=
  mk_hp_check (hp_is_valid r) (hp_errors r) (hp_recommendations r ++ [m]).
Definition hp_invalid (r : hp_check) : hp_check :=
  mk_hp_check false (hp_errors r) (hp_recommendations r).

Definition pm_warning (m : string) (r : pm_check) : pm_check :=
  mk_pm_check (pm_warnings r ++ [m]) (pm_recommendations r).

(** [if c: r = f(r)] *)
Definition when {A} (c : bool) (f : A -> A) (r : A) : A := if c then f r else r.

(** ** The messages of the validator *)

Definition msg_reserved_required : string := "Reserved CPU count is required".
Definition msg_reserved_low : string :=
  "Reserved CPU count is very low. Minimum 2 CPUs recommended for system workloads.".
Definition msg_reserve_more : string :=
  "Consider reserving at least 2-4 CPUs for system processes".
Definition msg_isolated_derived (isolated : Z) : string :=
  "Isolated CPU count not specified. Will use " +:+ str_of_int isolated +:+
  " CPUs (total - reserved)".
Definition msg_total_exceeds (total_required cpus : Z) : string :=
  "Total CPUs required (" +:+ str_of_int total_required +:+
  ") exceeds available CPUs per node (" +:+ str_of_int cpus +:+ ")".
Definition msg_numa_uneven (reserved numa_nodes : Z) : string :=
  "Reserved CPUs (" +:+ str_of_int reserved +:+
  ") not evenly divisible by NUMA nodes (" +:+ str_of_int numa_nodes +:+ "). " +:+
  "Consider using --split-reserved-cpus-across-numa flag.".
Definition msg_numa_aligned (numa_nodes : Z) : string :=
  "Your system has " +:+ str_of_int numa_nodes +:+
  " NUMA nodes. Consider allocating CPUs aligned to NUMA boundaries " +:+
  "for optimal performance.".
Definition msg_hyperthreading : string :=
  "Hyperthreading is enabled. For ultra-low latency workloads, " +:+
  "consider disabling it with --disable-ht flag.".
Definition msg_rt_enabled : string :=
  "Real-time kernel will be enabled. This provides deterministic latency " +:+
  "but requires node reboot during profile application.".
Definition msg_rt_arm : string :=
  "Real-time kernel on ARM architecture may have limited support. " +:+
  "Verify RT kernel availability for your specific hardware.".
Definition msg_rt_not_required (wt : string) : string :=
  "RT kernel typically not required for " +:+ wt +:+ " workloads. " +:+
  "Consider disabling RT kernel to reduce complexity.".
Definition msg_rt_recommended (wt : string) : string :=
  "RT kernel is highly recommended for " +:+ wt +:+ " workloads " +:+
  "to achieve deterministic low latency.".
Definition msg_invalid_size (size arch_name : string) (valid : list string) : string :=
  "Invalid hugepage size '" +:+ size +:+ "' for " +:+ arch_name +:+ ". " +:+
  "Valid sizes: " +:+ str_join ", " valid.
Definition msg_hugepages_reserve (total_gb : string) : string :=
  "Hugepages will reserve " +:+ total_gb +:+ " GB of memory. " +:+
  "Ensure sufficient memory is available.".
Definition msg_count_missing : string :=
  "Hugepage count not specified. Define the number of hugepages needed for your workload.".
Definition msg_dpdk_hugepages : string :=
  "DPDK workloads typically require hugepages (1G recommended). " +:+
  "Consider configuring hugepages for optimal performance.".
Definition msg_power_consumption (mode : string) : string :=
  "Power mode '" +:+ mode +:+ "' will increase power consumption significantly. " +:+
  "Ensure adequate cooling and power capacity.".
Definition msg_per_pod_exclusive : string :=
  "Per-pod power management and high power consumption mode are mutually exclusive. " +:+
  "Per-pod power management will be disabled.".
Definition status_valid : string := "✓ Configuration is valid and feasible".
Definition status_invalid : string := "✗ Configuration has issues that must be addressed".

(** ** HardwareValidator *)

Section validator.
Context `{PyFloat}.

Definition py_float (s : string) : result pyfloat :=
  match float_of_str s with
  | Some x => Ok x
  | None => Raise ValueError
  end.

(** [x * n] for a float or int [x] and an int [n]. *)
Definition num_mul (x : pynum) (n : Z) : result pynum :=
  match x with
  | PFloat x =>
    match float_mul x n with
    | Some y => Ok (PFloat y)
    | None => Raise OverflowError
    end
  | PInt a => Ok (PInt (a * n))
  end.

(** [f"{x:.2f}"]; an int (here always 0) prints with two zero decimals. *)
Definition num_format_2f (x : pynum) : string :=
  match x with
  | PFloat x => float_format_2f x
  | PInt n => str_of_int n +:+ ".00"
  end.

Definition _hugepage_to_gb (size : string) : result pynum :=
  let size_upper := str_upper size in
  if str_endswith size_upper "G" then
    x ← py_float (str_init size_upper); Ok (PFloat x)
  else if str_endswith size_upper "M" then
    x ← py_float (str_init size_upper); Ok (PFloat (float_div x 1024))
  else if str_endswith size_upper "K" then
    x ← py_float (str_init size_upper); Ok (PFloat (float_div x (1024 * 1024)))
  else Ok (PInt 0).

Definition _validate_cpu (s : summary) (requirements : request) : cpu_check :=
  let result := mk_cpu_check true [] [] [] in
  let cpus := default 0 (cpus_per_node s) in
  let numa_nodes := default 1 (numa_nodes_per_node s) in
  let ht_enabled := default true (hyperthreading_enabled s) in
  match reserved_cpu_count requirements with
  | None => cpu_invalid (cpu_error msg_reserved_required result)
  | Some reserved =>
    let result :=
      when (reserved <? 2)
        (fun r => cpu_recommend msg_reserve_more (cpu_warning msg_reserved_low r))
        result in
    let '(isolated, result) :=
      match isolated_cpu_count requirements with
      | None =>
        let isolated := cpus - reserved in
        (isolated, cpu_recommend (msg_isolated_derived isolated) result)
      | Some isolated => (isolated, result)
      end in
    let total_required := isolated + reserved in
    let result :=
      when (total_required >? cpus)
        (fun r => cpu_error (msg_total_exceeds total_required cpus) (cpu_invalid r))
        result in
    let result :=
      when (numa_nodes >? 1)
        (fun r =>
           cpu_recommend (msg_numa_aligned numa_nodes)
             (when (negb (reserved mod numa_nodes =? 0))
                (cpu_warning (msg_numa_uneven reserved numa_nodes)) r))
        result in
    when ht_enabled (cpu_recommend msg_hyperthreading) result
  end.

Definition _validate_rt_kernel (s : summary) (requirements : request) : result rt_check :=
  let result := mk_rt_check true [] [] in
  let enable_rt := default false (enable_rt_kernel requirements) in
  architecture ← first_architecture s;
  let workload := default "" (workload_type requirements) in
  if enable_rt then
    let result := rt_recommend msg_rt_enabled result in
    let result :=
      when (str_contains "aarch64" architecture || str_contains "arm64" architecture)
        (rt_warning msg_rt_arm) result in
    Ok (when (str_in workload ["database"; "ai-inference"])
          (rt_warning (msg_rt_not_required workload)) result)
  else
    Ok (when (str_in workload ["5g-ran"; "telco-vnf"])
          (rt_recommend (msg_rt_recommended workload)) result).

Definition valid_sizes_x86 : list string := ["2M"; "1G"].
Definition valid_sizes_arm : list string := ["64K"; "2M"; "32M"; "512M"; "1G"].

(** The whitelist check of the huge-page size against the architecture. *)
Definition check_hugepage_size (architecture hugepage_size : string) (r : hp_check) : hp_check :=
  if str_contains "x86" architecture || str_contains "amd64" architecture then
    when (negb (str_in hugepage_size valid_sizes_x86))
      (fun r => hp_invalid (hp_error (msg_invalid_size hugepage_size "x86_64" valid_sizes_x86) r))
      r
  else if str_contains "aarch64" architecture || str_contains "arm64" architecture then
    when (negb (str_in hugepage_size valid_sizes_arm))
      (fun r => hp_invalid (hp_error (msg_invalid_size hugepage_size "aarch64" valid_sizes_arm) r))
      r
  else r.

Definition _validate_hugepages (s : summary) (requirements : request) : result hp_check :=
  let result := mk_hp_check true [] [] in
  let hugepage_size := hugepages_size requirements in
  let hugepage_count := hugepages_count requirements in
  architecture ← first_architecture s;
  result ←
    match hugepage_size with
    | Some size =>
      if truthy_str hugepage_size then
        let result := check_hugepage_size architecture size result in
        match hugepage_count with
        | Some count =>
          if truthy_int hugepage_count then
            size_gb ← _hugepage_to_gb size;
            total_gb ← num_mul size_gb count;
            Ok (hp_recommend (msg_hugepages_reserve (num_format_2f total_gb)) result)
          else Ok (hp_recommend msg_count_missing result)
        | None => Ok (hp_recommend msg_count_missing result)
        end
      else Ok result
    | None => Ok result
    end;
  let dpdk := default false (enable_dpdk requirements) in
  Ok (when (dpdk && negb (truthy_str hugepage_size)) (hp_recommend msg_dpdk_hugepages) result).

Definition _validate_power_mode (requirements : request) : pm_check :=
  let result := mk_pm_check [] [] in
  let mode := default "default" (power_mode requirements) in
  let per_pod_pm := default false (per_pod_power_management requirements) in
  let result :=
    when (str_in mode ["low-latency"; "ultra-low-latency"])
      (pm_warning (msg_power_consumption mode)) result in
  when (per_pod_pm && negb (String.eqb mode "default"))
    (pm_warning msg_per_pod_exclusive) result.

Definition validate (s : summary) (requirements : request) : result report :=
  let cpu_validation := _validate_cpu s requirements in
  let valid := cpu_is_valid cpu_validation in
  let errs := if cpu_is_valid cpu_validation then [] else cpu_errors cpu_validation in
  let warns := cpu_warnings cpu_validation in
  let recs := cpu_recommendations cpu_validation in
  rt_validation ← _validate_rt_kernel s requirements;
  let warns := warns ++ rt_warnings rt_validation in
  let recs := recs ++ rt_recommendations rt_validation in
  hugepages_validation ← _validate_hugepages s requirements;
  let warns :=
    if hp_is_valid hugepages_validation then warns
    else warns ++ hp_errors hugepages_validation in
  let recs := recs ++ hp_recommendations hugepages_validation in
  let power_validation := _validate_power_mode requirements in
  let warns := warns ++ pm_warnings power_validation in
  Ok (mk_report valid errs warns recs
        (mk_checks cpu_validation rt_validation hugepages_validation power_validation)
        (if valid then status_valid else status_invalid)).

End validator.

(** ** Python objects in a store

    The generator builds and updates dictionaries in place, and the template
    it receives is an entry of a catalog shared by all calls.  Dictionaries
    and lists are objects of a store; a value refers to them by location. *)

Abbreviation loc := positive (only parsing).

Inductive pyval : Type :=
  | VNone
  | VBool (b : bool)
  | VInt (n : Z)
  | VStr (s : string)
  | VRef (l : loc).

Inductive pyobj : Type :=
  | ODict (d : gmap string pyval)
  | OList (xs : list pyval).

Abbreviation store := (gmap loc pyobj) (only parsing).

(** A computation reads and updates the store and returns or raises; the
    updates made before an exception stay. *)
Definition state (A : Type) : Type := store -> result A * store.

#[global] Instance state_ret : MRet state := fun A a h => (Ok a, h).
#[global] Instance state_bind : MBind state := fun A B f m h =>
  match m h with
  | (Ok a, h') => f a h'
  | (Raise e, h') => (Raise e, h')
  end.

Definition raise {A} (e : exn) : state A := fun h => (Raise e, h).

(** [pass] *)
Definition pass : state unit := mret tt.

Definition lift {A} (r : result A) : state A := fun h => (r, h).

(** A new object. *)
Definition alloc (o : pyobj) : state loc := fun h =>
  let l := fresh (dom h) in (Ok l, <[l := o]> h).

(** The object at a location.  A store reached by running the code has no
    dangling reference; reading one is an error. *)
Definition deref (l : loc) : state pyobj := fun h =>
  match h !! l with
  | Some o => (Ok o, h)
  | None => (Raise TypeError, h)
  end.

Definition is_none (v : pyval) : bool :=
  match v with
  | VNone => true
  | _ => false
  end.

(** [v == s] for a string constant [s]. *)
Definition str_eq (v : pyval) (s : string) : bool :=
  match v with
  | VStr s' => String.eqb s' s
  | _ => false
  end.

(** Truth value: [None], [False], [0], the empty string, dictionary and
    list are false. *)
Definition truthy (v : pyval) : state bool :=
  match v with
  | VNone => mret false
  | VBool b => mret b
  | VInt n => mret (negb (n =? 0))
  | VStr s => mret (negb (String.eqb s ""))
  | VRef l =>
    o ← deref l;
    match o with
    | ODict d => mret (negb (bool_decide (d = ∅)))
    | OList xs => mret (negb (bool_decide (xs = [])))
    end
  end.

(** The attribute lookup [v.get]: only a dictionary has the method. *)
Definition py_get_method (v : pyval) : state unit :=
  match v with
  | VRef l =>
    o ← deref l;
    match o with
    | ODict _ => mret tt
    | OList _ => raise AttributeError
    end
  | _ => raise AttributeError
  end.

(** [v.get(key, dflt)] *)
Definition py_get (v : pyval) (key : string) (dflt : pyval) : state pyval :=
  match v with
  | VRef l =>
    o ← deref l;
    match o with
    | ODict d => mret (default dflt (d !! key))
    | OList _ => raise AttributeError
    end
  | _ => raise AttributeError
  end.

(** [v.copy()]: a shallow copy of a dictionary or of a list. *)
Definition py_copy (v : pyval) : state loc :=
  match v with
  | VRef l => o ← deref l; alloc o
  | _ => raise AttributeError
  end.

(** [params[key] = value] for a string key. *)
Definition dict_set (params : loc) (key : string) (value : pyval) : state unit := fun h =>
  match h !! params with
  | Some (ODict d) => (Ok tt, <[params := ODict (<[key := value]> d)]> h)
  | _ => (Raise TypeError, h)
  end.

(** [key in params] for a string key. *)
Definition py_contains (params : loc) (key : string) : state bool :=
  o ← deref params;
  match o with
  | ODict d => mret (bool_decide (is_Some (d !! key)))
  | OList xs => mret (existsb (fun v => str_eq v key) xs)
  end.

(** [v >= n] for an int [n]. *)
Definition py_ge_int (v : pyval) (n : Z) : state bool :=
  match v with
  | VInt m => mret (m >=? n)
  | VBool b => mret ((if b then 1 else 0) >=? n)
  | _ => raise TypeError
  end.

(** ** PPCCommandGenerator *)

Section generator.
Context `{PyFloat}.

Definition _get_base_defaults : state loc :=
  alloc (ODict (list_to_map [
    ("enable_rt_kernel", VBool false);
    ("disable_ht", VBool false);
    ("enable_dpdk", VBool false);
    ("power_mode", VStr "default");
    ("topology_policy", VStr "restricted");
    ("split_reserved_across_numa", VBool false);
    ("per_pod_power_management", VBool false)])).

(** [int(n * 0.1)] *)
Definition int_times_tenth (n : Z) : result Z :=
  match float_mul float_tenth n with
  | Some x => float_to_int x
  | None => Raise OverflowError
  end.

Definition _calculate_reserved_cpus (s : summary) (workload : string) : result Z :=
  let cpus := default 0 (cpus_per_node s) in
  let numa_nodes := default 1 (numa_nodes_per_node s) in
  if cpus =? 0 then Ok 4
  else
    let base_reserved := Z.max 2 (numa_nodes * 2) in
    reserved ←
      (if str_in workload ["5g-ran"; "telco-vnf"] then Ok base_reserved
       else if String.eqb workload "database" then
         t ← int_times_tenth cpus; Ok (Z.max 4 t)
       else if String.eqb workload "ai-inference" then Ok base_reserved
       else t ← int_times_tenth cpus; Ok (Z.max 4 t));
    Ok (Z.max 2 (Z.min reserved (cpus / 4))).

(** The three blocks of [_adjust_parameters], in the order of the source. *)

(** Per-pod power management and a non-default power mode are mutually
    exclusive. *)
Definition resolve_power_mode (params : loc) : state unit :=
  per_pod ← py_get (VRef params) "per_pod_power_management" VNone;
  per_pod ← truthy per_pod;
  exclusive ←
    (if per_pod : bool then
       mode ← py_get (VRef params) "power_mode" VNone;
       mret (negb (str_eq mode "default"))
     else mret false);
  if exclusive : bool then dict_set params "power_mode" (VStr "default") else pass.

(** The topology policy for DPDK. *)
Definition resolve_topology_policy (params : loc) : state unit :=
  dpdk ← py_get (VRef params) "enable_dpdk" VNone;
  dpdk ← truthy dpdk;
  if dpdk : bool then
    policy ← py_get (VRef params) "topology_policy" VNone;
    if negb (str_eq policy "single-numa-node" || str_eq policy "restricted") then
      dict_set params "topology_policy" (VStr "single-numa-node")
    else pass
  else pass.

(** The split of the reserved CPUs across several NUMA nodes. *)
Definition resolve_numa_split (s : summary) (params : loc) : state unit :=
  let numa_nodes := default 1 (numa_nodes_per_node s) in
  if numa_nodes >? 1 then
    split ← py_get (VRef params) "split_reserved_across_numa" VNone;
    split ← truthy split;
    if negb split then
      reserved ← py_get (VRef params) "reserved_cpu_count" (VInt 0);
      fits ← py_ge_int reserved (numa_nodes * 2);
      if fits : bool then dict_set params "split_reserved_across_numa" (VBool true)
      else pass
    else pass
  else pass.

Definition _adjust_parameters (s : summary) (params : loc) : state loc :=
  resolve_power_mode params;;
  resolve_topology_policy params;;
  resolve_numa_split s params;;
  mret params.

(** The loop over [overrides.items()].  The keys of the keyword dictionary
    are distinct, so the dictionary built does not depend on the order in
    which the items are visited. *)
Fixpoint apply_overrides (params : loc) (items : list (string * pyval)) : state unit :=
  match items with
  | [] => pass
  | (key, value) :: items =>
    (if negb (is_none value) then dict_set params key value else pass);;
    apply_overrides params items
  end.

(** The body of [generate_parameters] up to the call of
    [_adjust_parameters]: template or base defaults, the two names, the
    computed reservation, the overrides. *)
Definition merge_parameters (s : summary) (workload mcp_name profile_name : string)
    (template : pyval) (overrides : gmap string pyval) : state loc :=
  use_template ← truthy template;
  params ←
    (if use_template : bool then
       py_get_method template;;
       empty ← alloc (ODict ∅);
       config ← py_get template "default_config" (VRef empty);
       py_copy config
     else _get_base_defaults);
  dict_set params "mcp_name" (VStr mcp_name);;
  dict_set params "profile_name" (VStr profile_name);;
  (if negb (bool_decide (is_Some (overrides !! "reserved_cpu_count")))
      || is_none (default VNone (overrides !! "reserved_cpu_count")) then
     present ← py_contains params "reserved_cpu_count";
     if negb present then
       reserved ← lift (_calculate_reserved_cpus s workload);
       dict_set params "reserved_cpu_count" (VInt reserved)
     else pass
   else pass);;
  apply_overrides params (map_to_list overrides);;
  mret params.

Definition generate_parameters (s : summary) (workload mcp_name profile_name : string)
    (template : pyval) (overrides : gmap string pyval) : state loc :=
  params ← merge_parameters s workload mcp_name profile_name template overrides;
  _adjust_parameters s params.

End generator.

(** ** WorkloadTemplates

    The class attribute [TEMPLATES] is a dictionary literal; evaluating it
    allocates, per entry and in this order, the entry's [default_config],
    [recommended_hugepages] and [use_cases] and then the entry. *)

Definition new_dict (items : list (string * pyval)) : state loc :=
  alloc (ODict (list_to_map items)).

Definition new_list (xs : list pyval) : state loc :=
  alloc (OList xs).

Definition new_template (name description : string)
    (rt ht dpdk : bool) (mode policy : string) (split per_pod : bool)
    (hp_size hp_note : string) (use_cases : list string) : state pyval :=
  config ← new_dict [
    ("enable_rt_kernel", VBool rt);
    ("disable_ht", VBool ht);
    ("enable_dpdk", VBool dpdk);
    ("power_mode", VStr mode);
    ("topology_policy", VStr policy);
    ("split_reserved_across_numa", VBool split);
    ("per_pod_power_management", VBool per_pod)];
  hugepages ← new_dict [("size", VStr hp_size); ("note", VStr hp_note)];
  cases ← new_list (VStr <$> use_cases);
  entry ← new_dict [
    ("name", VStr name);
    ("description", VStr description);
    ("default_config", VRef config);
    ("recommended_hugepages", VRef hugepages);
    ("use_cases", VRef cases)];
  mret (VRef entry).

Definition TEMPLATES : state loc :=
  ran ← new_template "5G RAN (Radio Access Network)"
    ("Optimized for 5G Radio Access Network workloads requiring " +:+
     "ultra-low latency and deterministic performance. " +:+
     "Uses real-time kernel, disabled hyperthreading, and aggressive power settings.")
    true true true "ultra-low-latency" "single-numa-node" true false
    "1G" "1G hugepages recommended for DPDK packet processing"
    ["5G base station processing"; "Real-time radio signal processing";
     "Ultra-low latency packet processing"];
  vnf ← new_template "Telco VNF (Virtual Network Function)"
    ("Optimized for Telco VNF workloads including packet processing, " +:+
     "session border controllers, and network functions. " +:+
     "Enables RT kernel and DPDK for high-performance networking.")
    true false true "low-latency" "single-numa-node" true false
    "1G" "1G hugepages recommended for DPDK"
    ["Virtual routers"; "Session border controllers"; "Packet gateways";
     "DPI (Deep Packet Inspection)"];
  database ← new_template "Database Server"
    ("Optimized for database workloads requiring memory optimization " +:+
     "and consistent performance. Uses hugepages for memory management " +:+
     "but does not require RT kernel.")
    false false false "default" "restricted" true false
    "2M" "2M hugepages for database shared memory buffers"
    ["PostgreSQL"; "MySQL/MariaDB"; "MongoDB"; "Oracle Database"];
  inference ← new_template "AI/ML Inference"
    ("Optimized for AI/ML inference workloads requiring CPU isolation " +:+
     "and consistent performance. Does not use RT kernel but isolates " +:+
     "CPUs for predictable inference latency.")
    false false false "low-latency" "single-numa-node" true false
    "2M" "2M hugepages for model data structures"
    ["TensorFlow Serving"; "PyTorch inference"; "ONNX Runtime"; "Real-time AI inference"];
  hpc ← new_template "High Performance Computing"
    ("Optimized for HPC workloads requiring maximum compute throughput " +:+
     "and NUMA awareness. Focuses on CPU isolation and memory locality.")
    false false false "low-latency" "single-numa-node" true false
    "1G" "1G hugepages for large memory allocations"
    ["Scientific computing"; "Computational fluid dynamics"; "Molecular dynamics";
     "Weather simulation"];
  trading ← new_template "Low-Latency Trading"
    ("Optimized for financial trading systems requiring microsecond latency. " +:+
     "Uses RT kernel, disabled HT, and ultra-low-latency power mode.")
    true true true "ultra-low-latency" "single-numa-node" true false
    "1G" "1G hugepages for lock-free data structures"
    ["High-frequency trading"; "Market data processing"; "Order matching engines";
     "Risk calculation engines"];
  media ← new_template "Media Processing"
    ("Optimized for real-time media encoding/transcoding workloads. " +:+
     "Balances between throughput and latency.")
    false false false "default" "restricted" true true
    "2M" "2M hugepages for frame buffers"
    ["Video transcoding"; "Live streaming"; "Real-time video processing";
     "Audio processing"];
  new_dict [
    ("5g-ran", ran);
    ("telco-vnf", vnf);
    ("database", database);
    ("ai-inference", inference);
    ("hpc", hpc);
    ("low-latency-trading", trading);
    ("media-processing", media)].

(** [cls.TEMPLATES.get(workload_type)] *)
Definition get_template (templates : loc) (workload : string) : state pyval :=
  py_get (VRef templates) workload VNone.

(** ** A reference instance of the float interface

    Exact fractions, enough to run the definitions on the sizes and CPU
    counts of the examples: on these inputs binary64 computes the same
    results.  [float(s)] accepts plain decimal digits only. *)

Definition digit_value (c : ascii) : option Z :=
  let n := N_of_ascii c in
  if ((48 <=? n) && (n <=? 57))%N then Some (Z.of_N (n - 48)) else None.

Fixpoint parse_digits (acc : Z) (s : string) : option Z :=
  match s with
  | EmptyString => Some acc
  | String c s' =>
    match digit_value c with
    | Some d => parse_digits (10 * acc + d) s'
    | None => None
    end
  end.

Definition fraction : Type := Z * positive.

Definition fraction_of_str (s : string) : option fraction :=
  match s with
  | EmptyString => None
  | _ => n ← parse_digits 0 s; Some (n, 1%positive)
  end.

Definition fraction_div (x : fraction) (n : Z) : fraction :=
  (x.1, (x.2 * Z.to_pos n)%positive).

Definition fraction_mul (x : fraction) (n : Z) : option fraction :=
  Some (x.1 * n, x.2).

Definition fraction_to_int (x : fraction) : result Z :=
  Ok (Z.quot x.1 (Z.pos x.2)).

(** Hundredths of a fraction, rounded to nearest, ties to even. *)
Definition fraction_hundredths (x : fraction) : Z :=
  let n := x.1 * 100 in
  let d := Z.pos x.2 in
  let q := n / d in
  let r := n mod d in
  if 2 * r >? d then q + 1
  else if (2 * r =? d) && Z.odd q then q + 1
  else q.

Definition two_digits (n : Z) : string :=
  if n <? 10 then "0" +:+ str_of_int n else str_of_int n.

Definition fraction_format_2f (x : fraction) : string :=
  let h := fraction_hundredths x in
  (if h <? 0 then "-" else "") +:+
  str_of_int (Z.abs h / 100) +:+ "." +:+ two_digits (Z.abs h mod 100).

#[global] Instance fraction_float : PyFloat.
Proof.
  refine {|
    pyfloat := fraction;
    float_of_str := fraction_of_str;
    float_div := fraction_div;
    float_mul := fraction_mul;
    float_tenth := (1, 10%positive);
    float_to_int := fraction_to_int;
    float_format_2f := fraction_format_2f
  |}.
  intros n _. exists (n, 10%positive).
  unfold fraction_mul, fraction_to_int. simpl.
  split; [now rewrite Z.mul_1_l | reflexivity].
Defined.

(** ** Inputs of the examples and notions of the statements *)

(** The hardware of the repository's local test. *)
Definition test_summary : summary :=
  mk_summary (Some 48) (Some 2) (Some true) (Some ["amd64"]).

(** Test case 2 of the local test, "Too Many Reserved CPUs (Should Fail)". *)
Definition too_many_reserved : request :=
  mk_request (Some "database") None (Some 46) (Some false) None None None None None.

(** A size that is not a huge-page size of x86_64. *)
Definition odd_hugepages : request :=
  mk_request (Some "database") None (Some 8) None None (Some "3M") None None None.

(** A summary whose list of architectures is empty. *)
Definition no_architecture : summary :=
  mk_summary (Some 48) (Some 2) (Some true) (Some []).


(** The huge-page sizes accepted on an architecture, when it has a list. *)
Definition whitelist (architecture : string) : option (list string) :=
  if str_contains "x86" architecture || str_contains "amd64" architecture
  then Some valid_sizes_x86
  else if str_contains "aarch64" architecture || str_contains "arm64" architecture
  then Some valid_sizes_arm
  else None.


(** A summary of one x86_64 node pool. *)
Definition x86_summary : summary :=
  mk_summary (Some 48) (Some 2) (Some true) (Some ["x86_64"]).

(** Huge pages of an odd size with a count, and with a count of zero. *)
Definition odd_hugepages_counted : request :=
  mk_request (Some "database") None (Some 8) None None (Some "3M") (Some 4) None None.


(** The summary with its [cpus_per_node] replaced. *)
Definition set_cpus_per_node (cpus : Z) (s : summary) : summary :=
  mk_summary (Some cpus) (numa_nodes_per_node s) (hyperthreading_enabled s)
    (architectures s).

(** The reservation for the workloads outside 5g-ran, telco-vnf and
    ai-inference as the specification words it: [max(4, round(cpus * 0.1))]
    clamped to [[2, cpus // 4]], and 4 when [cpus] is zero.  [round] is to
    the nearest int, ties to even. *)
Definition round_tenth (n : Z) : Z :=
  let q := n / 10 in
  let r := n mod 10 in
  if r <? 5 then q
  else if 5 <? r then q + 1
  else if Z.even q then q else q + 1.

Definition spec_reserved_cpus (cpus : Z) : Z :=
  if cpus =? 0 then 4
  else Z.max 2 (Z.min (Z.max 4 (round_tenth cpus)) (cpus / 4)).

(** The workloads that take the base reservation. *)
Definition base_workload (workload : string) : bool :=
  str_in workload ["5g-ran"; "telco-vnf"; "ai-inference"].

(** One NUMA node and an unknown number of CPUs. *)
Definition one_numa_node : summary :=
  mk_summary None (Some 1) (Some true) (Some ["amd64"]).

(** The overrides of the scenario: per-pod power management together with
    the low-latency power mode. *)
Definition conflicting_overrides : gmap string pyval :=
  {[ "per_pod_power_management" := VBool true; "power_mode" := VStr "low-latency" ]}.

(** A synthesis from the catalog entry of 5g-ran with per-pod power
    management requested: the resolved power mode, and the power mode that
    the entry's [default_config] holds afterwards. *)
Definition synthesis_from_catalog `{PyFloat} : state (pyval * pyval) :=
  templates ← TEMPLATES;
  template ← get_template templates "5g-ran";
  params ← generate_parameters test_summary "5g-ran" "worker-cnf" "performance"
             template {[ "per_pod_power_management" := VBool true ]};
  resolved ← py_get (VRef params) "power_mode" VNone;
  config ← py_get template "default_config" VNone;
  kept ← py_get config "power_mode" VNone;
  mret (resolved, kept).

(** The warning of the CPU check about a reservation that the NUMA nodes do
    not divide. *)
Definition is_numa_warning (w : string) : bool :=
  String.prefix "Reserved CPUs (" w.



(** An explicit isolated count that does not fit the 48 CPUs. *)
Definition oversized_request : request :=
  mk_request (Some "database") (Some 44) (Some 8) None None None None None None.

(** A reservation that two NUMA nodes do not divide. *)
Definition uneven_request : request :=
  mk_request (Some "5g-ran") None (Some 7) (Some true) None None None None None.

(** The first statement of [generate_parameters]: the dictionary that
    [params] starts from, a copy of the template's [default_config] or the
    base defaults. *)
Definition initial_parameters (template : pyval) : state loc :=
  use_template ← truthy template;
  if use_template : bool then
    py_get_method template;;
    empty ← alloc (ODict ∅);
    config ← py_get template "default_config" (VRef empty);
    py_copy config
  else _get_base_defaults.

(** The keys that [_adjust_parameters] may bind. *)
Definition adjusted_keys : list string :=
  ["power_mode"; "topology_policy"; "split_reserved_across_numa"].

(** The keys that [generate_parameters] binds before the overrides. *)
Definition computed_keys : list string :=
  ["mcp_name"; "profile_name"; "reserved_cpu_count"].

(** The base defaults as a dictionary. *)
Definition base_defaults : gmap string pyval :=
  list_to_map [
    ("enable_rt_kernel", VBool false);
    ("disable_ht", VBool false);
    ("enable_dpdk", VBool false);
    ("power_mode", VStr "default");
    ("topology_policy", VStr "restricted");
    ("split_reserved_across_numa", VBool false);
    ("per_pod_power_management", VBool false)].

(** A value of an override that counts: present and not [None]. *)
Definition given (v : option pyval) : bool :=
  match v with
  | Some v => negb (is_none v)
  | None => false
  end.

(** Requests to the generator used in the examples: a reservation given as
    text, and overrides that are all [None]. *)
Definition text_reservation : gmap string pyval :=
  {[ "reserved_cpu_count" := VStr "8" ]}.
Definition none_overrides : gmap string pyval :=
  {[ "reserved_cpu_count" := VNone; "power_mode" := VNone; "enable_dpdk" := VNone ]}.
Definition database_overrides : gmap string pyval :=
  {[ "reserved_cpu_count" := VInt 6; "enable_rt_kernel" := VBool true ]}.

(** The overrides that count: the items whose value is not [None]. *)
Definition effective (overrides : gmap string pyval) : gmap string pyval :=
  filter (fun item => is_none item.2 = false) overrides.

(** Parameter dictionaries used in the examples, and the store that holds
    one of them at location 1. *)
Definition conflicting_parameters : gmap string pyval :=
  {[ "per_pod_power_management" := VBool true; "power_mode" := VStr "low-latency";
     "enable_dpdk" := VBool true; "topology_policy" := VStr "best-effort";
     "reserved_cpu_count" := VInt 8; "mcp_name" := VStr "worker-cnf" ]}.
Definition text_parameters : gmap string pyval :=
  <["reserved_cpu_count" := VStr "8"]> base_defaults.
Definition parameter_store (d : gmap string pyval) : store :=
  {[ 1%positive := ODict d ]}.

(** A store with one template: its [default_config] at location 1, the
    template at location 2. *)
Definition media_config : gmap string pyval :=
  list_to_map [
    ("enable_rt_kernel", VBool false);
    ("disable_ht", VBool false);
    ("enable_dpdk", VBool false);
    ("power_mode", VStr "default");
    ("topology_policy", VStr "restricted");
    ("split_reserved_across_numa", VBool true);
    ("per_pod_power_management", VBool true)].
Definition media_template : gmap string pyval :=
  {[ "name" := VStr "Media Processing"; "default_config" := VRef 1%positive ]}.
Definition media_store : store :=
  {[ 1%positive := ODict media_config; 2%positive := ODict media_template ]}.

(** ** The tool [validate_performance_requirements]

    The requirements dictionary that the tool builds from its arguments: it
    has no entry for per-pod power management. *)
Definition tool_requirements (workload : string) (isolated reserved : option Z)
    (rt_kernel dpdk : bool) (size : option string) (count : option Z)
    (mode : string) : request :=
  mk_request (Some workload) isolated reserved (Some rt_kernel) (Some dpdk)
    size count (Some mode) None.

(** The warnings of the power check start with a P, no other warning
    does. *)
Definition concerns_power (w : string) : bool := String.prefix "P" w.

(** Per-pod power management asked for together with a power mode. *)
Definition per_pod_low_latency : request :=
  mk_request (Some "custom") None (Some 4) None None None None
    (Some "low-latency") (Some true).

(** ** The tool [generate_ppc_command]

    The arguments of the tool, with the types it declares. *)
Record ppc_arguments : Type := mk_ppc_arguments {
  arg_workload_type : string;
  arg_mcp_name : string;
  arg_profile_name : string;
  arg_isolated_cpu_count : option Z;
  arg_reserved_cpu_count : option Z;
  arg_enable_rt_kernel : bool;
  arg_disable_ht : bool;
  arg_enable_dpdk : bool;
  arg_power_mode : string;
  arg_topology_policy : string;
  arg_split_reserved_across_numa : bool;
  arg_per_pod_power_management : bool
}.

Definition optional_int (o : option Z) : pyval :=
  match o with
  | Some n => VInt n
  | None => VNone
  end.

(** The keyword arguments that the tool passes to [generate_parameters]. *)
Definition tool_overrides (a : ppc_arguments) : gmap string pyval :=
  list_to_map [
    ("isolated_cpu_count", optional_int (arg_isolated_cpu_count a));
    ("reserved_cpu_count", optional_int (arg_reserved_cpu_count a));
    ("enable_rt_kernel", VBool (arg_enable_rt_kernel a));
    ("disable_ht", VBool (arg_disable_ht a));
    ("enable_dpdk", VBool (arg_enable_dpdk a));
    ("power_mode", VStr (arg_power_mode a));
    ("topology_policy", VStr (arg_topology_policy a));
    ("split_reserved_across_numa", VBool (arg_split_reserved_across_numa a));
    ("per_pod_power_management", VBool (arg_per_pod_power_management a))].

(** The tool up to the parameters: the template of the workload type, then
    [generate_parameters].  [templates] is the location of [TEMPLATES]. *)
Definition generate_ppc_command_parameters `{PyFloat} (s : summary) (templates : loc)
    (a : ppc_arguments) : state loc :=
  template ← get_template templates (arg_workload_type a);
  generate_parameters s (arg_workload_type a) (arg_mcp_name a) (arg_profile_name a)
    template (tool_overrides a).

(** The tool's arguments of the examples: the defaults of the tool for the
    workload 5g-ran. *)
Definition default_arguments : ppc_arguments :=
  mk_ppc_arguments "5g-ran" "worker-cnf" "performance" None None
    false false false "default" "restricted" false false.

(** What a call gives: the content of the dictionary it returns, or the
    exception. *)
Definition outcome (r : result loc * store) : result (option pyobj) :=
  match r.1 with
  | Ok p => Ok (r.2 !! p)
  | Raise e => Raise e
  end.

(** The seven keys of the base defaults. *)
Definition config_keys : list string :=
  ["enable_rt_kernel"; "disable_ht"; "enable_dpdk"; "power_mode"; "topology_policy";
   "split_reserved_across_numa"; "per_pod_power_management"].

(** A template whose [default_config] is a dictionary with none but the
    seven keys and without references; a catalog of such templates. *)
Definition is_ref (v : pyval) : bool :=
  match v with
  | VRef _ => true
  | _ => false
  end.

Definition plain_config (cfg : gmap string pyval) : bool :=
  forallb (fun item : string * pyval => str_in item.1 config_keys && negb (is_ref item.2))
    (map_to_list cfg).

Definition template_ok (h : store) (v : pyval) : bool :=
  match v with
  | VRef t =>
    match h !! t with
    | Some (ODict td) =>
      match td !! "default_config" with
      | Some (VRef c) =>
        match h !! c with
        | Some (ODict cfg) => plain_config cfg
        | _ => false
        end
      | _ => false
      end
    | _ => false
    end
  | _ => false
  end.

Definition catalog_ok (r : result loc * store) : bool :=
  match r with
  | (Ok templates, h) =>
    match h !! templates with
    | Some (ODict catalog) =>
      forallb (fun item : string * pyval => template_ok h item.2) (map_to_list catalog)
    | _ => false
    end
  | _ => false
  end.

(** ** The must-gather parser

    The nodes are the dictionaries that [_extract_node_info] and
    [_parse_nodes_fallback] build, with the keys the summary reads (the
    memory, kernel, image and label entries are left out).  The CPU count of
    a node is the number that [_extract_node_info] and
    [_extract_cpu_topology] both read from the node's capacity. *)

Record topology : Type := mk_topology {
  top_total_cpus : Z;
  top_numa_nodes : Z;
  top_cores_per_socket : Z;
  top_threads_per_core : Z;
  top_sockets : Z
}.

Record node : Type := mk_node {
  node_name : string;
  node_roles : list string;
  node_architecture : string;
  node_capacity : Z;
  node_allocatable : Z;
  node_topology : topology
}.

Definition _estimate_numa_nodes (cpu_count : Z) : Z :=
  if cpu_count >=? 64 then 4
  else if cpu_count >=? 32 then 2
  else 1.

(** [_extract_cpu_topology], from the CPU count on. *)
Definition _extract_cpu_topology (cpu_count : Z) : topology :=
  mk_topology cpu_count (_estimate_numa_nodes cpu_count)
    (if cpu_count >? 0 then cpu_count / 2 else 0)
    2
    (if cpu_count >? 16 then 2 else 1).

Definition _parse_nodes_fallback : list node :=
  [mk_node "sample-worker" ["worker"] "amd64" 48 47 (mk_topology 48 2 12 2 2)].

(** The end of [_parse_nodes]: [nodes] are the nodes read from the node
    files. *)
Definition _parse_nodes (nodes : list node) : list node :=
  match nodes with
  | [] => _parse_nodes_fallback
  | _ => nodes
  end.

(** [list(set(xs))]: the distinct elements, in an order that the hashes
    decide. *)
Class PySet : Type := {
  set_list : list string -> list string;
  set_list_perm : forall xs, set_list xs ≡ₚ remove_dups xs
}.

(** The summary dictionary: the error, or the eight entries.  The sample
    topology is [None] for the empty dictionary. *)
Record cluster_summary : Type := mk_cluster_summary {
  sum_total_nodes : Z;
  sum_worker_nodes : Z;
  sum_total_cpus : Z;
  sum_cpus_per_node : Z;
  sum_architectures : list string;
  sum_numa_nodes_per_node : Z;
  sum_hyperthreading_enabled : bool;
  sum_sample_topology : option topology
}.

Inductive generated_summary : Type :=
  | SummaryError (error : string)
  | Summary (c : cluster_summary).

(** ["master" not in roles and "control-plane" not in roles] *)
Definition is_worker (n : node) : bool :=
  negb (str_in "master" (node_roles n)) && negb (str_in "control-plane" (node_roles n)).

Definition py_len {A} (xs : list A) : Z := Z.of_nat (length xs).

Definition py_sum (xs : list Z) : Z := foldl Z.add 0 xs.

Definition _generate_summary `{PySet} (nodes : list node) : generated_summary :=
  match nodes with
  | [] => SummaryError "No nodes found"
  | _ =>
    let worker_nodes := filter (fun n => is_worker n = true) nodes in
    let worker_nodes :=
      match worker_nodes with
      | [] => nodes
      | _ => worker_nodes
      end in
    let total_cpus := py_sum (node_capacity <$> worker_nodes) in
    let architectures := set_list (node_architecture <$> worker_nodes) in
    let sample_topology := node_topology <$> head worker_nodes in
    Summary (mk_cluster_summary
      (py_len nodes)
      (py_len worker_nodes)
      total_cpus
      (default 0 (node_capacity <$> head worker_nodes))
      architectures
      (default 1 (top_numa_nodes <$> sample_topology))
      (default 1 (top_threads_per_core <$> sample_topology) >? 1)
      sample_topology)
  end.

(** The summary as the validator and the generator read it:
    [hardware_info.get("summary", {})] and then [.get] on the entries. *)
Definition summary_view (g : generated_summary) : summary :=
  match g with
  | SummaryError _ => mk_summary None None None None
  | Summary c =>
    mk_summary (Some (sum_cpus_per_node c)) (Some (sum_numa_nodes_per_node c))
      (Some (sum_hyperthreading_enabled c)) (Some (sum_architectures c))
  end.

(** [analyze_hardware], from the nodes read from the node files on. *)
Definition analyze_hardware `{PySet} (nodes : list node) : list node * generated_summary :=
  let nodes := _parse_nodes nodes in
  (nodes, _generate_summary nodes).

(** A reference instance: the distinct elements in the order of their first
    occurrence. *)
#[global] Instance first_occurrence_set : PySet :=
  {| set_list := remove_dups; set_list_perm := fun xs => reflexivity (remove_dups xs) |}.

(** A node as [_extract_node_info] builds it: its topology is the one
    estimated from its capacity. *)
Definition extracted (n : node) : Prop :=
  node_topology n = _extract_cpu_topology (node_capacity n).

(** Example clusters: three control-plane nodes only, and two workers
    beside one control-plane node. *)
Definition extract_node (name : string) (roles : list string) (architecture : string)
    (cpu_count : Z) : node :=
  mk_node name roles architecture cpu_count cpu_count (_extract_cpu_topology cpu_count).
Definition mixed_cluster : list node :=
  [extract_node "master-0" ["control-plane"] "amd64" 16;
   extract_node "worker-0" ["worker"] "arm64" 64;
   extract_node "worker-1" ["worker"] "arm64" 64].

(** ** The conflict-resolution blocks as guarded updates

    Each block of [_adjust_parameters] evaluates a condition on the
    parameter dictionary [d] (and, for the truth value of a reference, on the
    store [h]) and, when it holds, binds one key. *)

(** The truth value of [v] in the store [h]. *)
Definition truthy_in (h : store) (v : pyval) : result bool := (truthy v h).1.

(** [v >= n] as a result. *)
Definition ge_int (v : pyval) (n : Z) : result bool :=
  match v with
  | VInt m => Ok (m >=? n)
  | VBool b => Ok ((if b then 1 else 0) >=? n)
  | _ => Raise TypeError
  end.

Definition power_mode_conflict (h : store) (d : gmap string pyval) : result bool :=
  per_pod ← truthy_in h (default VNone (d !! "per_pod_power_management"));
  Ok (per_pod && negb (str_eq (default VNone (d !! "power_mode")) "default")).

Definition policy_conflict (h : store) (d : gmap string pyval) : result bool :=
  dpdk ← truthy_in h (default VNone (d !! "enable_dpdk"));
  Ok (dpdk &&
      negb (str_eq (default VNone (d !! "topology_policy")) "single-numa-node"
            || str_eq (default VNone (d !! "topology_policy")) "restricted")).

Definition split_wanted (s : summary) (h : store) (d : gmap string pyval) : result bool :=
  let numa_nodes := default 1 (numa_nodes_per_node s) in
  if numa_nodes >? 1 then
    split ← truthy_in h (default VNone (d !! "split_reserved_across_numa"));
    if negb split then
      ge_int (default (VInt 0) (d !! "reserved_cpu_count")) (numa_nodes * 2)
    else Ok false
  else Ok false.

(** The dictionary at [params] with [key] bound to [value] when [c]. *)
Definition bind_if (c : bool) (key : string) (value : pyval)
    (d : gmap string pyval) : gmap string pyval :=
  if c then <[key := value]> d else d.

Definition store_if (c : bool) (params : loc) (key : string) (value : pyval)
    (d : gmap string pyval) (h : store) : store :=
  if c then <[params := ODict (<[key := value]> d)]> h else h.

(** A parameter dictionary on which no block has anything to do. *)
Definition settled (s : summary) (h : store) (d : gmap string pyval) : Prop :=
  power_mode_conflict h d = Ok false /\
  policy_conflict h d = Ok false /\
  split_wanted s h d = Ok false.

(** [_adjust_parameters] on the dictionary [d]: the three conditions, each
    read from [d] itself, and the keys they bind. *)
Definition resolved (s : summary) (h : store) (d : gmap string pyval)
    : result (gmap string pyval) :=
  c1 ← power_mode_conflict h d;
  c2 ← policy_conflict h d;
  c3 ← split_wanted s h d;
  Ok (bind_if c3 "split_reserved_across_numa" (VBool true)
        (bind_if c2 "topology_policy" (VStr "single-numa-node")
           (bind_if c1 "power_mode" (VStr "default") d))).

(** The dictionary after the loop over the overrides: every item whose
    value is not [None] is bound, in the order of the items. *)
Definition dict_update_non_none (items : list (string * pyval))
    (d : gmap string pyval) : gmap string pyval :=
  foldl (fun d item => if is_none item.2 then d else <[item.1 := item.2]> d) d items.

(** The body of [generate_parameters] between its first statement and the
    call of [_adjust_parameters], on the dictionary [d0] the parameters
    start from. *)
Definition merged `{PyFloat} (s : summary) (workload mcp_name profile_name : string)
    (overrides : gmap string pyval) (d0 : gmap string pyval)
    : result (gmap string pyval) :=
  let d := <["profile_name" := VStr profile_name]> (<["mcp_name" := VStr mcp_name]> d0) in
  d ← (if given (overrides !! "reserved_cpu_count") then Ok d
       else if bool_decide (is_Some (d !! "reserved_cpu_count")) then Ok d
       else reserved ← _calculate_reserved_cpus s workload;
            Ok (<["reserved_cpu_count" := VInt reserved]> d));
  Ok (dict_update_non_none (map_to_list overrides) d).

(** ** The command

    [build_command] reads the parameters; beside the exceptions of the
    other functions it can raise [KeyError]. *)
Inductive command_result (A : Type) : Type :=
  | Built (a : A)
  | Fails (e : exn)
  | KeyError (key : string).
Arguments Built {A} a.
Arguments Fails {A} e.
Arguments KeyError {A} key.

#[global] Instance command_ret : MRet command_result := fun A a => Built a.
#[global] Instance command_bind : MBind command_result := fun A B f m =>
  match m with
  | Built a => f a
  | Fails e => Fails e
  | KeyError key => KeyError key
  end.

Definition of_result {A} (r : result A) : command_result A :=
  match r with
  | Ok a => Built a
  | Raise e => Fails e
  end.

(** [str(v)] of a container and [text.lower()] are the interpreter's; of
    the latter only the two truth values are needed. *)
Class PyText : Type := {
  obj_str : store -> loc -> string;
  str_lower : string -> string;
  str_lower_True : str_lower "True" = "true";
  str_lower_False : str_lower "False" = "false"
}.

(** [str(v)], as an f-string inserts it. *)
Definition py_str `{PyText} (h : store) (v : pyval) : string :=
  match v with
  | VNone => "None"
  | VBool true => "True"
  | VBool false => "False"
  | VInt n => str_of_int n
  | VStr text => text
  | VRef l => obj_str h l
  end.

(** [self.summary.get("architectures", ["amd64"])[0]] *)
Definition command_architecture (s : summary) : result string :=
  match default ["amd64"] (architectures s) with
  | [] => Raise IndexError
  | a :: _ => Ok a
  end.

(** [params[key]] *)
Definition py_getitem (d : gmap string pyval) (key : string) : command_result pyval :=
  match d !! key with
  | Some v => Built v
  | None => KeyError key
  end.

(** [if c: cmd_parts.append(part)] *)
Definition append_if (c : bool) (part : string) (cmd_parts : list string) : list string :=
  if c then cmd_parts ++ [part] else cmd_parts.

(** The list [cmd_parts] at the end of [build_command], for the
    dictionary [d] of the parameters. *)
Definition command_parts `{PyText} (must_gather_path : string) (h : store)
    (d : gmap string pyval) : command_result (list string) :=
  let image_tag := "4.11" in
  let cmd_parts := [
    "podman run --entrypoint performance-profile-creator";
    "-v " +:+ must_gather_path +:+ ":/must-gather:z";
    "quay.io/openshift/origin-cluster-node-tuning-operator:" +:+ image_tag;
    "--must-gather-dir-path /must-gather"] in
  mcp_name ← py_getitem d "mcp_name";
  let cmd_parts := cmd_parts ++ ["--mcp-name " +:+ py_str h mcp_name] in
  profile_name ← py_getitem d "profile_name";
  let cmd_parts := cmd_parts ++ ["--profile-name " +:+ py_str h profile_name] in
  reserved ← py_getitem d "reserved_cpu_count";
  let cmd_parts := cmd_parts ++ ["--reserved-cpu-count " +:+ py_str h reserved] in
  let rt_kernel := default (VBool false) (d !! "enable_rt_kernel") in
  let cmd_parts := cmd_parts ++ ["--rt-kernel " +:+ str_lower (py_str h rt_kernel)] in
  disable_ht ← of_result (truthy_in h (default VNone (d !! "disable_ht")));
  let cmd_parts := append_if disable_ht "--disable-ht" cmd_parts in
  enable_dpdk ← of_result (truthy_in h (default VNone (d !! "enable_dpdk")));
  let cmd_parts := append_if enable_dpdk "--user-level-networking" cmd_parts in
  split ← of_result (truthy_in h (default VNone (d !! "split_reserved_across_numa")));
  let cmd_parts := append_if split "--split-reserved-cpus-across-numa" cmd_parts in
  per_pod ← of_result (truthy_in h (default VNone (d !! "per_pod_power_management")));
  let cmd_parts := append_if per_pod "--per-pod-power-management" cmd_parts in
  let power_mode := default (VStr "default") (d !! "power_mode") in
  let cmd_parts :=
    append_if (negb (str_eq power_mode "default"))
      ("--power-consumption-mode " +:+ py_str h power_mode) cmd_parts in
  let topology_policy := default (VStr "restricted") (d !! "topology_policy") in
  let cmd_parts := cmd_parts ++ ["--topology-manager-policy " +:+ py_str h topology_policy] in
  let cmd_parts := cmd_parts ++ ["> performance-profile.yaml"] in
  Built cmd_parts.

(** The separator of the parts: a space, a backslash, a line feed and two
    spaces. *)
Definition command_separator : string := " \" +:+ String "010"%char "  ".

Definition build_command `{PyText} (s : summary) (must_gather_path : string)
    (params : loc) (h : store) : command_result string :=
  _ ← of_result (command_architecture s);
  match h !! params with
  | Some (ODict d) =>
    cmd_parts ← command_parts must_gather_path h d;
    Built (str_join command_separator cmd_parts)
  | _ => Fails TypeError
  end.

(** A reference instance: lower case of the ASCII letters; the examples
    print no container. *)
Definition ascii_lower (c : ascii) : ascii :=
  let n := N_of_ascii c in
  if ((65 <=? n) && (n <=? 90))%N then ascii_of_N (n + 32) else c.

Fixpoint ascii_str_lower (text : string) : string :=
  match text with
  | EmptyString => EmptyString
  | String c rest => String (ascii_lower c) (ascii_str_lower rest)
  end.

#[global] Instance ascii_text : PyText :=
  {| obj_str := fun _ _ => "{...}";
     str_lower := ascii_str_lower;
     str_lower_True := eq_refl;
     str_lower_False := eq_refl |}.

(** The flags of the command. *)
Definition is_power_mode_flag (part : string) : bool :=
  String.prefix "--power-consumption-mode " part.

(** The catalog in the store that [TEMPLATES] builds. *)
Definition catalog_store : store := (TEMPLATES ∅).2.
Definition catalog_location : loc :=
  match (TEMPLATES ∅).1 with
  | Ok templates => templates
  | Raise _ => 1%positive
  end.

(** The tool's parameters for its default arguments, against the catalog. *)
Definition default_run `{PyFloat} : result loc * store :=
  generate_ppc_command_parameters test_summary catalog_location default_arguments
    catalog_store.

(** The resolved parameters of the conflicting overrides and the parts of
    their command. *)
Definition conflicting_run `{PyFloat} : result loc * store :=
  generate_parameters test_summary "custom" "worker-cnf" "performance" VNone
    conflicting_overrides ∅.
Definition conflicting_resolved `{PyFloat} : gmap string pyval :=
  match conflicting_run.2 !! 1%positive with
  | Some (ODict d) => d
  | _ => ∅
  end.
Definition conflicting_parts `{PyFloat} `{PyText} : list string :=
  match command_parts "/must-gather" conflicting_run.2 conflicting_resolved with
  | Built parts => parts
  | _ => []
  end.

(** ** The tool [get_workload_recommendations]

    The workload type, the recommended settings and the reasoning; the
    entry [template_details] is left out. *)
Record workload_recommendations : Type := mk_recommendations {
  rec_workload_type : string;
  rec_settings : gmap string pyval;
  rec_reasoning : list string
}.

(** [any(kw in description for kw in keywords)] *)
Definition mentions (description : string) (keywords : list string) : bool :=
  existsb (fun kw => str_contains kw description) keywords.

Definition classify (workload : string) (reason : string)
    (r : workload_recommendations) : workload_recommendations :=
  mk_recommendations workload (rec_settings r) (rec_reasoning r ++ [reason]).

Definition recommend (key : string) (value : pyval)
    (r : workload_recommendations) : workload_recommendations :=
  mk_recommendations (rec_workload_type r) (<[key := value]> (rec_settings r))
    (rec_reasoning r).

Definition reason (text : string) (r : workload_recommendations)
    : workload_recommendations :=
  mk_recommendations (rec_workload_type r) (rec_settings r) (rec_reasoning r ++ [text]).

Definition get_workload_recommendations `{PyText} (workload_description : string)
    : workload_recommendations :=
  let description_lower := str_lower workload_description in
  let r := mk_recommendations "custom" ∅ [] in
  let r :=
    if mentions description_lower ["5g"; "ran"; "radio"; "baseband"] then
      classify "5g-ran" "Detected 5G/RAN workload - requires ultra-low latency" r
    else if mentions description_lower ["database"; "db"; "sql"; "postgres"; "mysql"] then
      classify "database" "Detected database workload - requires memory optimization" r
    else if mentions description_lower ["ai"; "ml"; "inference"; "tensorflow"; "pytorch"] then
      classify "ai-inference" "Detected AI/ML workload - requires CPU isolation" r
    else if mentions description_lower ["vnf"; "telco"; "nfv"] then
      classify "telco-vnf" "Detected Telco VNF workload - requires RT kernel and DPDK" r
    else r in
  let r :=
    when (mentions description_lower
            ["real-time"; "realtime"; "rt"; "low latency"; "latency-sensitive"])
      (fun r =>
         reason "Real-time/low-latency keywords detected - enabling RT kernel"
           (recommend "power_mode" (VStr "ultra-low-latency")
              (recommend "enable_rt_kernel" (VBool true) r)))
      r in
  let r :=
    when (mentions description_lower ["dpdk"; "user space networking"; "packet processing"])
      (fun r =>
         reason "DPDK/packet processing detected - enabling user-level networking"
           (recommend "topology_policy" (VStr "single-numa-node")
              (recommend "enable_dpdk" (VBool true) r)))
      r in
  let r :=
    when (mentions description_lower ["power efficient"; "power saving"; "energy"])
      (fun r =>
         reason "Power efficiency mentioned - enabling per-pod power management"
           (recommend "power_mode" (VStr "default")
              (recommend "per_pod_power_management" (VBool true) r)))
      r in
  when (mentions description_lower ["numa"; "locality"; "affinity"])
    (fun r =>
       reason "NUMA awareness mentioned - setting single-numa-node policy"
         (recommend "topology_policy" (VStr "single-numa-node") r))
    r.

(** ** Preservation of the store

    [keeps h0 m Q]: run in a store that extends [h0], the computation [m]
    ends in a store that still extends [h0] (no object of [h0] is updated),
    and a value it returns satisfies [Q]. *)
Definition keeps {A} (h0 : store) (m : state A) (Q : A -> Prop) : Prop :=
  forall h, h0 ⊆ h -> h0 ⊆ (m h).2 /\ forall a, (m h).1 = Ok a -> Q a.

(** * Properties of the validator *)

Section validator_facts.
Context `{PyFloat}.

Implicit Types (s : summary) (req : request) (rep : report).

(** The report of [validate] is assembled from the four checks. *)
Lemma validate_inv s req rep :
  validate s req = Ok rep ->
  exists rt hp,
    _validate_rt_kernel s req = Ok rt /\
    _validate_hugepages s req = Ok hp /\
    rep = mk_report
      (cpu_is_valid (_validate_cpu s req))
      (if cpu_is_valid (_validate_cpu s req) then [] else cpu_errors (_validate_cpu s req))
      ((if hp_is_valid hp
        then cpu_warnings (_validate_cpu s req) ++ rt_warnings rt
        else (cpu_warnings (_validate_cpu s req) ++ rt_warnings rt) ++ hp_errors hp)
       ++ pm_warnings (_validate_power_mode req))
      ((cpu_recommendations (_validate_cpu s req) ++ rt_recommendations rt)
       ++ hp_recommendations hp)
      (mk_checks (_validate_cpu s req) rt hp (_validate_power_mode req))
      (if cpu_is_valid (_validate_cpu s req) then status_valid else status_invalid).
Proof.
  unfold validate. intros Hv.
  destruct (_validate_rt_kernel s req) as [rt|e]; [|discriminate].
  destruct (_validate_hugepages s req) as [hp|e]; [|discriminate].
  simpl in Hv. injection Hv as <-. by exists rt, hp.
Qed.






(** With the isolated count derived from the reservation the fit check
    compares [cpus_per_node] with itself: the CPU check accepts. *)
Lemma _validate_cpu_derived s req reserved :
  reserved_cpu_count req = Some reserved ->
  isolated_cpu_count req = None ->
  cpu_is_valid (_validate_cpu s req) = true /\ cpu_errors (_validate_cpu s req) = [].
Proof.
  intros Hres Hiso. unfold _validate_cpu. rewrite Hres, Hiso. simpl.
  replace (default 0 (cpus_per_node s) - reserved + reserved >? default 0 (cpus_per_node s))
    with false by (symmetry; rewrite Z.gtb_ltb; apply Z.ltb_ge; lia).
  unfold when. repeat case_match; simplify_eq/=; done.
Qed.

Lemma str_in_false (x : string) (xs : list string) :
  x ∉ xs -> str_in x xs = false.
Proof.
  unfold str_in. induction xs as [|y xs IH]; [done|].
  intros [Hne Hnot]%not_elem_of_cons. simpl.
  rewrite (IH Hnot), orb_false_r. by apply String.eqb_neq.
Qed.

(** A non-empty size outside the whitelist of the architecture makes the
    huge-pages check invalid, with one error. *)
Lemma _validate_hugepages_rejects s req architecture size sizes hp :
  first_architecture s = Ok architecture ->
  hugepages_size req = Some size -> size <> "" ->
  whitelist architecture = Some sizes -> size ∉ sizes ->
  _validate_hugepages s req = Ok hp ->
  hp_is_valid hp = false /\
  exists name, hp_errors hp = [msg_invalid_size size name sizes].
Proof.
  intros Ha Hsize Hne Hwl Hout. unfold _validate_hugepages.
  rewrite Ha, Hsize. simpl.
  assert (String.eqb size "" = false) as -> by by apply String.eqb_neq.
  simpl.
  assert (exists name,
    check_hugepage_size architecture size (mk_hp_check true [] []) =
    mk_hp_check false [msg_invalid_size size name sizes] []) as [name Hchk].
  { unfold check_hugepage_size, whitelist in *.
    destruct (str_contains "x86" architecture || str_contains "amd64" architecture).
    - injection Hwl as <-. exists "x86_64".
      by rewrite (str_in_false _ _ Hout).
    - destruct (str_contains "aarch64" architecture || str_contains "arm64" architecture);
        [|discriminate].
      injection Hwl as <-. exists "aarch64".
      by rewrite (str_in_false _ _ Hout). }
  rewrite Hchk. clear Hchk. unfold when.
  intros Hhp.
  repeat (case_match; simplify_eq/=); eauto.
  all: destruct (_hugepage_to_gb size) as [gb|]; simplify_eq/=.
  all: destruct (num_mul gb _) as [total|]; simplify_eq/=; eauto.
Qed.





End validator_facts.

Section validator_claims.
Context `{PyFloat}.

Implicit Types (s : summary) (req : request) (rep : report).

(** C1 (the code departs from the claim).  On the hardware of the local
    test (48 CPUs, 2 NUMA nodes) the request of its test case 2, a database
    workload reserving 46 CPUs with no isolated count, is accepted: the
    report is valid and carries no error.  The isolated count is derived as
    [48 - 46], so the fit check compares 48 with 48. *)
Theorem validate_too_many_reserved_accepted :
  exists rep,
    validate test_summary too_many_reserved = Ok rep /\
    is_valid rep = true /\
    errors rep = [] /\
    cpu_is_valid (chk_cpu (detailed_checks rep)) = true /\
    overall_status rep = status_valid.
Proof.
  eexists. split; [reflexivity|]. repeat split.
Qed.

(** C2, amended.  Whenever [validate] returns a report, its [is_valid] is
    the [is_valid] of the CPU check and of nothing else: it is true exactly
    when a reserved count is given and the isolated count (given, or derived
    as [cpus_per_node - reserved]) plus the reserved count does not exceed
    [cpus_per_node].  The RT-kernel, huge-pages and power-mode checks do not
    enter it. *)
Theorem validate_is_valid_cpu_only s req rep :
  validate s req = Ok rep ->
  chk_cpu (detailed_checks rep) = _validate_cpu s req /\
  is_valid rep = cpu_is_valid (chk_cpu (detailed_checks rep)) /\
  (is_valid rep = true <->
   exists reserved,
     reserved_cpu_count req = Some reserved /\
     default (default 0 (cpus_per_node s) - reserved) (isolated_cpu_count req) + reserved
       <= default 0 (cpus_per_node s)).
Proof.
  intros (rt & hp & _ & _ & ->)%validate_inv. simpl.
  split; [done|]. split; [done|].
  unfold _validate_cpu, when.
  destruct (reserved_cpu_count req) as [reserved|]; simpl.
  - destruct (isolated_cpu_count req) as [isolated|]; simpl.
    all: repeat case_match; simpl.
    all: repeat match goal with
           | Hc : (_ >? _) = _ |- _ =>
             rewrite Z.gtb_ltb in Hc;
             first [apply Z.ltb_lt in Hc | apply Z.ltb_ge in Hc]
           end.
    all: split;
      [ intros ?; first [discriminate | exists reserved; split; [done|lia]]
      | intros (r & [= <-] & Hle); first [done | lia] ].
  - split; [discriminate|]. by intros (r & ? & _).
Qed.




End validator_claims.

(** ** The validator on concrete requests *)

(** C2, counterexample.  On the test hardware a request with the huge-page
    size "3M" is reported valid although its huge-pages check is invalid:
    the aggregate [is_valid] does not wait for the huge-pages check. *)
Lemma validate_valid_despite_hugepages :
  exists rep,
    validate test_summary odd_hugepages = Ok rep /\
    is_valid rep = true /\
    cpu_is_valid (chk_cpu (detailed_checks rep)) = true /\
    hp_is_valid (chk_hugepages (detailed_checks rep)) = false.
Proof.
  eexists. split; [reflexivity|]. repeat split.
Qed.

Lemma validate_is_valid_cpu_only_witness :
  exists rep,
    validate test_summary odd_hugepages = Ok rep /\
    chk_cpu (detailed_checks rep) = _validate_cpu test_summary odd_hugepages /\
    is_valid rep = cpu_is_valid (chk_cpu (detailed_checks rep)) /\
    (is_valid rep = true <->
     exists reserved,
       reserved_cpu_count odd_hugepages = Some reserved /\
       default (default 0 (cpus_per_node test_summary) - reserved)
         (isolated_cpu_count odd_hugepages) + reserved
       <= default 0 (cpus_per_node test_summary)).
Proof.
  eexists. split; [reflexivity|].
  apply (validate_is_valid_cpu_only test_summary odd_hugepages). reflexivity.
Defined.







(** * Properties of the generator *)

Section reserved_cpus.
Context `{PyFloat}.

Implicit Types (s : summary) (workload : string).

(** [int(n * 0.1)] on an int of machine size. *)
Lemma int_times_tenth_quot (n : Z) :
  - 2 ^ 32 < n < 2 ^ 32 -> int_times_tenth n = Ok (Z.quot n 10).
Proof.
  intros Hn. unfold int_times_tenth.
  destruct (float_tenth_trunc n Hn) as (x & -> & ->). done.
Qed.

(** The two closed forms of the heuristic on a non-zero number of CPUs. *)
Lemma _calculate_reserved_cpus_base s workload :
  base_workload workload = true ->
  default 0 (cpus_per_node s) <> 0 ->
  _calculate_reserved_cpus s workload =
  Ok (Z.max 2 (Z.min (Z.max 2 (default 1 (numa_nodes_per_node s) * 2))
                 (default 0 (cpus_per_node s) / 4))).
Proof.
  intros Hbase Hnz. unfold _calculate_reserved_cpus.
  apply Z.eqb_neq in Hnz as ->.
  unfold base_workload, str_in in *. simpl in *.
  destruct (String.eqb workload "5g-ran"); simpl in *; [done|].
  destruct (String.eqb workload "telco-vnf"); simpl in *; [done|].
  destruct (String.eqb workload "database") eqn:Hdb; simpl.
  - apply String.eqb_eq in Hdb. subst. discriminate.
  - by destruct (String.eqb workload "ai-inference").
Qed.

Lemma _calculate_reserved_cpus_other s workload :
  base_workload workload = false ->
  default 0 (cpus_per_node s) <> 0 ->
  - 2 ^ 32 < default 0 (cpus_per_node s) < 2 ^ 32 ->
  _calculate_reserved_cpus s workload =
  Ok (Z.max 2 (Z.min (Z.max 4 (Z.quot (default 0 (cpus_per_node s)) 10))
                 (default 0 (cpus_per_node s) / 4))).
Proof.
  intros Hbase Hnz Hrange. unfold _calculate_reserved_cpus.
  apply Z.eqb_neq in Hnz as ->.
  unfold base_workload, str_in in *. simpl in *.
  destruct (String.eqb workload "5g-ran"); simpl in *; [done|].
  destruct (String.eqb workload "telco-vnf"); simpl in *; [done|].
  destruct (String.eqb workload "ai-inference"); simpl in *; [done|].
  rewrite (int_times_tenth_quot _ Hrange).
  by destruct (String.eqb workload "database").
Qed.

End reserved_cpus.

Section reserved_cpus_claims.
Context `{PyFloat}.

Implicit Types (s : summary) (workload : string).

(** C3, amended.  For a workload outside 5g-ran, telco-vnf and ai-inference
    (database included) and a number of CPUs below 2^32 in absolute value,
    the heuristic returns 4 when [cpus_per_node] is unknown or zero, and
    otherwise [max(4, int(cpus * 0.1))], the product truncated toward zero
    (the quotient by ten), taken through [max(2, min(., cpus // 4))]. *)
Theorem reserved_cpus_default_workload s workload :
  base_workload workload = false ->
  - 2 ^ 32 < default 0 (cpus_per_node s) < 2 ^ 32 ->
  _calculate_reserved_cpus s workload =
  Ok (if default 0 (cpus_per_node s) =? 0 then 4
      else Z.max 2 (Z.min (Z.max 4 (Z.quot (default 0 (cpus_per_node s)) 10))
                      (default 0 (cpus_per_node s) / 4))).
Proof.
  intros Hbase Hrange.
  destruct (Z.eqb_spec (default 0 (cpus_per_node s)) 0) as [Hz|Hnz].
  - unfold _calculate_reserved_cpus. by rewrite Hz.
  - by apply _calculate_reserved_cpus_other.
Qed.

(** C8, amended.  For a fixed workload and topology the heuristic is
    non-decreasing in [cpus_per_node] over the non-zero values: for
    [a <= b] with [a] non-zero (both below 2^32 in absolute value) it
    returns at [a] and at [b], and the result at [a] is at most the result
    at [b].  The value zero stands for an unknown number of CPUs and is
    answered by the fixed default 4. *)
Theorem reserved_cpus_monotone s workload (a b : Z) :
  a <> 0 -> a <= b -> - 2 ^ 32 < a -> b < 2 ^ 32 ->
  exists ra rb,
    _calculate_reserved_cpus (set_cpus_per_node a s) workload = Ok ra /\
    _calculate_reserved_cpus (set_cpus_per_node b s) workload = Ok rb /\
    ra <= rb.
Proof.
  intros Ha Hab Hlo Hhi.
  assert (a / 4 <= b / 4) as Hdiv by (apply Z.div_le_mono; lia).
  assert (Z.quot a 10 <= Z.quot b 10) as Hquot by (apply Z.quot_le_mono; lia).
  assert (a < 0 -> a / 4 < 0) as Hneg by (intros; apply Z.div_lt_upper_bound; lia).
  destruct (base_workload workload) eqn:Hbase.
  - rewrite (_calculate_reserved_cpus_base (set_cpus_per_node a s)); [|done..].
    destruct (Z.eq_dec b 0) as [->|Hb].
    + do 2 eexists. split; [done|]. split; [reflexivity|]. simpl. lia.
    + rewrite (_calculate_reserved_cpus_base (set_cpus_per_node b s)); [|done..].
      do 2 eexists. split; [done|]. split; [done|]. simpl. lia.
  - rewrite (_calculate_reserved_cpus_other (set_cpus_per_node a s)); [|done|done|simpl; lia].
    destruct (Z.eq_dec b 0) as [->|Hb].
    + do 2 eexists. split; [done|]. split; [reflexivity|]. simpl. lia.
    + rewrite (_calculate_reserved_cpus_other (set_cpus_per_node b s)); [|done|done|simpl; lia].
      do 2 eexists. split; [done|]. split; [done|]. simpl. lia.
Qed.

End reserved_cpus_claims.

(** ** The heuristic on concrete topologies *)

(** C3, counterexample.  On 48 CPUs the database reservation is 4: the
    product 4.8 is truncated, where rounding to the nearest int gives
    [max(4, 5) = 5]. *)
Lemma reserved_cpus_database_48 :
  _calculate_reserved_cpus test_summary "database" = Ok 4 /\
  spec_reserved_cpus 48 = 5.
Proof. split; reflexivity. Qed.

Lemma reserved_cpus_default_workload_witness :
  _calculate_reserved_cpus test_summary "database" =
  Ok (if default 0 (cpus_per_node test_summary) =? 0 then 4
      else Z.max 2 (Z.min (Z.max 4 (Z.quot (default 0 (cpus_per_node test_summary)) 10))
                      (default 0 (cpus_per_node test_summary) / 4))).
Proof.
  apply (reserved_cpus_default_workload test_summary "database"); [reflexivity|].
  simpl. lia.
Defined.

(** C8, counterexample.  With one NUMA node the 5g-ran reservation is 4 on
    an unknown number of CPUs (zero) and 2 on 48 CPUs. *)
Lemma reserved_cpus_drop_after_zero :
  _calculate_reserved_cpus (set_cpus_per_node 0 one_numa_node) "5g-ran" = Ok 4 /\
  _calculate_reserved_cpus (set_cpus_per_node 48 one_numa_node) "5g-ran" = Ok 2.
Proof. split; reflexivity. Qed.

Lemma reserved_cpus_monotone_witness :
  exists ra rb,
    _calculate_reserved_cpus (set_cpus_per_node 16 test_summary) "database" = Ok ra /\
    _calculate_reserved_cpus (set_cpus_per_node 96 test_summary) "database" = Ok rb /\
    ra <= rb.
Proof.
  apply (reserved_cpus_monotone test_summary "database" 16 96); lia.
Defined.

(** ** The store *)

Section store_facts.

Implicit Types (h : gmap positive pyobj) (d : gmap string pyval).
Implicit Types (p l : positive) (v x : pyval) (k : string).

Lemma truthy_store v h : (truthy v h).2 = h.
Proof.
  destruct v as [| | | |l]; try done. simpl. unfold mbind, state_bind, deref.
  by destruct (h !! l) as [[d|xs]|].
Qed.

Lemma truthy_eq v h : truthy v h = (truthy_in h v, h).
Proof.
  unfold truthy_in. rewrite <- (truthy_store v h) at 3. by destruct (truthy v h).
Qed.

Lemma py_get_dict h p d k x :
  h !! p = Some (ODict d) ->
  py_get (VRef p) k x h = (Ok (default x (d !! k)), h).
Proof. intros Hd. unfold py_get, mbind, state_bind, deref. by rewrite Hd. Qed.

Lemma dict_set_dict h p d k x :
  h !! p = Some (ODict d) ->
  dict_set p k x h = (Ok tt, <[p := ODict (<[k := x]> d)]> h).
Proof. intros Hd. unfold dict_set. by rewrite Hd. Qed.

Lemma py_ge_int_eq v n h : py_ge_int v n h = (ge_int v n, h).
Proof. by destruct v. Qed.

(** Binding a key of the dictionary at [p] does not change the truth value
    of a value read from that dictionary. *)
Lemma truthy_in_insert h p d k x k0 v0 :
  h !! p = Some (ODict d) ->
  (forall l, v0 <> VRef l) ->
  truthy_in (<[p := ODict (<[k := x]> d)]> h) (default v0 (d !! k0)) =
  truthy_in h (default v0 (d !! k0)).
Proof.
  intros Hd Hv0. unfold truthy_in.
  destruct (d !! k0) as [v|] eqn:Hk0; simpl.
  - destruct v as [| | | |l]; try done. simpl. unfold mbind, state_bind, deref.
    destruct (decide (l = p)) as [->|Hne].
    + rewrite lookup_insert_eq, Hd. simpl.
      rewrite !bool_decide_eq_false_2; [done| |].
      * intros ->. by rewrite lookup_empty in Hk0.
      * apply insert_non_empty.
    + rewrite lookup_insert_ne by congruence.
      by destruct (h !! l) as [[?|?]|].
  - destruct v0 as [| | | |l]; try done. by destruct (Hv0 l).
Qed.

End store_facts.

(** ** The blocks of the conflict resolution *)

Section adjust_facts.

Implicit Types (s : summary) (h : gmap positive pyobj) (d : gmap string pyval).
Implicit Types (p l : positive) (v x : pyval) (k : string) (c : bool).

Lemma store_if_lookup c p k x d h :
  h !! p = Some (ODict d) ->
  store_if c p k x d h !! p = Some (ODict (bind_if c k x d)).
Proof. intros Hd. destruct c; simpl; [apply lookup_insert_eq|done]. Qed.

Lemma resolve_power_mode_spec h p d :
  h !! p = Some (ODict d) ->
  resolve_power_mode p h =
  match power_mode_conflict h d with
  | Ok c => (Ok tt, store_if c p "power_mode" (VStr "default") d h)
  | Raise e => (Raise e, h)
  end.
Proof.
  intros Hd. unfold resolve_power_mode, power_mode_conflict, mbind, state_bind, result_bind.
  rewrite (py_get_dict h p d) by done. rewrite truthy_eq.
  destruct (truthy_in h _) as [[|]|e]; try done.
  rewrite (py_get_dict h p d) by done. simpl.
  destruct (str_eq _ _); simpl; [done|].
  by rewrite (dict_set_dict h p d).
Qed.

Lemma resolve_topology_policy_spec h p d :
  h !! p = Some (ODict d) ->
  resolve_topology_policy p h =
  match policy_conflict h d with
  | Ok c => (Ok tt, store_if c p "topology_policy" (VStr "single-numa-node") d h)
  | Raise e => (Raise e, h)
  end.
Proof.
  intros Hd. unfold resolve_topology_policy, policy_conflict, mbind, state_bind, result_bind.
  rewrite (py_get_dict h p d) by done. rewrite truthy_eq.
  destruct (truthy_in h _) as [[|]|e]; try done.
  rewrite (py_get_dict h p d) by done. simpl.
  destruct (negb _); simpl; [|done].
  by rewrite (dict_set_dict h p d).
Qed.

Lemma resolve_numa_split_spec s h p d :
  h !! p = Some (ODict d) ->
  resolve_numa_split s p h =
  match split_wanted s h d with
  | Ok c => (Ok tt, store_if c p "split_reserved_across_numa" (VBool true) d h)
  | Raise e => (Raise e, h)
  end.
Proof.
  intros Hd. unfold resolve_numa_split, split_wanted, mbind, state_bind, result_bind.
  destruct (_ >? 1); [|done].
  rewrite (py_get_dict h p d) by done. rewrite truthy_eq.
  destruct (truthy_in h _) as [[|]|e]; try done. cbn [negb].
  rewrite (py_get_dict h p d) by done. rewrite py_ge_int_eq.
  destruct (ge_int _ _) as [[|]|e]; try done.
  by rewrite (dict_set_dict h p d).
Qed.

(** A block's condition does not depend on the keys bound by the others. *)
Lemma power_mode_conflict_frame c p k x d h :
  h !! p = Some (ODict d) ->
  k <> "per_pod_power_management" -> k <> "power_mode" ->
  power_mode_conflict (store_if c p k x d h) (bind_if c k x d) = power_mode_conflict h d.
Proof.
  intros Hd Hk1 Hk2. destruct c; [|done]. simpl. unfold power_mode_conflict.
  rewrite !lookup_insert_ne by done. by rewrite truthy_in_insert.
Qed.

Lemma policy_conflict_frame c p k x d h :
  h !! p = Some (ODict d) ->
  k <> "enable_dpdk" -> k <> "topology_policy" ->
  policy_conflict (store_if c p k x d h) (bind_if c k x d) = policy_conflict h d.
Proof.
  intros Hd Hk1 Hk2. destruct c; [|done]. simpl. unfold policy_conflict.
  rewrite !lookup_insert_ne by done. by rewrite truthy_in_insert.
Qed.

Lemma split_wanted_frame s c p k x d h :
  h !! p = Some (ODict d) ->
  k <> "split_reserved_across_numa" -> k <> "reserved_cpu_count" ->
  split_wanted s (store_if c p k x d h) (bind_if c k x d) = split_wanted s h d.
Proof.
  intros Hd Hk1 Hk2. destruct c; [|done]. simpl. unfold split_wanted.
  rewrite !lookup_insert_ne by done. by rewrite truthy_in_insert.
Qed.

(** Once a block has bound its key, its condition is false. *)
Lemma power_mode_conflict_done c p d h :
  h !! p = Some (ODict d) ->
  power_mode_conflict h d = Ok c ->
  power_mode_conflict (store_if c p "power_mode" (VStr "default") d h)
    (bind_if c "power_mode" (VStr "default") d) = Ok false.
Proof.
  intros Hd Hc. destruct c; [|done]. simpl. revert Hc. unfold power_mode_conflict.
  rewrite (lookup_insert_ne d "power_mode" "per_pod_power_management") by done.
  rewrite truthy_in_insert by done.
  rewrite lookup_insert_eq. simpl.
  destruct (truthy_in h _) as [b|e]; simpl; [|done].
  intros _. by rewrite andb_false_r.
Qed.

Lemma policy_conflict_done c p d h :
  h !! p = Some (ODict d) ->
  policy_conflict h d = Ok c ->
  policy_conflict (store_if c p "topology_policy" (VStr "single-numa-node") d h)
    (bind_if c "topology_policy" (VStr "single-numa-node") d) = Ok false.
Proof.
  intros Hd Hc. destruct c; [|done]. simpl. revert Hc. unfold policy_conflict.
  rewrite (lookup_insert_ne d "topology_policy" "enable_dpdk") by done.
  rewrite truthy_in_insert by done.
  rewrite lookup_insert_eq. simpl.
  destruct (truthy_in h _) as [b|e]; simpl; [|done].
  intros _. by rewrite andb_false_r.
Qed.

Lemma split_wanted_done s c p d h :
  h !! p = Some (ODict d) ->
  split_wanted s h d = Ok c ->
  split_wanted s (store_if c p "split_reserved_across_numa" (VBool true) d h)
    (bind_if c "split_reserved_across_numa" (VBool true) d) = Ok false.
Proof.
  intros Hd Hc. destruct c; [|done]. simpl. revert Hc. unfold split_wanted.
  destruct (_ >? 1); [|done]. by rewrite lookup_insert_eq.
Qed.

End adjust_facts.

Section adjust_parameters_facts.

Implicit Types (s : summary) (h : gmap positive pyobj) (d : gmap string pyval).
Implicit Types (p l : positive) (v x : pyval) (k : string) (c : bool).

(** [_adjust_parameters] on a dictionary: three guarded updates in a row. *)
Lemma _adjust_parameters_spec s h p d :
  h !! p = Some (ODict d) ->
  _adjust_parameters s p h =
  match power_mode_conflict h d with
  | Raise e => (Raise e, h)
  | Ok c1 =>
    let d1 := bind_if c1 "power_mode" (VStr "default") d in
    let h1 := store_if c1 p "power_mode" (VStr "default") d h in
    match policy_conflict h1 d1 with
    | Raise e => (Raise e, h1)
    | Ok c2 =>
      let d2 := bind_if c2 "topology_policy" (VStr "single-numa-node") d1 in
      let h2 := store_if c2 p "topology_policy" (VStr "single-numa-node") d1 h1 in
      match split_wanted s h2 d2 with
      | Raise e => (Raise e, h2)
      | Ok c3 =>
        (Ok p, store_if c3 p "split_reserved_across_numa" (VBool true) d2 h2)
      end
    end
  end.
Proof.
  intros Hd. unfold _adjust_parameters, mbind, state_bind.
  rewrite (resolve_power_mode_spec h p d Hd).
  destruct (power_mode_conflict h d) as [c1|e]; [|done]. cbv zeta.
  pose proof (store_if_lookup c1 p "power_mode" (VStr "default") d h Hd) as Hd1.
  rewrite (resolve_topology_policy_spec _ p _ Hd1).
  destruct (policy_conflict _ _) as [c2|e]; [|done].
  pose proof (store_if_lookup c2 p "topology_policy" (VStr "single-numa-node") _ _ Hd1)
    as Hd2.
  rewrite (resolve_numa_split_spec s _ p _ Hd2).
  by destruct (split_wanted s _ _) as [c3|e].
Qed.

(** Without a dictionary at [p] the first read raises. *)
Lemma _adjust_parameters_no_dict s h p :
  (forall d, h !! p <> Some (ODict d)) ->
  exists e, _adjust_parameters s p h = (Raise e, h).
Proof.
  intros Hno.
  unfold _adjust_parameters, resolve_power_mode, py_get, deref, mbind, state_bind.
  destruct (h !! p) as [[d|xs]|]; simpl; eauto. by destruct (Hno d).
Qed.

(** A returning call leaves a settled dictionary at [p]. *)
Lemma _adjust_parameters_settles s h p d p' h' :
  h !! p = Some (ODict d) ->
  _adjust_parameters s p h = (Ok p', h') ->
  p' = p /\ exists d', h' !! p = Some (ODict d') /\ settled s h' d'.
Proof.
  intros Hd. rewrite (_adjust_parameters_spec s h p d Hd).
  destruct (power_mode_conflict h d) as [c1|e] eqn:Hc1; [|done]. cbv zeta.
  pose proof (store_if_lookup c1 p "power_mode" (VStr "default") d h Hd) as Hd1.
  pose proof (power_mode_conflict_done c1 p d h Hd Hc1) as H1.
  destruct (policy_conflict _ _) as [c2|e] eqn:Hc2; [|done].
  pose proof (store_if_lookup c2 p "topology_policy" (VStr "single-numa-node") _ _ Hd1)
    as Hd2.
  pose proof (policy_conflict_done c2 p _ _ Hd1 Hc2) as H2.
  destruct (split_wanted s _ _) as [c3|e] eqn:Hc3; [|done].
  pose proof (store_if_lookup c3 p "split_reserved_across_numa" (VBool true) _ _ Hd2)
    as Hd3.
  pose proof (split_wanted_done s c3 p _ _ Hd2 Hc3) as H3.
  intros [= <- <-]. split; [done|]. eexists. split; [exact Hd3|].
  repeat split.
  - rewrite (power_mode_conflict_frame c3 p _ _ _ _ Hd2) by done.
    by rewrite (power_mode_conflict_frame c2 p _ _ _ _ Hd1).
  - by rewrite (policy_conflict_frame c3 p _ _ _ _ Hd2).
  - done.
Qed.

(** On a settled dictionary the call changes nothing. *)
Lemma _adjust_parameters_settled s h p d :
  h !! p = Some (ODict d) -> settled s h d ->
  _adjust_parameters s p h = (Ok p, h).
Proof.
  intros Hd (H1 & H2 & H3). rewrite (_adjust_parameters_spec s h p d Hd).
  rewrite H1. simpl. rewrite H2. simpl. by rewrite H3.
Qed.

(** When per-pod power management conflicts with the power mode, the
    dictionary at [p] has the default power mode after the call, however the
    call ends. *)
Lemma _adjust_parameters_power_mode s h p d :
  h !! p = Some (ODict d) ->
  power_mode_conflict h d = Ok true ->
  (forall r, (_adjust_parameters s p h).1 = Ok r -> r = p) /\
  exists d',
    (_adjust_parameters s p h).2 !! p = Some (ODict d') /\
    d' !! "power_mode" = Some (VStr "default").
Proof.
  intros Hd Hc1. rewrite (_adjust_parameters_spec s h p d Hd), Hc1. cbv zeta.
  pose proof (store_if_lookup true p "power_mode" (VStr "default") d h Hd) as Hd1.
  assert (bind_if true "power_mode" (VStr "default") d !! "power_mode"
          = Some (VStr "default")) as Hpm by apply lookup_insert_eq.
  destruct (policy_conflict _ _) as [c2|e]; [|split; [done|]; simpl; eauto].
  pose proof (store_if_lookup c2 p "topology_policy" (VStr "single-numa-node") _ _ Hd1)
    as Hd2.
  assert (bind_if c2 "topology_policy" (VStr "single-numa-node")
            (bind_if true "power_mode" (VStr "default") d) !! "power_mode"
          = Some (VStr "default")) as Hpm2.
  { destruct c2; [|done]. simpl. by rewrite lookup_insert_ne. }
  destruct (split_wanted s _ _) as [c3|e]; [|split; [done|]; simpl; eauto].
  split; [by intros r [= <-]|].
  eexists. split; [by apply store_if_lookup|].
  destruct c3; [|done]. simpl. rewrite lookup_insert_ne by done. exact Hpm2.
Qed.

End adjust_parameters_facts.

(** ** What the generator leaves untouched *)

Section keeps_facts.
Context `{PyFloat}.

Implicit Types (s : summary) (h : gmap positive pyobj) (d : gmap string pyval).
Implicit Types (p l : positive) (v x : pyval) (k : string).

Lemma keeps_ret {A} (h0 : gmap positive pyobj) (a : A) (Q : A -> Prop) : Q a -> keeps h0 (mret a) Q.
Proof. intros HQ h Hh. split; [done|]. by intros a' [= <-]. Qed.

Lemma keeps_bind {A B} (h0 : gmap positive pyobj) (m : state A) (f : A -> state B) Q R :
  keeps h0 m Q -> (forall a, Q a -> keeps h0 (f a) R) -> keeps h0 (m ≫= f) R.
Proof.
  intros Hm Hf h Hh. destruct (Hm h Hh) as [Hsub HQ].
  unfold mbind, state_bind. destruct (m h) as [[a|e] h']; simpl in *; [|done].
  by apply (Hf a (HQ a eq_refl)).
Qed.

Lemma keeps_weaken {A} (h0 : gmap positive pyobj) (m : state A) (Q R : A -> Prop) :
  keeps h0 m Q -> (forall a, Q a -> R a) -> keeps h0 m R.
Proof. intros Hm HQR h Hh. destruct (Hm h Hh) as [Hsub HQ]. eauto. Qed.

(** A computation that only reads. *)
Lemma keeps_read {A} (h0 : gmap positive pyobj) (m : state A) :
  (forall h, (m h).2 = h) -> keeps h0 m (fun _ => True).
Proof. intros Hm h Hh. by rewrite Hm. Qed.

Lemma deref_store l h : (deref l h).2 = h.
Proof. unfold deref. by destruct (h !! l). Qed.

Lemma py_get_store v k x h : (py_get v k x h).2 = h.
Proof.
  destruct v as [| | | |l]; try done. simpl. unfold mbind, state_bind, deref.
  by destruct (h !! l) as [[d|xs]|].
Qed.

Lemma py_get_method_store v h : (py_get_method v h).2 = h.
Proof.
  destruct v as [| | | |l]; try done. simpl. unfold mbind, state_bind, deref.
  by destruct (h !! l) as [[d|xs]|].
Qed.

Lemma py_contains_store p k h : (py_contains p k h).2 = h.
Proof.
  unfold py_contains, mbind, state_bind, deref.
  by destruct (h !! p) as [[d|xs]|].
Qed.

Lemma py_ge_int_store v n h : (py_ge_int v n h).2 = h.
Proof. by destruct v. Qed.

(** A new object is outside the store it extends. *)
Lemma keeps_alloc (h0 : gmap positive pyobj) o : keeps h0 (alloc o) (fun l => h0 !! l = None).
Proof.
  intros h Hh. unfold alloc. simpl.
  assert (h0 !! fresh (dom h) = None) as Hfresh.
  { destruct (h0 !! fresh (dom h)) as [o'|] eqn:Hl; [|done].
    pose proof (lookup_weaken _ _ _ _ Hl Hh) as Hin.
    destruct (is_fresh (dom h)). apply elem_of_dom. eauto. }
  split; [by apply insert_subseteq_r|]. by intros a [= <-].
Qed.

Lemma keeps_py_copy (h0 : gmap positive pyobj) v : keeps h0 (py_copy v) (fun l => h0 !! l = None).
Proof.
  destruct v as [| | | |l]; try (by intros h Hh).
  simpl. eapply keeps_bind; [apply keeps_read, deref_store|].
  intros o _. apply keeps_alloc.
Qed.

(** An update of an object outside [h0]. *)
Lemma keeps_dict_set (h0 : gmap positive pyobj) p k x :
  h0 !! p = None -> keeps h0 (dict_set p k x) (fun _ => True).
Proof.
  intros Hp h Hh. unfold dict_set.
  destruct (h !! p) as [[d|xs]|]; simpl; try done.
  split; [by apply insert_subseteq_r|done].
Qed.

Lemma keeps_apply_overrides (h0 : gmap positive pyobj) p (items : list (string * pyval)) :
  h0 !! p = None -> keeps h0 (apply_overrides p items) (fun _ => True).
Proof.
  intros Hp. induction items as [|[key value] items IH]; simpl.
  - by apply keeps_ret.
  - eapply keeps_bind; [|intros _ _; exact IH].
    destruct (negb (is_none value)); [by apply keeps_dict_set|by apply keeps_ret].
Qed.

Lemma keeps_resolve_power_mode (h0 : gmap positive pyobj) p :
  h0 !! p = None -> keeps h0 (resolve_power_mode p) (fun _ => True).
Proof.
  intros Hp. unfold resolve_power_mode.
  eapply keeps_bind; [apply keeps_read, py_get_store|]. intros v _.
  eapply keeps_bind; [apply keeps_read, truthy_store|]. intros b _.
  eapply keeps_bind with (Q := fun _ => True).
  - destruct b; [|by apply keeps_ret].
    eapply keeps_bind; [apply keeps_read, py_get_store|]. intros mode _.
    by apply keeps_ret.
  - intros c _. destruct c; [by apply keeps_dict_set|by apply keeps_ret].
Qed.

Lemma keeps_resolve_topology_policy (h0 : gmap positive pyobj) p :
  h0 !! p = None -> keeps h0 (resolve_topology_policy p) (fun _ => True).
Proof.
  intros Hp. unfold resolve_topology_policy.
  eapply keeps_bind; [apply keeps_read, py_get_store|]. intros v _.
  eapply keeps_bind; [apply keeps_read, truthy_store|]. intros b _.
  destruct b; [|by apply keeps_ret].
  eapply keeps_bind; [apply keeps_read, py_get_store|]. intros policy _.
  destruct (negb _); [by apply keeps_dict_set|by apply keeps_ret].
Qed.

Lemma keeps_resolve_numa_split s (h0 : gmap positive pyobj) p :
  h0 !! p = None -> keeps h0 (resolve_numa_split s p) (fun _ => True).
Proof.
  intros Hp. unfold resolve_numa_split.
  destruct (_ >? 1); [|by apply keeps_ret].
  eapply keeps_bind; [apply keeps_read, py_get_store|]. intros v _.
  eapply keeps_bind; [apply keeps_read, truthy_store|]. intros b _.
  destruct (negb b); [|by apply keeps_ret].
  eapply keeps_bind; [apply keeps_read, py_get_store|]. intros reserved _.
  eapply keeps_bind; [apply keeps_read, py_ge_int_store|]. intros fits _.
  destruct fits; [by apply keeps_dict_set|by apply keeps_ret].
Qed.

Lemma keeps__adjust_parameters s (h0 : gmap positive pyobj) p :
  h0 !! p = None -> keeps h0 (_adjust_parameters s p) (fun r => r = p).
Proof.
  intros Hp. unfold _adjust_parameters.
  eapply keeps_bind; [by apply keeps_resolve_power_mode|]. intros _ _.
  eapply keeps_bind; [by apply keeps_resolve_topology_policy|]. intros _ _.
  eapply keeps_bind; [by apply keeps_resolve_numa_split|]. intros _ _.
  by apply keeps_ret.
Qed.

Lemma keeps_merge_parameters s workload mcp_name profile_name template
    (overrides : gmap string pyval) (h0 : gmap positive pyobj) :
  keeps h0 (merge_parameters s workload mcp_name profile_name template overrides)
    (fun p => h0 !! p = None).
Proof.
  unfold merge_parameters.
  eapply keeps_bind; [apply keeps_read, truthy_store|]. intros use_template _.
  eapply keeps_bind with (Q := fun p => h0 !! p = None).
  - destruct use_template; [|apply keeps_alloc].
    eapply keeps_bind; [apply keeps_read, py_get_method_store|]. intros _ _.
    eapply keeps_bind; [apply keeps_alloc|]. intros empty _.
    eapply keeps_bind; [apply keeps_read, py_get_store|]. intros config _.
    apply keeps_py_copy.
  - intros p Hp.
    eapply keeps_bind; [by apply keeps_dict_set|]. intros _ _.
    eapply keeps_bind; [by apply keeps_dict_set|]. intros _ _.
    eapply keeps_bind with (Q := fun _ => True).
    + destruct (_ || _); [|by apply keeps_ret].
      eapply keeps_bind; [apply keeps_read, py_contains_store|]. intros present _.
      destruct (negb present); [|by apply keeps_ret].
      eapply keeps_bind; [by apply keeps_read|]. intros reserved _.
      by apply keeps_dict_set.
    + intros _ _.
      eapply keeps_bind; [by apply keeps_apply_overrides|]. intros _ _.
      by apply keeps_ret.
Qed.

End keeps_facts.

(** ** The overrides in the merged parameters *)

Section merge_facts.
Context `{PyFloat}.

Implicit Types (s : summary) (h : gmap positive pyobj) (d : gmap string pyval).
Implicit Types (p l : positive) (v x : pyval) (k : string).
Implicit Types (items : list (string * pyval)) (overrides : gmap string pyval).

Lemma dict_set_inv h p k x h' :
  dict_set p k x h = (Ok tt, h') ->
  exists d, h !! p = Some (ODict d) /\ h' !! p = Some (ODict (<[k := x]> d)).
Proof.
  unfold dict_set. destruct (h !! p) as [[d|xs]|] eqn:Hp; try done.
  intros [= <-]. exists d. split; [done|]. apply lookup_insert_eq.
Qed.

Lemma apply_overrides_dict items h p d :
  h !! p = Some (ODict d) ->
  exists h',
    apply_overrides p items h = (Ok tt, h') /\
    h' !! p = Some (ODict (dict_update_non_none items d)).
Proof.
  revert h d. induction items as [|[key value] items IH]; intros h d Hd; simpl.
  - by exists h.
  - unfold mbind, state_bind. destruct (is_none value); simpl.
    + by apply IH.
    + rewrite (dict_set_dict h p d) by done. apply IH. apply lookup_insert_eq.
Qed.

Lemma dict_update_non_none_other items d k :
  k ∉ items.*1 -> dict_update_non_none items d !! k = d !! k.
Proof.
  revert d. induction items as [|[key value] items IH]; intros d Hk; [done|].
  apply not_elem_of_cons in Hk as [Hne Hk]. simpl in *.
  unfold dict_update_non_none in *. simpl. rewrite IH by done.
  destruct (is_none value); [done|]. by rewrite lookup_insert_ne.
Qed.

Lemma dict_update_non_none_lookup items d k v :
  NoDup items.*1 -> (k, v) ∈ items -> is_none v = false ->
  dict_update_non_none items d !! k = Some v.
Proof.
  revert d. induction items as [|[key value] items IH]; intros d Hnodup Hin Hv.
  - by apply elem_of_nil in Hin.
  - apply NoDup_cons in Hnodup as [Hkey Hnodup].
    apply elem_of_cons in Hin as [[= <- <-]|Hin].
    + unfold dict_update_non_none. simpl. rewrite Hv.
      fold (dict_update_non_none items (<[k := v]> d)).
      rewrite dict_update_non_none_other by done. apply lookup_insert_eq.
    + unfold dict_update_non_none in *. simpl. by apply IH.
Qed.

(** A returning merge leaves at the returned location a dictionary that
    binds every override that is not [None]. *)
Lemma merge_parameters_overrides s workload mcp_name profile_name (template : pyval)
    overrides h p h1 :
  merge_parameters s workload mcp_name profile_name template overrides h = (Ok p, h1) ->
  exists d,
    h1 !! p = Some (ODict d) /\
    forall k v, overrides !! k = Some v -> is_none v = false -> d !! k = Some v.
Proof.
  unfold merge_parameters, mbind at 1 2 3 4, state_bind.
  destruct (truthy template h) as [[use_template|e] h2]; [|done].
  match goal with
  | |- context [let (_, _) := ?m h2 in _] => destruct (m h2) as [[params|e] h3]
  end; [|done].
  destruct (dict_set params "mcp_name" _ h3) as [[[]|e] h4] eqn:Hset1; [|done].
  apply dict_set_inv in Hset1 as (d3 & _ & Hd4).
  unfold mbind at 1 2. unfold state_bind.
  rewrite (dict_set_dict h4 params _ "profile_name" _ Hd4).
  match goal with
  | |- context [<[params := ODict ?d]> h4] =>
    assert (<[params := ODict d]> h4 !! params = Some (ODict d)) as Hd5
      by apply lookup_insert_eq;
    generalize dependent (<[params := ODict d]> h4); generalize dependent d
  end.
  intros d5 h5 Hd5.
  match goal with
  | |- context [let (_, _) := ?m h5 in _] =>
    destruct (m h5) as [[[]|e] h6] eqn:Hreserved; [|done];
    assert (exists d6, h6 !! params = Some (ODict d6)) as [d6 Hd6]
  end.
  { revert Hreserved. destruct (_ || _); [|intros [= <-]; eauto].
    unfold py_contains, mbind, state_bind, deref. rewrite Hd5. simpl.
    destruct (negb _); [|intros [= <-]; eauto].
    unfold lift. destruct (_calculate_reserved_cpus s workload) as [reserved|e]; [|done].
    rewrite (dict_set_dict h5 params d5) by done. intros [= <-].
    eexists. apply lookup_insert_eq. }
  destruct (apply_overrides_dict (map_to_list overrides) h6 params d6 Hd6)
    as (h7 & Happly & Hd7).
  unfold mbind, state_bind. rewrite Happly. intros [= <- <-].
  eexists. split; [exact Hd7|].
  intros k v Hk Hv. apply dict_update_non_none_lookup; [|by apply elem_of_map_to_list|done].
  apply NoDup_fst_map_to_list.
Qed.

(** Per-pod power management and a non-default power mode given as
    overrides: whatever the topology, the template and the other overrides,
    the dictionary of a returning merge has the default power mode after
    [generate_parameters]. *)
Lemma conflicting_overrides_resolved s workload mcp_name profile_name (template : pyval)
    overrides (mode : string) h p h1 :
  overrides !! "per_pod_power_management" = Some (VBool true) ->
  overrides !! "power_mode" = Some (VStr mode) -> mode <> "default" ->
  merge_parameters s workload mcp_name profile_name template overrides h = (Ok p, h1) ->
  let res := generate_parameters s workload mcp_name profile_name template overrides h in
  (forall r, res.1 = Ok r -> r = p) /\
  exists d',
    res.2 !! p = Some (ODict d') /\ d' !! "power_mode" = Some (VStr "default").
Proof.
  intros Hper_pod Hmode Hne Hmerge. cbv zeta.
  destruct (merge_parameters_overrides _ _ _ _ _ _ _ _ _ Hmerge) as (d & Hd & Hover).
  unfold generate_parameters, mbind, state_bind. rewrite Hmerge.
  apply (_adjust_parameters_power_mode s h1 p d Hd).
  unfold power_mode_conflict, truthy_in.
  rewrite (Hover _ _ Hper_pod eq_refl), (Hover _ _ Hmode eq_refl). simpl.
  by apply String.eqb_neq in Hne as ->.
Qed.

End merge_facts.

Section generator_claims.
Context `{PyFloat}.

Implicit Types (s : summary) (h : gmap positive pyobj) (d : gmap string pyval).
Implicit Types (p l : positive) (overrides : gmap string pyval).

(** C5.  Conflict resolution is idempotent: running [_adjust_parameters]
    a second time on the dictionary it returned gives the same result and
    the same store as running it once (and when the first run raises, so
    does the composition, in the same store). *)
Theorem adjust_parameters_idempotent s p h :
  (_adjust_parameters s p ≫= _adjust_parameters s) h = _adjust_parameters s p h.
Proof.
  unfold mbind at 1. unfold state_bind.
  destruct (_adjust_parameters s p h) as [[p'|e] h'] eqn:Hrun; [|done].
  destruct (h !! p) as [[d|xs]|] eqn:Hp.
  - destruct (_adjust_parameters_settles s h p d p' h' Hp Hrun)
      as (-> & d' & Hd' & Hsettled).
    by apply (_adjust_parameters_settled s h' p d').
  - destruct (_adjust_parameters_no_dict s h p) as [e He]; [|congruence].
    intros d. congruence.
  - destruct (_adjust_parameters_no_dict s h p) as [e He]; [|congruence].
    intros d. congruence.
Qed.

(** C7.  When the merged parameter set (template or base defaults, names,
    computed reservation, overrides) has a true [per_pod_power_management]
    and a [power_mode] other than "default", the parameter dictionary has
    [power_mode = "default"] after [generate_parameters], and a returned
    value is that dictionary. *)
Theorem per_pod_power_management_wins s workload mcp_name profile_name
    (template : pyval) overrides h p h1 d :
  merge_parameters s workload mcp_name profile_name template overrides h = (Ok p, h1) ->
  h1 !! p = Some (ODict d) ->
  truthy (default VNone (d !! "per_pod_power_management")) h1 = (Ok true, h1) ->
  str_eq (default VNone (d !! "power_mode")) "default" = false ->
  let res := generate_parameters s workload mcp_name profile_name template overrides h in
  (forall r, res.1 = Ok r -> r = p) /\
  exists d',
    res.2 !! p = Some (ODict d') /\ d' !! "power_mode" = Some (VStr "default").
Proof.
  intros Hmerge Hd Hper_pod Hmode. cbv zeta.
  unfold generate_parameters, mbind, state_bind. rewrite Hmerge.
  apply (_adjust_parameters_power_mode s h1 p d Hd).
  unfold power_mode_conflict, truthy_in. by rewrite Hper_pod, Hmode.
Qed.

(** C9.  [generate_parameters] updates no object that exists when it is
    called: every location of the store, the template and its
    [default_config] among them, holds the same object afterwards, whether
    the call returns or raises; and the dictionary it returns is a new
    object. *)
Theorem generate_parameters_preserves_store s workload mcp_name profile_name
    (template : pyval) overrides h :
  let res := generate_parameters s workload mcp_name profile_name template overrides h in
  (forall l o, h !! l = Some o -> res.2 !! l = Some o) /\
  (forall p, res.1 = Ok p -> h !! p = None).
Proof.
  cbv zeta.
  assert (keeps h
    (generate_parameters s workload mcp_name profile_name template overrides)
    (fun p => h !! p = None)) as Hkeeps.
  { unfold generate_parameters.
    eapply keeps_bind; [apply keeps_merge_parameters|].
    intros p Hp. eapply keeps_weaken; [by apply keeps__adjust_parameters|].
    by intros r ->. }
  destruct (Hkeeps h) as [Hsub Hnew]; [done|].
  split; [|done]. intros l o Hl. by eapply lookup_weaken.
Qed.

End generator_claims.

(** ** The generator on concrete calls *)

(** Per-pod power management and the low-latency power mode both given as
    overrides, no template, on the test hardware: the call returns the
    dictionary, whose power mode is "default". *)
Lemma per_pod_power_management_wins_witness :
  exists p,
    let res := generate_parameters test_summary "custom" "worker-cnf" "performance"
                 VNone conflicting_overrides ∅ in
    res.1 = Ok p /\
    (forall r, res.1 = Ok r -> r = p) /\
    exists d',
      res.2 !! p = Some (ODict d') /\ d' !! "power_mode" = Some (VStr "default").
Proof.
  eexists. split; [reflexivity|].
  eapply (per_pod_power_management_wins test_summary "custom" "worker-cnf" "performance"
            VNone conflicting_overrides ∅); reflexivity.
Defined.

(** The catalog entry keeps its defaults: the synthesis resolves the power
    mode to "default" in its own copy, the entry still says
    "ultra-low-latency". *)
Lemma synthesis_from_catalog_result :
  (synthesis_from_catalog ∅).1 = Ok (VStr "default", VStr "ultra-low-latency").
Proof. reflexivity. Qed.

(** * Further properties of the validator *)

Section validator_reports.
Context `{PyFloat}.

Implicit Types (s : summary) (req : request) (rep : report).

Lemma prefix_app (x y : string) : String.prefix x (x +:+ y) = true.
Proof.
  induction x as [|c x IH]; simpl; [by destruct y|].
  by destruct (ascii_dec c c).
Qed.

Lemma str_contains_skip (a x y : string) :
  str_contains x y = true -> str_contains x (a +:+ y) = true.
Proof.
  intros Hy. induction a as [|c a IH]; simpl; [done|].
  rewrite IH. apply orb_true_r.
Qed.

Lemma str_contains_app (a x b : string) : str_contains x (a +:+ x +:+ b) = true.
Proof.
  apply str_contains_skip.
  pose proof (prefix_app x b) as Hpre.
  destruct (x +:+ b); simpl in *; by rewrite Hpre.
Qed.

(** The CPU check is invalid with exactly one error. *)
Lemma cpu_invalid_one_error s req :
  cpu_is_valid (_validate_cpu s req) = false ->
  exists e, cpu_errors (_validate_cpu s req) = [e].
Proof.
  unfold _validate_cpu, when. repeat case_match; simplify_eq/=; eauto; done.
Qed.

(** X1. With an explicit isolated count the fit check decides: the CPU check
    is invalid exactly when [isolated + reserved] exceeds [cpus_per_node], and
    its one error then spells out both numbers. *)
Theorem explicit_isolated_fit_check s req (reserved isolated : Z) :
  reserved_cpu_count req = Some reserved ->
  isolated_cpu_count req = Some isolated ->
  let cpus := default 0 (cpus_per_node s) in
  let total := isolated + reserved in
  cpu_is_valid (_validate_cpu s req) = negb (total >? cpus) /\
  cpu_errors (_validate_cpu s req) =
    (if total >? cpus then [msg_total_exceeds total cpus] else []) /\
  str_contains (str_of_int total) (msg_total_exceeds total cpus) = true /\
  str_contains (str_of_int cpus) (msg_total_exceeds total cpus) = true.
Proof.
  intros Hres Hiso. cbv zeta. split; [|split; [|split]].
  - unfold _validate_cpu, when. rewrite Hres, Hiso.
    repeat case_match; simplify_eq/=; done.
  - unfold _validate_cpu, when. rewrite Hres, Hiso.
    repeat case_match; simplify_eq/=; done.
  - unfold msg_total_exceeds. apply str_contains_app.
  - unfold msg_total_exceeds. do 2 apply str_contains_skip.
    apply str_contains_app.
Qed.

(** X2. In a report the errors and [is_valid] go together: the report is valid
    exactly when it has no error, it never has more than one error, and the
    status line follows [is_valid]. *)
Theorem report_valid_iff_no_errors s req rep :
  validate s req = Ok rep ->
  (is_valid rep = true <-> errors rep = []) /\
  (length (errors rep) <= 1)%nat /\
  overall_status rep = (if is_valid rep then status_valid else status_invalid).
Proof.
  intros (rt & hp & _ & _ & ->)%validate_inv. simpl.
  destruct (cpu_is_valid (_validate_cpu s req)) eqn:Hvalid; simpl.
  - repeat split; done || lia.
  - destruct (cpu_invalid_one_error s req Hvalid) as [e ->]. simpl.
    repeat split; done || lia.
Qed.

(** The warnings of the CPU check, exactly. *)
Lemma cpu_warnings_exact s req (reserved : Z) :
  reserved_cpu_count req = Some reserved ->
  cpu_warnings (_validate_cpu s req) =
  (if reserved <? 2 then [msg_reserved_low] else []) ++
  (if (default 1 (numa_nodes_per_node s) >? 1) &&
      negb (reserved mod default 1 (numa_nodes_per_node s) =? 0)
   then [msg_numa_uneven reserved (default 1 (numa_nodes_per_node s))] else []).
Proof.
  intros Hres. unfold _validate_cpu, when. rewrite Hres.
  repeat case_match; simplify_eq/=; done.
Qed.

Lemma rt_warnings_not_numa s req rt w :
  _validate_rt_kernel s req = Ok rt ->
  w ∈ rt_warnings rt -> is_numa_warning w = false.
Proof.
  unfold _validate_rt_kernel, when.
  destruct (first_architecture s); simpl; [|discriminate].
  repeat case_match; simplify_eq/=; intros [= <-]; simpl; intros Hw;
    repeat (apply elem_of_cons in Hw as [->|Hw]); try (by apply elem_of_nil in Hw);
    reflexivity.
Qed.

(** Every error of the huge-pages check reports an invalid size. *)
Lemma check_hugepage_size_errors (a size e : string) :
  e ∈ hp_errors (check_hugepage_size a size (mk_hp_check true [] [])) ->
  exists name sizes, e = msg_invalid_size size name sizes.
Proof.
  unfold check_hugepage_size, when.
  repeat case_match; simpl; intros He; try (by apply elem_of_nil in He).
  all: apply list_elem_of_singleton in He as ->; eauto.
Qed.

Lemma hp_errors_cases s req hp e :
  _validate_hugepages s req = Ok hp ->
  e ∈ hp_errors hp ->
  exists size name sizes, e = msg_invalid_size size name sizes.
Proof.
  unfold _validate_hugepages.
  destruct (first_architecture s) as [a|]; simpl; [|discriminate].
  intros Hhp He. revert Hhp. unfold when.
  repeat (case_match; simplify_eq/=); intros Hhp; simplify_eq/=;
    try (by apply elem_of_nil in He);
    try (by eexists; eapply check_hugepage_size_errors).
  all: destruct (_hugepage_to_gb _) as [gb|]; simplify_eq/=.
  all: destruct (num_mul gb _) as [total|]; simplify_eq/=.
  all: by eexists; eapply check_hugepage_size_errors.
Qed.

Lemma pm_warnings_not_numa req w :
  w ∈ pm_warnings (_validate_power_mode req) -> is_numa_warning w = false.
Proof.
  unfold _validate_power_mode, when.
  repeat case_match; simpl; intros Hw;
    repeat (apply elem_of_cons in Hw as [->|Hw]); try (by apply elem_of_nil in Hw);
    reflexivity.
Qed.

(** A warning of a report is a warning of the CPU check or is not about
    NUMA; the warnings of the CPU check are warnings of the report. *)
Lemma report_warnings_cases s req rep w :
  validate s req = Ok rep ->
  w ∈ warnings rep ->
  w ∈ cpu_warnings (_validate_cpu s req) \/ is_numa_warning w = false.
Proof.
  intros (rt & hp & Hrt & Hhp & ->)%validate_inv. simpl.
  intros [Hw|Hw]%elem_of_app; [|right; by eapply pm_warnings_not_numa].
  assert (w ∈ cpu_warnings (_validate_cpu s req) ++ rt_warnings rt \/ w ∈ hp_errors hp)
    as [[Hw'|Hw']%elem_of_app|Hw'].
  { destruct (hp_is_valid hp); [by left|].
    apply elem_of_app in Hw as [Hw|Hw]; [by left|by right]. }
  - by left.
  - right. by eapply rt_warnings_not_numa.
  - right. destruct (hp_errors_cases s req hp w Hhp Hw') as (size & name & sizes & ->).
    reflexivity.
Qed.

Lemma report_warnings_cpu s req rep w :
  validate s req = Ok rep ->
  w ∈ cpu_warnings (_validate_cpu s req) -> w ∈ warnings rep.
Proof.
  intros (rt & hp & Hrt & Hhp & ->)%validate_inv Hw. simpl.
  apply elem_of_app. left.
  destruct (hp_is_valid hp); repeat (apply elem_of_app; left); done.
Qed.

(** X3. A report warns that the NUMA nodes do not divide the reservation
    exactly when there are several NUMA nodes and they do not divide the
    reserved count; with one NUMA node (or none recorded) it never does. *)
Theorem numa_warning_iff s req rep :
  validate s req = Ok rep ->
  (exists w, w ∈ warnings rep /\ is_numa_warning w = true) <->
  (exists reserved,
      reserved_cpu_count req = Some reserved /\
      1 < default 1 (numa_nodes_per_node s) /\
      reserved mod default 1 (numa_nodes_per_node s) <> 0).
Proof.
  intros Hrep. split.
  - intros (w & Hw & Hnuma).
    destruct (report_warnings_cases s req rep w Hrep Hw) as [Hcpu|Hnot]; [|congruence].
    destruct (reserved_cpu_count req) as [reserved|] eqn:Hres.
    + exists reserved. split; [done|].
      rewrite (cpu_warnings_exact s req reserved Hres) in Hcpu.
      apply elem_of_app in Hcpu as [Hcpu|Hcpu].
      * destruct (reserved <? 2); [|by apply elem_of_nil in Hcpu].
        apply list_elem_of_singleton in Hcpu as ->. discriminate.
      * destruct (Z.gtb_spec (default 1 (numa_nodes_per_node s)) 1) as [Hgt|Hle];
          [|by apply elem_of_nil in Hcpu].
        destruct (Z.eqb_spec (reserved mod default 1 (numa_nodes_per_node s)) 0)
          as [Hmod|Hmod]; [by apply elem_of_nil in Hcpu|]. done.
    + unfold _validate_cpu in Hcpu. rewrite Hres in Hcpu. by apply elem_of_nil in Hcpu.
  - intros (reserved & Hres & Hgt & Hmod).
    exists (msg_numa_uneven reserved (default 1 (numa_nodes_per_node s))).
    split; [|apply prefix_app].
    apply (report_warnings_cpu s req rep _ Hrep).
    rewrite (cpu_warnings_exact s req reserved Hres).
    apply elem_of_app. right.
    destruct (Z.gtb_spec (default 1 (numa_nodes_per_node s)) 1) as [_|Hle]; [|lia].
    destruct (Z.eqb_spec (reserved mod default 1 (numa_nodes_per_node s)) 0)
      as [Hmod'|_]; [done|].
    by apply list_elem_of_singleton.
Qed.

Lemma str_in_true (x : string) (xs : list string) :
  str_in x xs = true -> x ∈ xs.
Proof.
  unfold str_in. induction xs as [|y xs IH]; simpl; [done|].
  intros [Heq%String.eqb_eq|Hin]%orb_true_iff; apply elem_of_cons.
  - by left.
  - right. by apply IH.
Qed.

Lemma str_in_elem (x : string) (xs : list string) :
  x ∈ xs -> str_in x xs = true.
Proof.
  intros Hin. destruct (str_in x xs) eqn:Hx; [done|].
  unfold str_in in Hx. induction xs as [|y xs IH]; [by apply elem_of_nil in Hin|].
  simpl in Hx. apply orb_false_iff in Hx as [Hne Hx].
  apply elem_of_cons in Hin as [->|Hin]; [by rewrite String.eqb_refl in Hne|].
  by apply IH.
Qed.

(** The validity of the huge-pages check is the validity of the size
    check, which runs only on a non-empty size. *)
Lemma hp_is_valid_eq s req architecture hp :
  first_architecture s = Ok architecture ->
  _validate_hugepages s req = Ok hp ->
  hp_is_valid hp =
  match hugepages_size req with
  | Some size =>
    if String.eqb size "" then true
    else hp_is_valid (check_hugepage_size architecture size (mk_hp_check true [] []))
  | None => true
  end.
Proof.
  intros Ha. unfold _validate_hugepages. rewrite Ha. simpl. unfold when.
  intros Hhp. repeat (case_match; simplify_eq/=); try done.
  all: destruct (_hugepage_to_gb _) as [gb|]; simplify_eq/=.
  all: destruct (num_mul gb _) as [total|]; simplify_eq/=; done.
Qed.

(** X4. The huge-pages check is invalid exactly when a non-empty size is
    given, the first architecture has a whitelist, and the size is not on it;
    on an architecture without a whitelist every size passes, and the
    comparison is by exact text. *)
Theorem hugepages_invalid_iff s req architecture hp :
  first_architecture s = Ok architecture ->
  _validate_hugepages s req = Ok hp ->
  hp_is_valid hp = false <->
  exists size sizes,
    hugepages_size req = Some size /\ size <> "" /\
    whitelist architecture = Some sizes /\ size ∉ sizes.
Proof.
  intros Ha Hhp. split.
  - rewrite (hp_is_valid_eq s req architecture hp Ha Hhp).
    destruct (hugepages_size req) as [size|]; [|done].
    destruct (String.eqb_spec size "") as [->|Hne]; [done|].
    unfold check_hugepage_size, whitelist, when.
    destruct (str_contains "x86" architecture || str_contains "amd64" architecture).
    + destruct (str_in size valid_sizes_x86) eqn:Hin; simpl; [done|].
      intros _. exists size, valid_sizes_x86. repeat split; try done.
      intros Hel. by rewrite (str_in_elem _ _ Hel) in Hin.
    + destruct (str_contains "aarch64" architecture || str_contains "arm64" architecture);
        [|done].
      destruct (str_in size valid_sizes_arm) eqn:Hin; simpl; [done|].
      intros _. exists size, valid_sizes_arm. repeat split; try done.
      intros Hel. by rewrite (str_in_elem _ _ Hel) in Hin.
  - intros (size & sizes & Hsize & Hne & Hwl & Hout).
    by destruct (_validate_hugepages_rejects s req architecture size sizes hp).
Qed.



End validator_reports.

(** ** Further reports on the test hardware *)

Lemma explicit_isolated_fit_check_witness :
  let cpus := default 0 (cpus_per_node test_summary) in
  let total := 44 + 8 in
  cpu_is_valid (_validate_cpu test_summary oversized_request) = negb (total >? cpus) /\
  cpu_errors (_validate_cpu test_summary oversized_request) =
    (if total >? cpus then [msg_total_exceeds total cpus] else []) /\
  str_contains (str_of_int total) (msg_total_exceeds total cpus) = true /\
  str_contains (str_of_int cpus) (msg_total_exceeds total cpus) = true.
Proof.
  apply (explicit_isolated_fit_check test_summary oversized_request 8 44); reflexivity.
Defined.

Lemma report_valid_iff_no_errors_witness :
  exists rep,
    validate test_summary oversized_request = Ok rep /\
    (is_valid rep = true <-> errors rep = []) /\
    (length (errors rep) <= 1)%nat /\
    overall_status rep = (if is_valid rep then status_valid else status_invalid).
Proof.
  eexists. split; [reflexivity|].
  apply (report_valid_iff_no_errors test_summary oversized_request). reflexivity.
Defined.

Lemma numa_warning_iff_witness :
  exists rep,
    validate test_summary uneven_request = Ok rep /\
    ((exists w, w ∈ warnings rep /\ is_numa_warning w = true) <->
     (exists reserved,
         reserved_cpu_count uneven_request = Some reserved /\
         1 < default 1 (numa_nodes_per_node test_summary) /\
         reserved mod default 1 (numa_nodes_per_node test_summary) <> 0)).
Proof.
  eexists. split; [reflexivity|].
  apply (numa_warning_iff test_summary uneven_request). reflexivity.
Defined.

Lemma hugepages_invalid_iff_witness :
  exists hp,
    _validate_hugepages x86_summary odd_hugepages_counted = Ok hp /\
    (hp_is_valid hp = false <->
     exists size sizes,
       hugepages_size odd_hugepages_counted = Some size /\ size <> "" /\
       whitelist "x86_64" = Some sizes /\ size ∉ sizes).
Proof.
  eexists. split; [reflexivity|].
  apply (hugepages_invalid_iff x86_summary odd_hugepages_counted "x86_64"); reflexivity.
Defined.


(** * Further properties of the generator *)

Section reserved_cpus_more.
Context `{PyFloat}.

Implicit Types (s : summary) (workload : string).

(** X6. Whatever the workload, a reservation the heuristic returns is at least
    2 and, on a known number of CPUs, at most a quarter of them or 2,
    whichever is larger; on an unknown number it is 4. *)
Theorem reserved_cpus_bounds s workload (r : Z) :
  _calculate_reserved_cpus s workload = Ok r ->
  2 <= r /\
  (default 0 (cpus_per_node s) <> 0 -> r <= Z.max 2 (default 0 (cpus_per_node s) / 4)) /\
  (default 0 (cpus_per_node s) = 0 -> r = 4).
Proof.
  unfold _calculate_reserved_cpus.
  destruct (Z.eqb_spec (default 0 (cpus_per_node s)) 0) as [Hz|Hnz].
  - intros [= <-]. repeat split; done || lia.
  - match goal with
    | |- context [mbind _ ?m] => destruct m as [reserved|e]; simpl; [|done]
    end.
    intros [= <-]. repeat split; lia.
Qed.

(** For 5g-ran, telco-vnf and ai-inference no float is involved: for every
    number of CPUs the heuristic returns, 4 on an unknown number and
    otherwise twice the NUMA nodes (at least 2), capped by a quarter of the
    CPUs and raised to 2. *)
Theorem reserved_cpus_base_workload s workload :
  base_workload workload = true ->
  _calculate_reserved_cpus s workload =
  Ok (if default 0 (cpus_per_node s) =? 0 then 4
      else Z.max 2 (Z.min (Z.max 2 (default 1 (numa_nodes_per_node s) * 2))
                      (default 0 (cpus_per_node s) / 4))).
Proof.
  intros Hbase.
  destruct (Z.eqb_spec (default 0 (cpus_per_node s)) 0) as [Hz|Hnz].
  - unfold _calculate_reserved_cpus. by rewrite Hz.
  - by apply _calculate_reserved_cpus_base.
Qed.

(** X7. The database branch is the default branch: every workload outside the
    three base workloads gets the reservation of "database", exceptions
    included. *)
Theorem reserved_cpus_database_is_default s workload :
  base_workload workload = false ->
  _calculate_reserved_cpus s workload = _calculate_reserved_cpus s "database".
Proof.
  intros Hbase. unfold _calculate_reserved_cpus.
  unfold base_workload, str_in in Hbase. simpl in *.
  destruct (String.eqb workload "5g-ran"); simpl in *; [done|].
  destruct (String.eqb workload "telco-vnf"); simpl in *; [done|].
  destruct (String.eqb workload "ai-inference"); simpl in *; [done|].
  by destruct (String.eqb workload "database").
Qed.

End reserved_cpus_more.

Lemma reserved_cpus_bounds_witness :
  2 <= 4 /\
  (default 0 (cpus_per_node test_summary) <> 0 ->
   4 <= Z.max 2 (default 0 (cpus_per_node test_summary) / 4)) /\
  (default 0 (cpus_per_node test_summary) = 0 -> 4 = 4).
Proof.
  apply (reserved_cpus_bounds test_summary "5g-ran" 4). reflexivity.
Defined.

Lemma reserved_cpus_base_workload_witness :
  _calculate_reserved_cpus test_summary "5g-ran" =
  Ok (if default 0 (cpus_per_node test_summary) =? 0 then 4
      else Z.max 2 (Z.min (Z.max 2 (default 1 (numa_nodes_per_node test_summary) * 2))
                      (default 0 (cpus_per_node test_summary) / 4))).
Proof.
  apply (reserved_cpus_base_workload test_summary "5g-ran"). reflexivity.
Defined.

Lemma reserved_cpus_database_is_default_witness :
  _calculate_reserved_cpus test_summary "hpc" =
  _calculate_reserved_cpus test_summary "database".
Proof.
  apply (reserved_cpus_database_is_default test_summary "hpc"). reflexivity.
Defined.

Section adjust_more.

Implicit Types (s : summary) (h : gmap positive pyobj) (d : gmap string pyval).
Implicit Types (p l : positive) (v x : pyval) (k : string) (c : bool).

(** One guarded update of an adjusted key, seen from the dictionary [d] of
    the store [h]: the other keys, the bound keys and the other objects
    stay. *)
Lemma store_if_step h p d c k x h' d' :
  h' !! p = Some (ODict d') /\
  (forall k', k' ∉ adjusted_keys -> d' !! k' = d !! k') /\
  (forall k', is_Some (d !! k') -> is_Some (d' !! k')) /\
  (forall l, l <> p -> h' !! l = h !! l) ->
  k ∈ adjusted_keys ->
  store_if c p k x d' h' !! p = Some (ODict (bind_if c k x d')) /\
  (forall k', k' ∉ adjusted_keys -> bind_if c k x d' !! k' = d !! k') /\
  (forall k', is_Some (d !! k') -> is_Some (bind_if c k x d' !! k')) /\
  (forall l, l <> p -> store_if c p k x d' h' !! l = h !! l).
Proof.
  intros (Hd' & Hother & Hbound & Hstore) Hk.
  split; [by apply store_if_lookup|].
  destruct c; simpl; [|done]. repeat split.
  - intros k' Hk'. rewrite lookup_insert_ne; [by apply Hother|]. by intros ->.
  - intros k' Hk'. destruct (decide (k = k')) as [->|Hne].
    + rewrite lookup_insert_eq. eauto.
    + rewrite lookup_insert_ne by done. by apply Hbound.
  - intros l Hl. rewrite lookup_insert_ne by done. by apply Hstore.
Qed.

Lemma _adjust_parameters_frame s h p d :
  h !! p = Some (ODict d) ->
  exists d',
    (_adjust_parameters s p h).2 !! p = Some (ODict d') /\
    (forall k, k ∉ adjusted_keys -> d' !! k = d !! k) /\
    (forall k, is_Some (d !! k) -> is_Some (d' !! k)) /\
    (forall l, l <> p -> (_adjust_parameters s p h).2 !! l = h !! l).
Proof.
  intros Hd. rewrite (_adjust_parameters_spec s h p d Hd).
  assert (h !! p = Some (ODict d) /\
          (forall k', k' ∉ adjusted_keys -> d !! k' = d !! k') /\
          (forall k', is_Some (d !! k') -> is_Some (d !! k')) /\
          (forall l, l <> p -> h !! l = h !! l)) as H0 by done.
  destruct (power_mode_conflict h d) as [c1|e]; [|by exists d]. cbv zeta.
  pose proof (store_if_step h p d c1 "power_mode" (VStr "default") h d H0) as H1.
  specialize (H1 ltac:(unfold adjusted_keys; rewrite !elem_of_cons; auto)).
  destruct (policy_conflict _ _) as [c2|e]; [|by eexists].
  pose proof (store_if_step h p d c2 "topology_policy" (VStr "single-numa-node") _ _ H1)
    as H2.
  specialize (H2 ltac:(unfold adjusted_keys; rewrite !elem_of_cons; auto)).
  destruct (split_wanted s _ _) as [c3|e]; [|by eexists].
  pose proof (store_if_step h p d c3 "split_reserved_across_numa" (VBool true) _ _ H2)
    as H3.
  specialize (H3 ltac:(unfold adjusted_keys; rewrite !elem_of_cons; auto)).
  by eexists.
Qed.

(** X8. [_adjust_parameters] binds at most the three keys [power_mode],
    [topology_policy] and [split_reserved_across_numa] of the dictionary it is
    given: every other key keeps its value, no key is removed and no other
    object of the store changes, whether the call returns or raises. *)
Theorem adjust_parameters_touches_three_keys s h p d :
  h !! p = Some (ODict d) ->
  exists d',
    (_adjust_parameters s p h).2 !! p = Some (ODict d') /\
    (forall k, k ∉ adjusted_keys -> d' !! k = d !! k) /\
    (forall k, is_Some (d !! k) -> is_Some (d' !! k)) /\
    (forall l, l <> p -> (_adjust_parameters s p h).2 !! l = h !! l).
Proof. apply _adjust_parameters_frame. Qed.

(** X9. After a returning [_adjust_parameters] the conflicts are resolved in
    the dictionary: a true [per_pod_power_management] comes with the power
    mode "default"; a true [enable_dpdk] with the topology policy
    "single-numa-node" or "restricted"; and on several NUMA nodes a
    reservation of at least two CPUs per node comes with a true
    [split_reserved_across_numa]. *)
Theorem adjust_parameters_resolves s h p d r h' :
  h !! p = Some (ODict d) ->
  _adjust_parameters s p h = (Ok r, h') ->
  r = p /\
  exists d',
    h' !! p = Some (ODict d') /\
    (truthy_in h' (default VNone (d' !! "per_pod_power_management")) = Ok true ->
     d' !! "power_mode" = Some (VStr "default")) /\
    (truthy_in h' (default VNone (d' !! "enable_dpdk")) = Ok true ->
     d' !! "topology_policy" = Some (VStr "single-numa-node") \/
     d' !! "topology_policy" = Some (VStr "restricted")) /\
    (1 < default 1 (numa_nodes_per_node s) ->
     ge_int (default (VInt 0) (d' !! "reserved_cpu_count"))
       (default 1 (numa_nodes_per_node s) * 2) = Ok true ->
     truthy_in h' (default VNone (d' !! "split_reserved_across_numa")) = Ok true).
Proof.
  intros Hd Hrun.
  destruct (_adjust_parameters_settles s h p d r h' Hd Hrun)
    as (-> & d' & Hd' & Hpower & Hpolicy & Hsplit).
  split; [done|]. exists d'. split; [done|].
  assert (forall (o : option pyval) t,
             str_eq (default VNone o) t = true -> o = Some (VStr t)) as Hstr.
  { intros [[| | |t'|]|] t; simpl; try done. by intros ->%String.eqb_eq. }
  repeat split.
  - intros Htrue. unfold power_mode_conflict in Hpower. rewrite Htrue in Hpower.
    simpl in Hpower. injection Hpower as Hpower.
    apply negb_false_iff in Hpower. by apply Hstr.
  - intros Htrue. unfold policy_conflict in Hpolicy. rewrite Htrue in Hpolicy.
    simpl in Hpolicy. injection Hpolicy as Hpolicy.
    apply negb_false_iff, orb_true_iff in Hpolicy as [Hp|Hp]; [left|right];
      by apply Hstr.
  - intros Hnuma Hge. unfold split_wanted in Hsplit.
    destruct (Z.gtb_spec (default 1 (numa_nodes_per_node s)) 1) as [_|Hle]; [|lia].
    destruct (truthy_in h' _) as [[|]|e]; simpl in Hsplit; try done.
    congruence.
Qed.

(** X10. On several NUMA nodes, with the split not requested, a reservation
    that is [None] or text makes [_adjust_parameters] raise [TypeError] (the
    comparison with an int), provided the two truth values read before are
    defined. *)
Theorem adjust_parameters_rejects_text_reservation s h p d v :
  h !! p = Some (ODict d) ->
  1 < default 1 (numa_nodes_per_node s) ->
  (exists b, truthy_in h (default VNone (d !! "per_pod_power_management")) = Ok b) ->
  (exists b, truthy_in h (default VNone (d !! "enable_dpdk")) = Ok b) ->
  truthy_in h (default VNone (d !! "split_reserved_across_numa")) = Ok false ->
  d !! "reserved_cpu_count" = Some v ->
  (v = VNone \/ exists text, v = VStr text) ->
  (_adjust_parameters s p h).1 = Raise TypeError.
Proof.
  intros Hd Hnuma [b1 Hb1] [b2 Hb2] Hsplit Hres Hv.
  rewrite (_adjust_parameters_spec s h p d Hd).
  unfold power_mode_conflict at 1. rewrite Hb1. simpl.
  set (c1 := b1 && _).
  pose proof (store_if_lookup c1 p "power_mode" (VStr "default") d h Hd) as Hd1.
  assert (policy_conflict (store_if c1 p "power_mode" (VStr "default") d h)
            (bind_if c1 "power_mode" (VStr "default") d) = policy_conflict h d) as ->
    by (by apply policy_conflict_frame).
  unfold policy_conflict at 1. rewrite Hb2. simpl.
  set (c2 := b2 && _).
  rewrite (split_wanted_frame s c2 p _ _ _ _ Hd1) by done.
  rewrite (split_wanted_frame s c1 p _ _ _ _ Hd) by done.
  unfold split_wanted.
  destruct (Z.gtb_spec (default 1 (numa_nodes_per_node s)) 1) as [_|Hle]; [|lia].
  rewrite Hsplit, Hres. simpl.
  by destruct Hv as [->|[text ->]].
Qed.

End adjust_more.

(** The three properties on concrete dictionaries, on the test hardware
    (two NUMA nodes). *)
Lemma adjust_parameters_touches_three_keys_witness :
  parameter_store conflicting_parameters !! 1%positive = Some (ODict conflicting_parameters) /\
  exists d',
    (_adjust_parameters test_summary 1%positive (parameter_store conflicting_parameters)).2
      !! 1%positive = Some (ODict d') /\
    (forall k, k ∉ adjusted_keys -> d' !! k = conflicting_parameters !! k) /\
    (forall k, is_Some (conflicting_parameters !! k) -> is_Some (d' !! k)) /\
    (forall l, l <> 1%positive ->
       (_adjust_parameters test_summary 1%positive (parameter_store conflicting_parameters)).2
         !! l = parameter_store conflicting_parameters !! l).
Proof.
  split; [reflexivity|].
  apply (adjust_parameters_touches_three_keys test_summary
           (parameter_store conflicting_parameters) 1%positive conflicting_parameters).
  reflexivity.
Defined.

Lemma adjust_parameters_resolves_witness :
  exists h',
    _adjust_parameters test_summary 1%positive (parameter_store conflicting_parameters)
      = (Ok 1%positive, h') /\
    exists d',
      h' !! 1%positive = Some (ODict d') /\
      (truthy_in h' (default VNone (d' !! "per_pod_power_management")) = Ok true ->
       d' !! "power_mode" = Some (VStr "default")) /\
      (truthy_in h' (default VNone (d' !! "enable_dpdk")) = Ok true ->
       d' !! "topology_policy" = Some (VStr "single-numa-node") \/
       d' !! "topology_policy" = Some (VStr "restricted")) /\
      (1 < default 1 (numa_nodes_per_node test_summary) ->
       ge_int (default (VInt 0) (d' !! "reserved_cpu_count"))
         (default 1 (numa_nodes_per_node test_summary) * 2) = Ok true ->
       truthy_in h' (default VNone (d' !! "split_reserved_across_numa")) = Ok true).
Proof.
  eexists. split; [reflexivity|].
  apply (adjust_parameters_resolves test_summary
           (parameter_store conflicting_parameters) 1%positive conflicting_parameters
           1%positive); reflexivity.
Defined.

Lemma adjust_parameters_rejects_text_reservation_witness :
  (_adjust_parameters test_summary 1%positive (parameter_store text_parameters)).1
    = Raise TypeError.
Proof.
  apply (adjust_parameters_rejects_text_reservation test_summary
           (parameter_store text_parameters) 1%positive text_parameters (VStr "8")).
  - reflexivity.
  - reflexivity.
  - exists false. reflexivity.
  - exists false. reflexivity.
  - reflexivity.
  - reflexivity.
  - right. exists "8". reflexivity.
Defined.

(** ** The merged parameters, key by key *)

Section merge_more.
Context `{PyFloat}.

Implicit Types (s : summary) (h : gmap positive pyobj) (d : gmap string pyval).
Implicit Types (p l : positive) (v x : pyval) (k : string).
Implicit Types (items : list (string * pyval)) (overrides : gmap string pyval).

Lemma dict_update_non_none_skip items d k :
  (forall v, (k, v) ∈ items -> is_none v = true) ->
  dict_update_non_none items d !! k = d !! k.
Proof.
  revert d. induction items as [|[key value] items IH]; intros d Hk; [done|].
  unfold dict_update_non_none in *. simpl.
  rewrite IH by (intros v Hv; apply Hk; by apply elem_of_cons; right).
  destruct (is_none value) eqn:Hvalue; [done|].
  rewrite lookup_insert_ne; [done|]. intros ->.
  rewrite (Hk value) in Hvalue; [done|]. apply elem_of_cons. by left.
Qed.

(** The loop over the overrides, key by key: an override that is given
    replaces the value, any other key keeps it. *)
Lemma dict_update_non_none_map overrides d k :
  dict_update_non_none (map_to_list overrides) d !! k =
  if given (overrides !! k) then overrides !! k else d !! k.
Proof.
  destruct (overrides !! k) as [v|] eqn:Hk; simpl.
  - destruct (is_none v) eqn:Hv; simpl.
    + apply dict_update_non_none_skip. intros v' Hv'%elem_of_map_to_list. congruence.
    + apply dict_update_non_none_lookup; [|by apply elem_of_map_to_list|done].
      apply NoDup_fst_map_to_list.
  - apply dict_update_non_none_skip. intros v' Hv'%elem_of_map_to_list. congruence.
Qed.

(** The dictionary a returning merge leaves, in terms of the dictionary the
    parameters start from. *)
Lemma merge_parameters_inv s workload mcp_name profile_name (template : pyval)
    overrides h p h1 :
  merge_parameters s workload mcp_name profile_name template overrides h = (Ok p, h1) ->
  exists h0 d0 d6,
    initial_parameters template h = (Ok p, h0) /\
    h0 !! p = Some (ODict d0) /\
    h1 !! p = Some (ODict (dict_update_non_none (map_to_list overrides) d6)) /\
    d6 !! "mcp_name" = Some (VStr mcp_name) /\
    d6 !! "profile_name" = Some (VStr profile_name) /\
    (forall k, k ∉ computed_keys -> d6 !! k = d0 !! k) /\
    (given (overrides !! "reserved_cpu_count") = true /\
       d6 !! "reserved_cpu_count" = d0 !! "reserved_cpu_count" \/
     given (overrides !! "reserved_cpu_count") = false /\
       is_Some (d0 !! "reserved_cpu_count") /\
       d6 !! "reserved_cpu_count" = d0 !! "reserved_cpu_count" \/
     given (overrides !! "reserved_cpu_count") = false /\
       d0 !! "reserved_cpu_count" = None /\
       exists r, _calculate_reserved_cpus s workload = Ok r /\
                 d6 !! "reserved_cpu_count" = Some (VInt r)).
Proof.
  unfold merge_parameters, mbind at 1 2 3 4, state_bind.
  destruct (truthy template h) as [[use_template|e] h2] eqn:Htruthy; [|done].
  match goal with
  | |- context [let (_, _) := ?m h2 in _] =>
    destruct (m h2) as [[params|e] h3] eqn:Hinit
  end; [|done].
  assert (initial_parameters template h = (Ok params, h3)) as Hinitial.
  { unfold initial_parameters, mbind at 1, state_bind. by rewrite Htruthy. }
  clear Htruthy Hinit.
  destruct (dict_set params "mcp_name" _ h3) as [[[]|e] h4] eqn:Hset1; [|done].
  apply dict_set_inv in Hset1 as (d0 & Hd0 & Hd4).
  unfold mbind at 1 2. unfold state_bind.
  rewrite (dict_set_dict h4 params _ "profile_name" _ Hd4).
  set (d5 := <["profile_name" := VStr profile_name]> (<["mcp_name" := VStr mcp_name]> d0)).
  set (h5 := <[params := ODict d5]> h4).
  assert (h5 !! params = Some (ODict d5)) as Hd5 by apply lookup_insert_eq.
  assert (d5 !! "mcp_name" = Some (VStr mcp_name)) as Hmcp
    by (unfold d5; rewrite lookup_insert_ne by done; apply lookup_insert_eq).
  assert (d5 !! "profile_name" = Some (VStr profile_name)) as Hprofile
    by apply lookup_insert_eq.
  assert (forall k, k ∉ computed_keys -> d5 !! k = d0 !! k) as Hother.
  { intros k Hk. unfold computed_keys in Hk. rewrite !not_elem_of_cons in Hk.
    destruct Hk as (? & ? & ? & _). unfold d5. by rewrite !lookup_insert_ne. }
  assert (d5 !! "reserved_cpu_count" = d0 !! "reserved_cpu_count") as Hres5
    by (unfold d5; by rewrite !lookup_insert_ne).
  clearbody d5 h5.
  assert (negb (bool_decide (is_Some (overrides !! "reserved_cpu_count")))
          || is_none (default VNone (overrides !! "reserved_cpu_count"))
          = negb (given (overrides !! "reserved_cpu_count"))) as ->.
  { destruct (overrides !! "reserved_cpu_count") as [v|]; simpl; [|done].
    by destruct (is_none v). }
  match goal with
  | |- context [let (_, _) := ?m h5 in _] =>
    destruct (m h5) as [[[]|e] h6] eqn:Hreserved; [|done]
  end.
  assert (exists d6, h6 !! params = Some (ODict d6) /\
            d6 !! "mcp_name" = Some (VStr mcp_name) /\
            d6 !! "profile_name" = Some (VStr profile_name) /\
            (forall k, k ∉ computed_keys -> d6 !! k = d0 !! k) /\
            (given (overrides !! "reserved_cpu_count") = true /\
               d6 !! "reserved_cpu_count" = d0 !! "reserved_cpu_count" \/
             given (overrides !! "reserved_cpu_count") = false /\
               is_Some (d0 !! "reserved_cpu_count") /\
               d6 !! "reserved_cpu_count" = d0 !! "reserved_cpu_count" \/
             given (overrides !! "reserved_cpu_count") = false /\
               d0 !! "reserved_cpu_count" = None /\
               exists r, _calculate_reserved_cpus s workload = Ok r /\
                         d6 !! "reserved_cpu_count" = Some (VInt r)))
    as (d6 & Hd6 & Hmcp6 & Hprofile6 & Hother6 & Hres6).
  { revert Hreserved.
    destruct (given (overrides !! "reserved_cpu_count")) eqn:Hgiven; simpl.
    { intros [= <-]. exists d5. repeat split; try done. by left. }
    unfold py_contains, mbind, state_bind, deref. rewrite Hd5. simpl.
    destruct (bool_decide (is_Some (d5 !! "reserved_cpu_count"))) eqn:Hpresent; simpl.
    { intros [= <-]. exists d5. repeat split; try done. right. left.
      apply bool_decide_eq_true in Hpresent. by rewrite <- Hres5. }
    apply bool_decide_eq_false in Hpresent.
    unfold lift. destruct (_calculate_reserved_cpus s workload) as [reserved|e]; [|done].
    rewrite (dict_set_dict h5 params d5) by done. intros [= <-].
    eexists. split; [apply lookup_insert_eq|].
    split; [by rewrite lookup_insert_ne|]. split; [by rewrite lookup_insert_ne|].
    split.
    - intros k Hk. rewrite lookup_insert_ne; [by apply Hother|].
      intros <-. apply Hk. unfold computed_keys. rewrite !elem_of_cons. auto.
    - right. right. split; [done|]. split.
      + rewrite <- Hres5. by apply eq_None_not_Some.
      + exists reserved. split; [done|]. apply lookup_insert_eq. }
  destruct (apply_overrides_dict (map_to_list overrides) h6 params d6 Hd6)
    as (h7 & Happly & Hd7).
  unfold mbind, state_bind. rewrite Happly. intros [= <- <-].
  exists h3, d0, d6. repeat split; done.
Qed.

(** The store after the loop over the overrides. *)
Lemma apply_overrides_store items h p d :
  h !! p = Some (ODict d) ->
  apply_overrides p items h =
    (Ok tt, <[p := ODict (dict_update_non_none items d)]> h).
Proof.
  revert h d. induction items as [|[key value] items IH]; intros h d Hd; simpl.
  - unfold pass, mret, state_ret. by rewrite insert_id.
  - unfold mbind, state_bind. destruct (is_none value) eqn:Hvalue; simpl.
    + rewrite (IH h d Hd). unfold dict_update_non_none. simpl.
      by rewrite ?Hvalue.
    + rewrite (dict_set_dict h p d) by done.
      rewrite (IH _ (<[key := value]> d)) by apply lookup_insert_eq.
      rewrite insert_insert_eq. unfold dict_update_non_none. simpl.
      by rewrite ?Hvalue.
Qed.

Lemma effective_lookup overrides k :
  effective overrides !! k = if given (overrides !! k) then overrides !! k else None.
Proof.
  unfold effective. rewrite map_lookup_filter.
  destruct (overrides !! k) as [v|]; simpl; [|done].
  by destruct (is_none v).
Qed.

Lemma effective_given overrides1 overrides2 k :
  effective overrides1 = effective overrides2 ->
  given (overrides1 !! k) = given (overrides2 !! k) /\
  (given (overrides1 !! k) = true -> overrides1 !! k = overrides2 !! k).
Proof.
  intros Heq. pose proof (effective_lookup overrides1 k) as H1.
  pose proof (effective_lookup overrides2 k) as H2.
  rewrite Heq in H1. rewrite H1 in H2. clear H1 Heq.
  destruct (overrides1 !! k) as [v1|], (overrides2 !! k) as [v2|]; simpl in *;
    try destruct (is_none v1); try destruct (is_none v2); simpl in *;
    split; congruence.
Qed.

(** Two computations that start alike and continue alike are equal. *)
Lemma state_bind_ext {A B} (m : state A) (k1 k2 : A -> state B) h :
  (forall a h', m h = (Ok a, h') -> k1 a h' = k2 a h') ->
  (m ≫= k1) h = (m ≫= k2) h.
Proof.
  intros Hk. unfold mbind, state_bind.
  destruct (m h) as [[a|e] h'] eqn:Hm; [by apply Hk|done].
Qed.

Lemma merge_parameters_effective s workload mcp_name profile_name (template : pyval)
    overrides1 overrides2 h :
  effective overrides1 = effective overrides2 ->
  merge_parameters s workload mcp_name profile_name template overrides1 h =
  merge_parameters s workload mcp_name profile_name template overrides2 h.
Proof.
  intros Heq.
  assert (forall overrides,
    (negb (bool_decide (is_Some (overrides !! "reserved_cpu_count")))
     || is_none (default VNone (overrides !! "reserved_cpu_count")))
    = negb (given (overrides !! "reserved_cpu_count"))) as Hcond.
  { intros overrides. destruct (overrides !! "reserved_cpu_count") as [v|]; simpl; [|done].
    by destruct (is_none v). }
  unfold merge_parameters. rewrite !Hcond.
  destruct (effective_given overrides1 overrides2 "reserved_cpu_count" Heq) as [-> _].
  apply state_bind_ext. intros use_template h2 _.
  apply state_bind_ext. intros params h3 _.
  apply state_bind_ext. intros [] h4 _.
  apply state_bind_ext. intros [] h5 (d4 & _ & Hd5)%dict_set_inv.
  apply state_bind_ext. intros [] h6 Hh6.
  assert (exists d6, h6 !! params = Some (ODict d6)) as [d6 Hd6].
  { destruct (negb (given (overrides2 !! "reserved_cpu_count"))).
    - revert Hh6. unfold py_contains, mbind, state_bind, deref. rewrite Hd5. simpl.
      destruct (negb _).
      + unfold lift. destruct (_calculate_reserved_cpus s workload) as [r|e]; [|done].
        intros (d & _ & Hd)%dict_set_inv. eauto.
      + intros [= <-]. eauto.
    - injection Hh6 as <-. eauto. }
  unfold mbind, state_bind.
  rewrite !(apply_overrides_store _ h6 params d6 Hd6).
  replace (dict_update_non_none (map_to_list overrides1) d6)
    with (dict_update_non_none (map_to_list overrides2) d6); [done|].
  apply map_eq. intros k. rewrite !dict_update_non_none_map.
  destruct (effective_given overrides1 overrides2 k Heq) as [Hg Hv].
  rewrite <- Hg. destruct (given (overrides1 !! k)); [|done]. symmetry. by apply Hv.
Qed.

End merge_more.

(** ** The resolved parameters, key by key *)

Section generate_more.
Context `{PyFloat}.

Implicit Types (s : summary) (h : gmap positive pyobj) (d : gmap string pyval).
Implicit Types (p l : positive) (v x : pyval) (k : string).
Implicit Types (overrides : gmap string pyval).

(** A returning [generate_parameters] is a returning merge followed by a
    returning conflict resolution on the merged dictionary. *)
Lemma generate_parameters_inv s workload mcp_name profile_name (template : pyval)
    overrides h p h' :
  generate_parameters s workload mcp_name profile_name template overrides h = (Ok p, h') ->
  exists h1 dm d',
    merge_parameters s workload mcp_name profile_name template overrides h = (Ok p, h1) /\
    h1 !! p = Some (ODict dm) /\
    h' !! p = Some (ODict d') /\
    (forall k, k ∉ adjusted_keys -> d' !! k = dm !! k) /\
    (forall k, is_Some (dm !! k) -> is_Some (d' !! k)).
Proof.
  unfold generate_parameters, mbind, state_bind.
  destruct (merge_parameters _ _ _ _ _ _ h) as [[params|e] h1] eqn:Hmerge; [|done].
  intros Hadjust.
  destruct (merge_parameters_inv _ _ _ _ _ _ _ _ _ Hmerge)
    as (h0 & d0 & d6 & _ & _ & Hdm & _).
  destruct (_adjust_parameters_settles s h1 params _ p h' Hdm Hadjust) as [<- _].
  destruct (_adjust_parameters_frame s h1 p _ Hdm) as (d' & Hd' & Hother & Hbound & _).
  rewrite Hadjust in Hd'. simpl in Hd'.
  exists h1, (dict_update_non_none (map_to_list overrides) d6), d'.
  auto.
Qed.

Lemma generate_parameters_required_keys s workload mcp_name profile_name
    (template : pyval) overrides h p h' :
  generate_parameters s workload mcp_name profile_name template overrides h = (Ok p, h') ->
  exists d',
    h' !! p = Some (ODict d') /\
    is_Some (d' !! "mcp_name") /\
    is_Some (d' !! "profile_name") /\
    is_Some (d' !! "reserved_cpu_count") /\
    (given (overrides !! "mcp_name") = false ->
     d' !! "mcp_name" = Some (VStr mcp_name)) /\
    (given (overrides !! "profile_name") = false ->
     d' !! "profile_name" = Some (VStr profile_name)).
Proof.
  intros (h1 & dm & d' & Hmerge & Hdm & Hd' & Hother & Hbound)%generate_parameters_inv.
  destruct (merge_parameters_inv _ _ _ _ _ _ _ _ _ Hmerge)
    as (h0 & d0 & d6 & _ & _ & Hdm' & Hmcp & Hprofile & _ & Hreserved).
  rewrite Hdm in Hdm'. injection Hdm' as ->.
  assert (forall k, k ∉ adjusted_keys ->
            d' !! k = if given (overrides !! k) then overrides !! k else d6 !! k) as Hk.
  { intros k Hk. rewrite (Hother k Hk). apply dict_update_non_none_map. }
  assert (forall k, given (overrides !! k) = true -> is_Some (overrides !! k)) as Hgiven.
  { intros k. destruct (overrides !! k); [eauto|done]. }
  assert (("mcp_name" ∉ adjusted_keys) /\ ("profile_name" ∉ adjusted_keys) /\
          ("reserved_cpu_count" ∉ adjusted_keys)) as (Hk1 & Hk2 & Hk3).
  { unfold adjusted_keys. rewrite !not_elem_of_cons. repeat split; try done;
      apply not_elem_of_nil. }
  exists d'. split; [done|].
  rewrite (Hk _ Hk1), (Hk _ Hk2), (Hk _ Hk3), Hmcp, Hprofile.
  repeat split.
  - destruct (given (overrides !! "mcp_name")) eqn:Hg; [by apply Hgiven|eauto].
  - destruct (given (overrides !! "profile_name")) eqn:Hg; [by apply Hgiven|eauto].
  - destruct (given (overrides !! "reserved_cpu_count")) eqn:Hg; [by apply Hgiven|].
    destruct Hreserved as [[? _]|[(_ & Hsome & ->)|(_ & _ & r & _ & ->)]];
      [congruence|done|eauto].
  - by intros ->.
  - by intros ->.
Qed.

(** X11. The resolved parameters always bind [mcp_name], [profile_name] and
    [reserved_cpu_count]; the two names are the arguments of the call unless
    an override of the same name is given. *)
Theorem generate_parameters_binds_required s workload mcp_name profile_name
    (template : pyval) overrides h p h' :
  generate_parameters s workload mcp_name profile_name template overrides h = (Ok p, h') ->
  exists d',
    h' !! p = Some (ODict d') /\
    is_Some (d' !! "mcp_name") /\
    is_Some (d' !! "profile_name") /\
    is_Some (d' !! "reserved_cpu_count") /\
    (given (overrides !! "mcp_name") = false ->
     d' !! "mcp_name" = Some (VStr mcp_name)) /\
    (given (overrides !! "profile_name") = false ->
     d' !! "profile_name" = Some (VStr profile_name)).
Proof. apply generate_parameters_required_keys. Qed.

(** X12. An override that is given (present and not [None]) is the resolved
    value of its key, for every key that conflict resolution does not adjust. *)
Theorem generate_parameters_overrides_win s workload mcp_name profile_name
    (template : pyval) overrides h p h' k v :
  generate_parameters s workload mcp_name profile_name template overrides h = (Ok p, h') ->
  overrides !! k = Some v -> is_none v = false -> k ∉ adjusted_keys ->
  exists d', h' !! p = Some (ODict d') /\ d' !! k = Some v.
Proof.
  intros (h1 & dm & d' & Hmerge & Hdm & Hd' & Hother & Hbound)%generate_parameters_inv
    Hk Hv Hadj.
  destruct (merge_parameters_overrides _ _ _ _ _ _ _ _ _ Hmerge) as (dm' & Hdm' & Hover).
  rewrite Hdm in Hdm'. injection Hdm' as <-.
  exists d'. split; [done|]. rewrite (Hother k Hadj). by apply Hover.
Qed.

(** X13. The resolved [reserved_cpu_count]: the override when one is given;
    otherwise the value of the dictionary the parameters start from (template
    or base defaults) when it has one; otherwise the result of the heuristic,
    which is then defined. *)
Theorem generate_parameters_reservation s workload mcp_name profile_name
    (template : pyval) overrides h p h' :
  generate_parameters s workload mcp_name profile_name template overrides h = (Ok p, h') ->
  exists h0 d0 d',
    initial_parameters template h = (Ok p, h0) /\
    h0 !! p = Some (ODict d0) /\
    h' !! p = Some (ODict d') /\
    (given (overrides !! "reserved_cpu_count") = true ->
     d' !! "reserved_cpu_count" = overrides !! "reserved_cpu_count") /\
    (given (overrides !! "reserved_cpu_count") = false ->
     is_Some (d0 !! "reserved_cpu_count") ->
     d' !! "reserved_cpu_count" = d0 !! "reserved_cpu_count") /\
    (given (overrides !! "reserved_cpu_count") = false ->
     d0 !! "reserved_cpu_count" = None ->
     exists r, _calculate_reserved_cpus s workload = Ok r /\
               d' !! "reserved_cpu_count" = Some (VInt r)).
Proof.
  intros (h1 & dm & d' & Hmerge & Hdm & Hd' & Hother & Hbound)%generate_parameters_inv.
  destruct (merge_parameters_inv _ _ _ _ _ _ _ _ _ Hmerge)
    as (h0 & d0 & d6 & Hinit & Hd0 & Hdm' & _ & _ & _ & Hreserved).
  rewrite Hdm in Hdm'. injection Hdm' as ->.
  assert ("reserved_cpu_count" ∉ adjusted_keys) as Hk.
  { unfold adjusted_keys. rewrite !not_elem_of_cons. repeat split; try done;
      apply not_elem_of_nil. }
  exists h0, d0, d'. split; [done|]. split; [done|]. split; [done|].
  rewrite (Hother _ Hk), dict_update_non_none_map.
  repeat split.
  - by intros ->.
  - intros Hg Hsome. rewrite Hg.
    destruct Hreserved as [[? _]|[(_ & _ & ->)|(_ & Hnone & _)]]; [congruence|done|].
    rewrite Hnone in Hsome. by destruct Hsome.
  - intros Hg Hnone. rewrite Hg.
    destruct Hreserved as [[? _]|[(_ & Hsome & _)|(_ & _ & r & Hr & ->)]];
      [congruence| |eauto].
    rewrite Hnone in Hsome. by destruct Hsome.
Qed.

(** A default passes through: a key that is neither computed
    ([mcp_name], [profile_name], [reserved_cpu_count]) nor adjusted by
    conflict resolution, and for which no override is given, resolves to
    the value of the dictionary the parameters start from. *)
Lemma generate_parameters_defaults_inv s workload mcp_name profile_name
    (template : pyval) overrides h p h' :
  generate_parameters s workload mcp_name profile_name template overrides h = (Ok p, h') ->
  exists h0 d0 d',
    initial_parameters template h = (Ok p, h0) /\
    h0 !! p = Some (ODict d0) /\
    h' !! p = Some (ODict d') /\
    forall k, k ∉ computed_keys -> k ∉ adjusted_keys ->
              given (overrides !! k) = false -> d' !! k = d0 !! k.
Proof.
  intros (h1 & dm & d' & Hmerge & Hdm & Hd' & Hother & Hbound)%generate_parameters_inv.
  destruct (merge_parameters_inv _ _ _ _ _ _ _ _ _ Hmerge)
    as (h0 & d0 & d6 & Hinit & Hd0 & Hdm' & _ & _ & Hkeep & _).
  rewrite Hdm in Hdm'. injection Hdm' as ->.
  exists h0, d0, d'. repeat split; try done.
  intros k Hcomp Hadj Hg.
  by rewrite (Hother k Hadj), dict_update_non_none_map, Hg, (Hkeep k Hcomp).
Qed.

(** Without a template the parameters start from the base defaults, in a
    new dictionary. *)
Lemma initial_parameters_none h :
  initial_parameters VNone h =
    (Ok (fresh (dom h)), <[fresh (dom h) := ODict base_defaults]> h).
Proof. reflexivity. Qed.

(** With a template that has a [default_config] the parameters start from a
    copy of it. *)
Lemma initial_parameters_template h t td c cfg :
  h !! t = Some (ODict td) ->
  td !! "default_config" = Some (VRef c) ->
  h !! c = Some (ODict cfg) ->
  exists p h0, initial_parameters (VRef t) h = (Ok p, h0) /\ h0 !! p = Some (ODict cfg).
Proof.
  intros Ht Hconfig Hc.
  assert (td <> ∅) as Hne by (intros ->; by rewrite lookup_empty in Hconfig).
  unfold initial_parameters, truthy, py_get_method, py_get, py_copy, alloc, deref,
    mbind, state_bind. simpl.
  rewrite Ht. simpl. rewrite bool_decide_eq_false_2 by done. simpl.
  rewrite Ht. simpl.
  assert (fresh (dom h) <> t) as Hfresh1.
  { intros Heq. pose proof (is_fresh (dom h)) as Hf. rewrite Heq in Hf.
    apply Hf. apply elem_of_dom. eauto. }
  assert (fresh (dom h) <> c) as Hfresh2.
  { intros Heq. pose proof (is_fresh (dom h)) as Hf. rewrite Heq in Hf.
    apply Hf. apply elem_of_dom. eauto. }
  rewrite lookup_insert_ne by done. rewrite Ht. simpl. rewrite Hconfig. simpl.
  rewrite lookup_insert_ne by done. rewrite Hc. simpl.
  eexists _, _. split; [done|]. apply lookup_insert_eq.
Qed.

(** X14. With a template, a key that is neither computed nor adjusted and for
    which no override is given resolves to the value the template's
    [default_config] has for it, and is unbound when [default_config] has
    none. *)
Theorem generate_parameters_template_defaults s workload mcp_name profile_name
    overrides h t td c cfg p h' k :
  h !! t = Some (ODict td) ->
  td !! "default_config" = Some (VRef c) ->
  h !! c = Some (ODict cfg) ->
  generate_parameters s workload mcp_name profile_name (VRef t) overrides h = (Ok p, h') ->
  k ∉ computed_keys -> k ∉ adjusted_keys -> given (overrides !! k) = false ->
  exists d', h' !! p = Some (ODict d') /\ d' !! k = cfg !! k.
Proof.
  intros Ht Hconfig Hc Hrun Hcomp Hadj Hg.
  destruct (generate_parameters_defaults_inv _ _ _ _ _ _ _ _ _ Hrun)
    as (h0 & d0 & d' & Hinit & Hd0 & Hd' & Hkeep).
  destruct (initial_parameters_template h t td c cfg Ht Hconfig Hc)
    as (p0 & h00 & Hinit' & Hcfg).
  rewrite Hinit in Hinit'. injection Hinit' as <- <-.
  rewrite Hd0 in Hcfg. injection Hcfg as <-.
  exists d'. split; [done|]. by apply Hkeep.
Qed.

(** X15. Without a template, a key that is neither computed nor adjusted and
    for which no override is given resolves to its base default, and is
    unbound when there is none. *)
Theorem generate_parameters_base_defaults s workload mcp_name profile_name
    overrides h p h' k :
  generate_parameters s workload mcp_name profile_name VNone overrides h = (Ok p, h') ->
  k ∉ computed_keys -> k ∉ adjusted_keys -> given (overrides !! k) = false ->
  exists d', h' !! p = Some (ODict d') /\ d' !! k = base_defaults !! k.
Proof.
  intros Hrun Hcomp Hadj Hg.
  destruct (generate_parameters_defaults_inv _ _ _ _ _ _ _ _ _ Hrun)
    as (h0 & d0 & d' & Hinit & Hd0 & Hd' & Hkeep).
  rewrite initial_parameters_none in Hinit. injection Hinit as <- <-.
  rewrite lookup_insert_eq in Hd0. injection Hd0 as <-.
  exists d'. split; [done|]. by apply Hkeep.
Qed.

(** X16. Only the overrides that are not [None] count: two calls whose
    overrides have the same items with a value other than [None] return the
    same result and leave the same store. In particular an override that is
    [None] is the same as no override. *)
Theorem generate_parameters_ignores_none s workload mcp_name profile_name
    (template : pyval) overrides1 overrides2 h :
  effective overrides1 = effective overrides2 ->
  generate_parameters s workload mcp_name profile_name template overrides1 h =
  generate_parameters s workload mcp_name profile_name template overrides2 h.
Proof.
  intros Heq. unfold generate_parameters, mbind, state_bind.
  by rewrite (merge_parameters_effective _ _ _ _ _ overrides1 overrides2 h Heq).
Qed.

End generate_more.

(** ** The resolved parameters on concrete calls

    The test hardware, the workload "database" and the machine config pool
    "worker-cnf", in the empty store unless a template is used. *)

Lemma generate_parameters_binds_required_witness :
  exists p h',
    generate_parameters test_summary "database" "worker-cnf" "performance"
      VNone database_overrides ∅ = (Ok p, h') /\
    exists d',
      h' !! p = Some (ODict d') /\
      is_Some (d' !! "mcp_name") /\
      is_Some (d' !! "profile_name") /\
      is_Some (d' !! "reserved_cpu_count") /\
      (given (database_overrides !! "mcp_name") = false ->
       d' !! "mcp_name" = Some (VStr "worker-cnf")) /\
      (given (database_overrides !! "profile_name") = false ->
       d' !! "profile_name" = Some (VStr "performance")).
Proof.
  eexists _, _. split; [reflexivity|].
  apply (generate_parameters_binds_required test_summary "database" "worker-cnf"
           "performance" VNone database_overrides ∅).
  reflexivity.
Defined.

Lemma generate_parameters_overrides_win_witness :
  exists p h',
    generate_parameters test_summary "database" "worker-cnf" "performance"
      VNone database_overrides ∅ = (Ok p, h') /\
    exists d',
      h' !! p = Some (ODict d') /\ d' !! "enable_rt_kernel" = Some (VBool true).
Proof.
  eexists _, _. split; [reflexivity|].
  apply (generate_parameters_overrides_win test_summary "database" "worker-cnf"
           "performance" VNone database_overrides ∅).
  - reflexivity.
  - reflexivity.
  - reflexivity.
  - unfold adjusted_keys. rewrite !not_elem_of_cons. repeat split; try done.
    apply not_elem_of_nil.
Defined.

Lemma generate_parameters_reservation_witness :
  exists p h',
    generate_parameters test_summary "database" "worker-cnf" "performance"
      VNone none_overrides ∅ = (Ok p, h') /\
    exists h0 d0 d',
      initial_parameters VNone ∅ = (Ok p, h0) /\
      h0 !! p = Some (ODict d0) /\
      h' !! p = Some (ODict d') /\
      (given (none_overrides !! "reserved_cpu_count") = true ->
       d' !! "reserved_cpu_count" = none_overrides !! "reserved_cpu_count") /\
      (given (none_overrides !! "reserved_cpu_count") = false ->
       is_Some (d0 !! "reserved_cpu_count") ->
       d' !! "reserved_cpu_count" = d0 !! "reserved_cpu_count") /\
      (given (none_overrides !! "reserved_cpu_count") = false ->
       d0 !! "reserved_cpu_count" = None ->
       exists r, _calculate_reserved_cpus test_summary "database" = Ok r /\
                 d' !! "reserved_cpu_count" = Some (VInt r)).
Proof.
  eexists _, _. split; [reflexivity|].
  apply (generate_parameters_reservation test_summary "database" "worker-cnf"
           "performance" VNone none_overrides ∅).
  reflexivity.
Defined.

Lemma generate_parameters_template_defaults_witness :
  exists p h',
    generate_parameters test_summary "media-processing" "worker-cnf" "performance"
      (VRef 2%positive) database_overrides media_store = (Ok p, h') /\
    exists d',
      h' !! p = Some (ODict d') /\
      d' !! "per_pod_power_management" = media_config !! "per_pod_power_management".
Proof.
  eexists _, _. split; [reflexivity|].
  apply (generate_parameters_template_defaults test_summary "media-processing"
           "worker-cnf" "performance" database_overrides media_store 2%positive
           media_template 1%positive media_config).
  - reflexivity.
  - reflexivity.
  - reflexivity.
  - reflexivity.
  - unfold computed_keys. rewrite !not_elem_of_cons. repeat split; try done.
    apply not_elem_of_nil.
  - unfold adjusted_keys. rewrite !not_elem_of_cons. repeat split; try done.
    apply not_elem_of_nil.
  - reflexivity.
Defined.

Lemma generate_parameters_base_defaults_witness :
  exists p h',
    generate_parameters test_summary "database" "worker-cnf" "performance"
      VNone database_overrides ∅ = (Ok p, h') /\
    exists d',
      h' !! p = Some (ODict d') /\ d' !! "disable_ht" = base_defaults !! "disable_ht".
Proof.
  eexists _, _. split; [reflexivity|].
  apply (generate_parameters_base_defaults test_summary "database" "worker-cnf"
           "performance" database_overrides ∅).
  - reflexivity.
  - unfold computed_keys. rewrite !not_elem_of_cons. repeat split; try done.
    apply not_elem_of_nil.
  - unfold adjusted_keys. rewrite !not_elem_of_cons. repeat split; try done.
    apply not_elem_of_nil.
  - reflexivity.
Defined.

Lemma generate_parameters_ignores_none_witness :
  effective none_overrides = effective ∅ /\
  generate_parameters test_summary "database" "worker-cnf" "performance"
    VNone none_overrides ∅ =
  generate_parameters test_summary "database" "worker-cnf" "performance"
    VNone ∅ ∅.
Proof.
  assert (effective none_overrides = effective ∅) as Heq by reflexivity.
  split; [exact Heq|].
  apply (generate_parameters_ignores_none test_summary "database" "worker-cnf"
           "performance" VNone none_overrides ∅ ∅ Heq).
Defined.

(** * Properties of the must-gather parser *)

Section parser_facts.
Context `{PySet} `{PyFloat}.

Implicit Types (nodes : list node) (n m : node) (c : cluster_summary).
Implicit Types (req : request) (rep : report).

(** The nodes the summary is computed from: the workers, or all nodes when
    there is no worker; the first of them gives the per-node figures. *)
Lemma _generate_summary_inv nodes c :
  _generate_summary nodes = Summary c ->
  exists first rest,
    (filter (fun n => is_worker n = true) nodes = first :: rest \/
     filter (fun n => is_worker n = true) nodes = [] /\ nodes = first :: rest) /\
    c = mk_cluster_summary (py_len nodes) (py_len (first :: rest))
          (py_sum (node_capacity <$> first :: rest))
          (node_capacity first)
          (set_list (node_architecture <$> first :: rest))
          (top_numa_nodes (node_topology first))
          (top_threads_per_core (node_topology first) >? 1)
          (Some (node_topology first)).
Proof.
  unfold _generate_summary. destruct nodes as [|n nodes]; [done|].
  destruct (filter _ (n :: nodes)) as [|first rest] eqn:Hfilter.
  - intros [= <-]. exists n, nodes. split; [by right|done].
  - intros [= <-]. exists first, rest. split; [by left|done].
Qed.

Lemma _generate_summary_nonempty nodes :
  nodes <> [] -> exists c, _generate_summary nodes = Summary c.
Proof. destruct nodes; [done|]. intros _. unfold _generate_summary. eauto. Qed.

Lemma set_list_elem_of (xs : list string) a : a ∈ set_list xs <-> a ∈ xs.
Proof. rewrite (set_list_perm xs). apply elem_of_remove_dups. Qed.

Lemma set_list_NoDup (xs : list string) : NoDup (set_list xs).
Proof. rewrite (set_list_perm xs). apply NoDup_remove_dups. Qed.

Lemma filter_length_le nodes :
  (length (filter (fun n => is_worker n = true) nodes) <= length nodes)%nat.
Proof. apply length_filter. Qed.


(** X17. A summary counts at least one worker and at most all nodes; when no
    node is a worker (every node has the role master or control-plane) all
    nodes are taken as workers. Its architectures are, without repetition,
    those of the nodes it takes as workers. *)
Theorem generate_summary_workers nodes c :
  _generate_summary nodes = Summary c ->
  sum_total_nodes c = py_len nodes /\
  1 <= sum_worker_nodes c <= sum_total_nodes c /\
  ((forall n, n ∈ nodes -> is_worker n = false) -> sum_worker_nodes c = sum_total_nodes c) /\
  NoDup (sum_architectures c) /\
  (forall a, a ∈ sum_architectures c <->
     exists n, n ∈ nodes /\ node_architecture n = a /\
               (is_worker n = true \/ forall m, m ∈ nodes -> is_worker m = false)).
Proof.
  intros Hsum. destruct (_generate_summary_inv nodes c Hsum) as (first & rest & Hsel & ->).
  clear Hsum. cbn [sum_total_nodes sum_worker_nodes sum_architectures]. split; [done|].
  split; [|split; [|split]].
  - unfold py_len. destruct Hsel as [Hfilter|[Hfilter ->]].
    + pose proof (filter_length_le nodes) as Hle. rewrite Hfilter in Hle.
      simpl in *. lia.
    + simpl. lia.
  - intros Hall. destruct Hsel as [Hfilter|[Hfilter ->]]; [|done].
    assert (first ∈ filter (fun n => is_worker n = true) nodes) as Hfirst.
    { rewrite Hfilter. apply elem_of_cons. by left. }
    apply list_elem_of_filter in Hfirst as [Hworker Hin].
    rewrite (Hall first Hin) in Hworker. done.
  - apply set_list_NoDup.
  - intros a. rewrite set_list_elem_of, list_elem_of_fmap.
    destruct Hsel as [Hfilter|[Hfilter ->]].
    + rewrite <- Hfilter. split.
      * intros (n & -> & [Hworker Hin]%list_elem_of_filter). exists n. auto.
      * intros (n & Hin & <- & [Hworker|Hall]).
        -- exists n. split; [done|]. by apply list_elem_of_filter.
        -- assert (first ∈ filter (fun n => is_worker n = true) nodes) as Hfirst.
           { rewrite Hfilter. apply elem_of_cons. by left. }
           apply list_elem_of_filter in Hfirst as [Hworker Hin'].
           rewrite (Hall first Hin') in Hworker. done.
    + split.
      * intros (n & -> & Hin). exists n. split; [done|]. split; [done|]. right.
        intros m Hm. destruct (is_worker m) eqn:Hworker; [|done].
        assert (m ∈ filter (fun n => is_worker n = true) (first :: rest)) as Hm'
          by (by apply list_elem_of_filter).
        rewrite Hfilter in Hm'. by apply elem_of_nil in Hm'.
      * intros (n & Hin & <- & _). by exists n.
Qed.


(** X19. [analyze_hardware] never yields the error summary: without a node it
    describes the sample worker of 48 CPUs on 2 NUMA nodes. *)
Theorem analyze_hardware_never_empty nodes :
  exists c,
    (analyze_hardware nodes).2 = Summary c /\
    (analyze_hardware nodes).1 <> [] /\
    (nodes = [] ->
     sum_total_nodes c = 1 /\ sum_worker_nodes c = 1 /\ sum_cpus_per_node c = 48 /\
     sum_numa_nodes_per_node c = 2 /\ sum_hyperthreading_enabled c = true /\
     sum_architectures c = ["amd64"]).
Proof.
  unfold analyze_hardware. simpl. destruct nodes as [|n nodes].
  - eexists. split; [reflexivity|]. split; [done|]. intros _. simpl.
    repeat split.
    pose proof (set_list_perm ["amd64"]) as Hperm.
    change (remove_dups ["amd64"]) with ["amd64"] in Hperm.
    by apply Permutation_singleton_r in Hperm.
  - destruct (_generate_summary_nonempty (n :: nodes)) as [c Hc]; [done|].
    exists c. simpl. split; [done|]. split; done.
Qed.

(** X20. On nodes whose topology the parser estimated, hyper-threading always
    counts as enabled (as it does on the sample worker that stands in for an
    empty node list), so every report for a request with a reserved count
    recommends to disable it. *)
Theorem estimated_topology_recommends_no_ht nodes req rep (reserved : Z) :
  Forall extracted nodes ->
  reserved_cpu_count req = Some reserved ->
  validate (summary_view (analyze_hardware nodes).2) req = Ok rep ->
  hyperthreading_enabled (summary_view (analyze_hardware nodes).2) = Some true /\
  msg_hyperthreading ∈ recommendations rep.
Proof.
  intros Hextracted Hres Hrep.
  assert (Forall (fun n => top_threads_per_core (node_topology n) = 2)
            (_parse_nodes nodes)) as Hparsed.
  { destruct nodes as [|n nodes]; [by repeat constructor|]. simpl.
    eapply Forall_impl; [exact Hextracted|]. by intros m ->. }
  assert (hyperthreading_enabled (summary_view (analyze_hardware nodes).2) = Some true)
    as Hht.
  { unfold analyze_hardware. simpl.
    destruct (_generate_summary_nonempty (_parse_nodes nodes)) as [c Hc];
      [by destruct nodes|].
    rewrite Hc. simpl. f_equal.
    destruct (_generate_summary_inv _ c Hc) as (first & rest & Hsel & ->). simpl.
    assert (first ∈ _parse_nodes nodes) as Hfirst.
    { destruct Hsel as [Hfilter|[_ ->]]; [|apply elem_of_cons; by left].
      assert (first ∈ filter (fun n => is_worker n = true) (_parse_nodes nodes)) as Hin.
      { rewrite Hfilter. apply elem_of_cons. by left. }
      by apply list_elem_of_filter in Hin as [_ Hin]. }
    rewrite Forall_forall in Hparsed. by rewrite (Hparsed first Hfirst). }
  split; [done|]. revert Hrep Hht.
  generalize (summary_view (analyze_hardware nodes).2). intros s Hrep Hht.
  apply validate_inv in Hrep as (rt & hp & _ & _ & ->).
  cbn [recommendations].
  apply elem_of_app. left. apply elem_of_app. left.
  unfold _validate_cpu. rewrite Hres, Hht. simpl.
  destruct (isolated_cpu_count req); unfold when; simpl;
    apply elem_of_app; right; apply list_elem_of_singleton; done.
Qed.

(** X21. On an estimated topology the cap of the heuristic never bites: for
    5g-ran, telco-vnf and ai-inference the reservation is two CPUs per
    estimated NUMA node, that is 2, 4 or 8, whenever the first worker has a
    non-zero number of CPUs. *)
Theorem reserved_cpus_on_estimated_topology nodes c workload :
  Forall extracted nodes ->
  _generate_summary nodes = Summary c ->
  base_workload workload = true ->
  sum_cpus_per_node c <> 0 ->
  sum_numa_nodes_per_node c = _estimate_numa_nodes (sum_cpus_per_node c) /\
  _calculate_reserved_cpus (summary_view (Summary c)) workload =
    Ok (2 * sum_numa_nodes_per_node c).
Proof.
  intros Hextracted Hsum Hbase Hnz.
  destruct (_generate_summary_inv nodes c Hsum) as (first & rest & Hsel & ->).
  simpl in *.
  assert (first ∈ nodes) as Hfirst.
  { destruct Hsel as [Hfilter|[_ ->]]; [|apply elem_of_cons; by left].
    assert (first ∈ filter (fun n => is_worker n = true) nodes) as Hin.
    { rewrite Hfilter. apply elem_of_cons. by left. }
    by apply list_elem_of_filter in Hin as [_ Hin]. }
  rewrite Forall_forall in Hextracted. rewrite (Hextracted first Hfirst). simpl.
  split; [done|].
  rewrite _calculate_reserved_cpus_base by done. simpl. f_equal.
  unfold _estimate_numa_nodes.
  destruct (Z.geb_spec (node_capacity first) 64), (Z.geb_spec (node_capacity first) 32);
    try lia.
  - assert (16 <= node_capacity first / 4) by (apply Z.div_le_lower_bound; lia). lia.
  - assert (8 <= node_capacity first / 4) by (apply Z.div_le_lower_bound; lia). lia.
Qed.

End parser_facts.

(** ** The parser on the example clusters *)

Lemma generate_summary_workers_witness :
  exists c,
    _generate_summary mixed_cluster = Summary c /\
    sum_total_nodes c = py_len mixed_cluster /\
    1 <= sum_worker_nodes c <= sum_total_nodes c /\
    ((forall n, n ∈ mixed_cluster -> is_worker n = false) ->
     sum_worker_nodes c = sum_total_nodes c) /\
    NoDup (sum_architectures c) /\
    (forall a, a ∈ sum_architectures c <->
       exists n, n ∈ mixed_cluster /\ node_architecture n = a /\
                 (is_worker n = true \/ forall m, m ∈ mixed_cluster -> is_worker m = false)).
Proof.
  eexists. split; [reflexivity|].
  apply (generate_summary_workers mixed_cluster). reflexivity.
Defined.


Lemma estimated_topology_recommends_no_ht_witness :
  exists rep,
    validate (summary_view (analyze_hardware mixed_cluster).2) uneven_request = Ok rep /\
    hyperthreading_enabled (summary_view (analyze_hardware mixed_cluster).2) = Some true /\
    msg_hyperthreading ∈ recommendations rep.
Proof.
  eexists. split; [reflexivity|].
  apply (estimated_topology_recommends_no_ht mixed_cluster uneven_request _ 7).
  - repeat constructor.
  - reflexivity.
  - reflexivity.
Defined.

Lemma reserved_cpus_on_estimated_topology_witness :
  exists c,
    _generate_summary mixed_cluster = Summary c /\
    sum_numa_nodes_per_node c = _estimate_numa_nodes (sum_cpus_per_node c) /\
    _calculate_reserved_cpus (summary_view (Summary c)) "5g-ran" =
      Ok (2 * sum_numa_nodes_per_node c).
Proof.
  eexists. split; [reflexivity|].
  apply (reserved_cpus_on_estimated_topology mixed_cluster _ "5g-ran").
  - repeat constructor.
  - reflexivity.
  - reflexivity.
  - discriminate.
Defined.

(** * The parameters as a function of the dictionary they start from *)

Section outcome_facts.
Context `{PyFloat}.

Implicit Types (s : summary) (h : gmap positive pyobj) (d : gmap string pyval).
Implicit Types (p l : positive) (v x : pyval) (k : string).
Implicit Types (overrides : gmap string pyval).

Lemma truthy_in_plain h1 h2 v : is_ref v = false -> truthy_in h1 v = truthy_in h2 v.
Proof. by destruct v. Qed.

(** On a dictionary without references the conditions do not read the
    store. *)
Lemma resolved_plain s h1 h2 d :
  (forall k v, d !! k = Some v -> is_ref v = false) ->
  resolved s h1 d = resolved s h2 d.
Proof.
  intros Hplain.
  assert (forall k, truthy_in h1 (default VNone (d !! k))
                    = truthy_in h2 (default VNone (d !! k))) as Htruthy.
  { intros k. apply truthy_in_plain. destruct (d !! k) as [v|] eqn:Hk; [|done].
    by apply (Hplain k). }
  unfold resolved, power_mode_conflict, policy_conflict, split_wanted.
  by rewrite !Htruthy.
Qed.

Lemma _adjust_parameters_resolved s h p d :
  h !! p = Some (ODict d) ->
  outcome (_adjust_parameters s p h) = d' ← resolved s h d; Ok (Some (ODict d')).
Proof.
  intros Hd. rewrite (_adjust_parameters_spec s h p d Hd). unfold resolved.
  destruct (power_mode_conflict h d) as [c1|e]; [|done]. cbv zeta.
  pose proof (store_if_lookup c1 p "power_mode" (VStr "default") d h Hd) as Hd1.
  rewrite (policy_conflict_frame c1 p "power_mode" (VStr "default") d h Hd) by done.
  simpl. destruct (policy_conflict h d) as [c2|e]; [|done].
  pose proof (store_if_lookup c2 p "topology_policy" (VStr "single-numa-node") _ _ Hd1)
    as Hd2.
  rewrite (split_wanted_frame s c2 p "topology_policy" (VStr "single-numa-node") _ _ Hd1)
    by done.
  rewrite (split_wanted_frame s c1 p "power_mode" (VStr "default") d h Hd) by done.
  simpl. destruct (split_wanted s h d) as [c3|e]; [|done].
  unfold outcome. simpl. f_equal. by apply store_if_lookup.
Qed.

Lemma merge_parameters_merged s workload mcp_name profile_name (template : pyval)
    overrides h p h0 d0 :
  initial_parameters template h = (Ok p, h0) ->
  h0 !! p = Some (ODict d0) ->
  exists h1,
    merge_parameters s workload mcp_name profile_name template overrides h =
      (dm ← merged s workload mcp_name profile_name overrides d0; Ok p, h1) /\
    forall dm, merged s workload mcp_name profile_name overrides d0 = Ok dm ->
               h1 !! p = Some (ODict dm).
Proof.
  intros Hinit Hd0.
  assert (forall overrides,
    (negb (bool_decide (is_Some (overrides !! "reserved_cpu_count")))
     || is_none (default VNone (overrides !! "reserved_cpu_count")))
    = negb (given (overrides !! "reserved_cpu_count"))) as Hcond.
  { intros o. destruct (o !! "reserved_cpu_count") as [v|]; simpl; [|done].
    by destruct (is_none v). }
  unfold merge_parameters. rewrite Hcond.
  revert Hinit. unfold initial_parameters.
  unfold mbind at 1 5 6 7 8, state_bind.
  destruct (truthy template h) as [[use_template|e] h2]; [|done].
  intros ->.
  rewrite (dict_set_dict h0 p d0 "mcp_name" _ Hd0).
  rewrite (dict_set_dict _ p _ "profile_name" _ (lookup_insert_eq _ _ _)).
  rewrite insert_insert_eq. unfold merged.
  set (d := <["profile_name" := VStr profile_name]> (<["mcp_name" := VStr mcp_name]> d0)).
  set (h5 := <[p := ODict d]> h0).
  assert (h5 !! p = Some (ODict d)) as Hd5 by apply lookup_insert_eq.
  clearbody h5 d.
  destruct (given (overrides !! "reserved_cpu_count")); simpl.
  - unfold mbind, state_bind, pass, mret, state_ret.
    rewrite (apply_overrides_store _ h5 p d Hd5). eexists. split; [done|].
    intros dm [= <-]. apply lookup_insert_eq.
  - unfold py_contains, mbind at 1 2 3 4 5, state_bind, deref. rewrite Hd5. simpl.
    destruct (bool_decide (is_Some (d !! "reserved_cpu_count"))); simpl.
    + unfold mbind, state_bind.
      rewrite (apply_overrides_store _ h5 p d Hd5). eexists. split; [done|].
      intros dm [= <-]. apply lookup_insert_eq.
    + unfold lift. destruct (_calculate_reserved_cpus s workload) as [r|e]; simpl.
      * rewrite (dict_set_dict h5 p d _ _ Hd5). unfold mbind, state_bind.
        rewrite (apply_overrides_store _ _ p _ (lookup_insert_eq _ _ _)).
        eexists. split; [done|]. intros dm [= <-]. apply lookup_insert_eq.
      * eexists. split; [done|]. done.
Qed.

(** [generate_parameters] on the dictionary the parameters start from. *)
Lemma generate_parameters_outcome s workload mcp_name profile_name (template : pyval)
    overrides h p h0 d0 :
  initial_parameters template h = (Ok p, h0) ->
  h0 !! p = Some (ODict d0) ->
  exists h1,
    outcome (generate_parameters s workload mcp_name profile_name template overrides h) =
    dm ← merged s workload mcp_name profile_name overrides d0;
    d' ← resolved s h1 dm;
    Ok (Some (ODict d')).
Proof.
  intros Hinit Hd0.
  destruct (merge_parameters_merged s workload mcp_name profile_name template overrides
              h p h0 d0 Hinit Hd0) as (h1 & Hmerge & Hdm).
  exists h1. unfold generate_parameters, mbind at 1, state_bind. rewrite Hmerge.
  destruct (merged s workload mcp_name profile_name overrides d0) as [dm|e]; [|done].
  simpl. by apply _adjust_parameters_resolved, Hdm.
Qed.

(** Two dictionaries that agree wherever no override is given merge into
    the same dictionary. *)
Lemma merged_agree s workload mcp_name profile_name overrides d1 d2 :
  (forall k, given (overrides !! k) = false -> d1 !! k = d2 !! k) ->
  merged s workload mcp_name profile_name overrides d1 =
  merged s workload mcp_name profile_name overrides d2.
Proof.
  intros Hagree. unfold merged.
  set (e1 := <["profile_name" := VStr profile_name]> (<["mcp_name" := VStr mcp_name]> d1)).
  set (e2 := <["profile_name" := VStr profile_name]> (<["mcp_name" := VStr mcp_name]> d2)).
  assert (forall k, given (overrides !! k) = false -> e1 !! k = e2 !! k) as He.
  { intros k Hk. unfold e1, e2.
    destruct (decide (k = "profile_name")) as [->|?]; [by rewrite !lookup_insert_eq|].
    rewrite !(lookup_insert_ne _ "profile_name") by done.
    destruct (decide (k = "mcp_name")) as [->|?]; [by rewrite !lookup_insert_eq|].
    rewrite !(lookup_insert_ne _ "mcp_name") by done. by apply Hagree. }
  clearbody e1 e2.
  assert (forall f1 f2, (forall k, given (overrides !! k) = false -> f1 !! k = f2 !! k) ->
            dict_update_non_none (map_to_list overrides) f1 =
            dict_update_non_none (map_to_list overrides) f2) as Hupdate.
  { intros f1 f2 Hf. apply map_eq. intros k. rewrite !dict_update_non_none_map.
    destruct (given (overrides !! k)) eqn:Hk; [done|]. by apply Hf. }
  destruct (given (overrides !! "reserved_cpu_count")) eqn:Hgiven; simpl.
  - f_equal. by apply Hupdate.
  - rewrite (He "reserved_cpu_count" Hgiven).
    destruct (bool_decide (is_Some (e2 !! "reserved_cpu_count"))); simpl.
    + f_equal. by apply Hupdate.
    + destruct (_calculate_reserved_cpus s workload) as [r|e]; simpl; [|done].
      f_equal. apply Hupdate. intros k Hk.
      destruct (decide (k = "reserved_cpu_count")) as [->|?];
        [by rewrite !lookup_insert_eq|].
      rewrite !(lookup_insert_ne _ "reserved_cpu_count") by done. by apply He.
Qed.

(** A merged dictionary holds a reference only where the overrides or the
    dictionary it starts from do. *)
Lemma merged_plain s workload mcp_name profile_name overrides d0 dm :
  (forall k v, overrides !! k = Some v -> is_ref v = false) ->
  (forall k v, given (overrides !! k) = false -> d0 !! k = Some v -> is_ref v = false) ->
  merged s workload mcp_name profile_name overrides d0 = Ok dm ->
  forall k v, dm !! k = Some v -> is_ref v = false.
Proof.
  intros Hover Hd0. unfold merged.
  set (e := <["profile_name" := VStr profile_name]> (<["mcp_name" := VStr mcp_name]> d0)).
  assert (forall k v, given (overrides !! k) = false -> e !! k = Some v -> is_ref v = false)
    as He.
  { intros k v Hk. unfold e.
    destruct (decide (k = "profile_name")) as [->|?];
      [rewrite lookup_insert_eq; by intros [= <-]|].
    rewrite (lookup_insert_ne _ "profile_name") by done.
    destruct (decide (k = "mcp_name")) as [->|?];
      [rewrite lookup_insert_eq; by intros [= <-]|].
    rewrite (lookup_insert_ne _ "mcp_name") by done. by apply Hd0. }
  clearbody e.
  assert (forall f,
    (forall k v, given (overrides !! k) = false -> f !! k = Some v -> is_ref v = false) ->
    forall k v, dict_update_non_none (map_to_list overrides) f !! k = Some v ->
                is_ref v = false) as Hupdate.
  { intros f Hf k v. rewrite dict_update_non_none_map.
    destruct (given (overrides !! k)) eqn:Hk; [by apply Hover|by apply Hf]. }
  destruct (given (overrides !! "reserved_cpu_count")); simpl.
  - intros [= <-]. by apply Hupdate.
  - destruct (bool_decide (is_Some (e !! "reserved_cpu_count"))); simpl.
    + intros [= <-]. by apply Hupdate.
    + destruct (_calculate_reserved_cpus s workload) as [r|err]; simpl; [|done].
      intros [= <-]. apply Hupdate. intros k v Hk.
      destruct (decide (k = "reserved_cpu_count")) as [->|?];
        [rewrite lookup_insert_eq; by intros [= <-]|].
      rewrite (lookup_insert_ne _ "reserved_cpu_count") by done. by apply He.
Qed.

Lemma base_defaults_plain k v : base_defaults !! k = Some v -> is_ref v = false.
Proof.
  intros Hk.
  assert (map_Forall (fun _ v => is_ref v = false) base_defaults) as Hall.
  { apply map_Forall_to_list. by vm_compute; repeat constructor. }
  by apply (Hall k).
Qed.

(** Two starts that agree wherever no override is given lead to the same
    parameters. *)
Lemma generate_parameters_outcome_agree s workload mcp_name profile_name overrides
    (template1 template2 : pyval) h p1 h1 d1 p2 h2 d2 :
  initial_parameters template1 h = (Ok p1, h1) -> h1 !! p1 = Some (ODict d1) ->
  initial_parameters template2 h = (Ok p2, h2) -> h2 !! p2 = Some (ODict d2) ->
  (forall k, given (overrides !! k) = false -> d1 !! k = d2 !! k) ->
  (forall k v, overrides !! k = Some v -> is_ref v = false) ->
  (forall k v, d2 !! k = Some v -> is_ref v = false) ->
  outcome (generate_parameters s workload mcp_name profile_name template1 overrides h) =
  outcome (generate_parameters s workload mcp_name profile_name template2 overrides h).
Proof.
  intros Hinit1 Hd1 Hinit2 Hd2 Hagree Hover Hplain.
  destruct (generate_parameters_outcome s workload mcp_name profile_name template1
              overrides h p1 h1 d1 Hinit1 Hd1) as (h1' & ->).
  destruct (generate_parameters_outcome s workload mcp_name profile_name template2
              overrides h p2 h2 d2 Hinit2 Hd2) as (h2' & ->).
  rewrite (merged_agree s workload mcp_name profile_name overrides d1 d2 Hagree).
  destruct (merged s workload mcp_name profile_name overrides d2) as [dm|e] eqn:Hmerged;
    [|done].
  simpl. rewrite (resolved_plain s h1' h2' dm); [done|].
  apply (merged_plain s workload mcp_name profile_name overrides d2 dm); [done| |done].
  intros k v _. apply Hplain.
Qed.

(** X22. The template does not show where overrides are given: when its
    [default_config] agrees with the base defaults on every key for which no
    override is given, and no override is a reference, the call gives what the
    call without a template gives: the same dictionary or the same exception. *)
Theorem generate_parameters_template_hidden s workload mcp_name profile_name
    overrides h t td c cfg :
  h !! t = Some (ODict td) ->
  td !! "default_config" = Some (VRef c) ->
  h !! c = Some (ODict cfg) ->
  (forall k, given (overrides !! k) = false -> cfg !! k = base_defaults !! k) ->
  (forall k v, overrides !! k = Some v -> is_ref v = false) ->
  outcome (generate_parameters s workload mcp_name profile_name (VRef t) overrides h) =
  outcome (generate_parameters s workload mcp_name profile_name VNone overrides h).
Proof.
  intros Ht Hconfig Hc Hagree Hover.
  destruct (initial_parameters_template h t td c cfg Ht Hconfig Hc)
    as (p1 & h1 & Hinit1 & Hcfg).
  apply (generate_parameters_outcome_agree s workload mcp_name profile_name overrides
           (VRef t) VNone h p1 h1 cfg _ _ base_defaults Hinit1 Hcfg
           (initial_parameters_none h) (lookup_insert_eq _ _ _) Hagree Hover).
  apply base_defaults_plain.
Qed.

End outcome_facts.

(** * The tool [generate_ppc_command] and the templates *)

Section tool_facts.
Context `{PyFloat}.

Implicit Types (s : summary) (h : gmap positive pyobj) (a : ppc_arguments).
Implicit Types (k : string) (v : pyval).

Lemma plain_config_spec (cfg : gmap string pyval) k v :
  plain_config cfg = true -> cfg !! k = Some v -> k ∈ config_keys /\ is_ref v = false.
Proof.
  unfold plain_config. rewrite forallb_forall. intros Hall Hk.
  apply elem_of_map_to_list, list_elem_of_In, Hall in Hk.
  apply andb_true_iff in Hk as [Hin Hplain]. cbn [fst snd] in *.
  split; [by apply str_in_true|by apply negb_true_iff].
Qed.

(** The tool passes an override for each of the seven keys. *)
Lemma tool_overrides_given a k :
  k ∈ config_keys -> given (tool_overrides a !! k) = true.
Proof.
  unfold config_keys. rewrite !elem_of_cons.
  intros [->|[->|[->|[->|[->|[->|[->|Hk]]]]]]]; try reflexivity.
  by apply elem_of_nil in Hk.
Qed.

Lemma tool_overrides_plain a k v :
  tool_overrides a !! k = Some v -> is_ref v = false.
Proof.
  unfold tool_overrides. intros Hk%elem_of_list_to_map_2.
  repeat (apply elem_of_cons in Hk as [[= -> ->]|Hk]; [try done|]).
  - by destruct (arg_isolated_cpu_count a).
  - by destruct (arg_reserved_cpu_count a).
  - by apply elem_of_nil in Hk.
Qed.

Lemma TEMPLATES_ok : catalog_ok (TEMPLATES ∅) = true.
Proof. by vm_compute. Qed.

(** X23. The tool overrides the whole template: whatever the workload type,
    the parameters it computes with the catalog are those that
    [generate_parameters] computes without a template, and so is the exception
    when there is one. *)
Theorem tool_parameters_ignore_template s a :
  outcome ((templates ← TEMPLATES; generate_ppc_command_parameters s templates a) ∅) =
  outcome ((_ ← TEMPLATES;
            generate_parameters s (arg_workload_type a) (arg_mcp_name a)
              (arg_profile_name a) VNone (tool_overrides a)) ∅).
Proof.
  pose proof TEMPLATES_ok as Hok. unfold mbind at 1 2, state_bind.
  destruct (TEMPLATES ∅) as [[templates|e] h]; [|discriminate Hok].
  unfold catalog_ok in Hok.
  destruct (h !! templates) as [[catalog|xs]|] eqn:Htemplates; try discriminate Hok.
  rewrite forallb_forall in Hok.
  unfold generate_ppc_command_parameters, get_template, mbind at 1, state_bind.
  rewrite (py_get_dict h templates catalog _ _ Htemplates).
  destruct (catalog !! arg_workload_type a) as [v|] eqn:Hv; [|reflexivity].
  cbn [default].
  apply elem_of_map_to_list, list_elem_of_In, Hok in Hv. cbn [snd] in Hv.
  unfold template_ok in Hv.
  destruct v as [| | | |t]; try discriminate Hv.
  destruct (h !! t) as [[td|?]|] eqn:Ht; try discriminate Hv.
  destruct (td !! "default_config") as [[| | | |c]|] eqn:Hconfig; try discriminate Hv.
  destruct (h !! c) as [[cfg|?]|] eqn:Hc; try discriminate Hv.
  destruct (initial_parameters_template h t td c cfg Ht Hconfig Hc)
    as (p1 & h1 & Hinit1 & Hcfg).
  apply (generate_parameters_outcome_agree s _ _ _ (tool_overrides a)
           (VRef t) VNone h p1 h1 cfg _ _ base_defaults Hinit1 Hcfg
           (initial_parameters_none h) (lookup_insert_eq _ _ _)).
  - intros k Hk.
    assert (k ∉ config_keys) as Hnot.
    { intros Hin. by rewrite (tool_overrides_given a k Hin) in Hk. }
    assert (forall d : gmap string pyval, plain_config d = true -> d !! k = None) as Hnone.
    { clear Hk. intros d Hd. destruct (d !! k) as [x|] eqn:Hx; [|reflexivity].
      destruct (plain_config_spec d k x Hd Hx) as [Hin _]. exfalso. exact (Hnot Hin). }
    rewrite (Hnone cfg Hv). symmetry. apply Hnone. by vm_compute.
  - apply tool_overrides_plain.
  - apply base_defaults_plain.
Qed.

End tool_facts.

(** The tool's default arguments against a template of the store. *)
Lemma generate_parameters_template_hidden_witness :
  outcome (generate_parameters test_summary "media-processing" "worker-cnf" "performance"
             (VRef 2%positive) (tool_overrides default_arguments) media_store) =
  outcome (generate_parameters test_summary "media-processing" "worker-cnf" "performance"
             VNone (tool_overrides default_arguments) media_store).
Proof.
  apply (generate_parameters_template_hidden test_summary "media-processing" "worker-cnf"
           "performance" (tool_overrides default_arguments) media_store 2%positive
           media_template 1%positive media_config).
  - reflexivity.
  - reflexivity.
  - reflexivity.
  - intros k Hk.
    destruct (decide (k ∈ config_keys)) as [Hin|Hnot].
    + by rewrite (tool_overrides_given default_arguments k Hin) in Hk.
    + assert (forall d : gmap string pyval, plain_config d = true -> d !! k = None) as Hnone.
      { clear Hk. intros d Hd. destruct (d !! k) as [x|] eqn:Hx; [|reflexivity].
        destruct (plain_config_spec d k x Hd Hx) as [Hin _]. exfalso. exact (Hnot Hin). }
      rewrite (Hnone media_config) by (by vm_compute).
      symmetry. apply Hnone. by vm_compute.
  - apply tool_overrides_plain.
Defined.

(** * The warnings about power *)

Section power_warnings.
Context `{PyFloat}.

Implicit Types (s : summary) (req : request) (rep : report) (w : string).

Lemma cpu_warnings_not_power s req w :
  w ∈ cpu_warnings (_validate_cpu s req) -> concerns_power w = false.
Proof.
  unfold _validate_cpu, when.
  repeat case_match; simplify_eq/=; intros Hw;
    repeat (apply elem_of_cons in Hw as [->|Hw]); try (by apply elem_of_nil in Hw);
    reflexivity.
Qed.

Lemma rt_warnings_not_power s req rt w :
  _validate_rt_kernel s req = Ok rt ->
  w ∈ rt_warnings rt -> concerns_power w = false.
Proof.
  unfold _validate_rt_kernel, when.
  destruct (first_architecture s); simpl; [|discriminate].
  repeat case_match; simplify_eq/=; intros [= <-]; simpl; intros Hw;
    repeat (apply elem_of_cons in Hw as [->|Hw]); try (by apply elem_of_nil in Hw);
    reflexivity.
Qed.

(** The warnings of a report: those of the power check, after warnings that
    do not concern power. *)
Lemma report_warnings_power s req rep :
  validate s req = Ok rep ->
  exists others,
    warnings rep = others ++ pm_warnings (_validate_power_mode req) /\
    forall w, w ∈ others -> concerns_power w = false.
Proof.
  intros (rt & hp & Hrt & Hhp & ->)%validate_inv. simpl.
  eexists. split; [reflexivity|]. intros w Hw.
  assert (w ∈ cpu_warnings (_validate_cpu s req) ++ rt_warnings rt \/ w ∈ hp_errors hp)
    as [[Hw'|Hw']%elem_of_app|Hw'].
  { destruct (hp_is_valid hp); [by left|].
    apply elem_of_app in Hw as [Hw|Hw]; [by left|by right]. }
  - by eapply cpu_warnings_not_power.
  - by eapply rt_warnings_not_power.
  - destruct (hp_errors_cases s req hp w Hhp Hw') as (size & name & sizes & ->).
    reflexivity.
Qed.

(** X24. A report warns that per-pod power management and a high power mode
    exclude each other exactly when per-pod power management is asked for and
    the power mode is not "default"; it warns about the power consumption
    exactly when the mode is "low-latency" or "ultra-low-latency". Neither
    warning makes the report invalid. *)
Theorem power_warnings_iff s req rep :
  validate s req = Ok rep ->
  let mode := default "default" (power_mode req) in
  (msg_per_pod_exclusive ∈ warnings rep <->
   default false (per_pod_power_management req) = true /\ mode <> "default") /\
  (msg_power_consumption mode ∈ warnings rep <->
   mode = "low-latency" \/ mode = "ultra-low-latency") /\
  is_valid rep = cpu_is_valid (_validate_cpu s req).
Proof.
  intros Hrep. cbv zeta.
  destruct (report_warnings_power s req rep Hrep) as (others & -> & Hothers).
  assert (forall w, concerns_power w = true ->
            w ∈ others ++ pm_warnings (_validate_power_mode req) <->
            w ∈ pm_warnings (_validate_power_mode req)) as Hpm.
  { intros w Hw. rewrite elem_of_app. split; [|by right].
    intros [Hin|Hin]; [|done]. rewrite (Hothers w Hin) in Hw. discriminate. }
  split; [|split].
  - rewrite Hpm by reflexivity. unfold _validate_power_mode, when.
    destruct (default false (per_pod_power_management req)); simpl.
    + destruct (String.eqb_spec (default "default" (power_mode req)) "default")
        as [Heq|Hne]; simpl.
      * rewrite Heq. simpl. split; [by intros ?%elem_of_nil|by intros [_ ?]].
      * split; [done|]. intros _. apply elem_of_app. right.
        by apply list_elem_of_singleton.
    + split; [|by intros [? _]]. destruct (_ || _); simpl.
      * intros Hw%list_elem_of_singleton. discriminate Hw.
      * by intros ?%elem_of_nil.
  - rewrite Hpm by reflexivity. unfold _validate_power_mode, when, str_in. simpl.
    destruct (String.eqb_spec (default "default" (power_mode req)) "low-latency")
      as [Heq|Hne1]; simpl.
    { split; [by left|]. intros _.
      destruct (_ && _); simpl; apply elem_of_cons; by left. }
    destruct (String.eqb_spec (default "default" (power_mode req)) "ultra-low-latency")
      as [Heq|Hne2]; simpl.
    { split; [by right|]. intros _.
      destruct (_ && _); simpl; apply elem_of_cons; by left. }
    split; [|by intros [?|?]].
    destruct (_ && _); simpl.
    + intros Hw%list_elem_of_singleton. discriminate Hw.
    + by intros ?%elem_of_nil.
  - by apply validate_inv in Hrep as (rt & hp & _ & _ & ->).
Qed.

(** X25. Through the tool the exclusion warning never shows: the requirements
    it builds have no entry for per-pod power management. *)
Theorem tool_never_warns_per_pod s workload isolated reserved rt_kernel dpdk size count
    mode rep :
  validate s (tool_requirements workload isolated reserved rt_kernel dpdk size count mode)
    = Ok rep ->
  msg_per_pod_exclusive ∉ warnings rep.
Proof.
  intros Hrep.
  destruct (report_warnings_power s _ rep Hrep) as (others & -> & Hothers).
  rewrite elem_of_app. intros [Hin|Hin].
  - pose proof (Hothers _ Hin) as Hfalse. discriminate Hfalse.
  - revert Hin. unfold _validate_power_mode, when. simpl.
    destruct (_ || _); simpl.
    + intros Hw%list_elem_of_singleton. discriminate Hw.
    + by intros ?%elem_of_nil.
Qed.

End power_warnings.

Lemma power_warnings_iff_witness :
  exists rep,
    validate test_summary per_pod_low_latency = Ok rep /\
    (msg_per_pod_exclusive ∈ warnings rep <->
     default false (per_pod_power_management per_pod_low_latency) = true /\
     default "default" (power_mode per_pod_low_latency) <> "default") /\
    (msg_power_consumption (default "default" (power_mode per_pod_low_latency))
       ∈ warnings rep <->
     default "default" (power_mode per_pod_low_latency) = "low-latency" \/
     default "default" (power_mode per_pod_low_latency) = "ultra-low-latency") /\
    is_valid rep = cpu_is_valid (_validate_cpu test_summary per_pod_low_latency).
Proof.
  eexists. split; [reflexivity|].
  apply (power_warnings_iff test_summary per_pod_low_latency). reflexivity.
Defined.

Lemma tool_never_warns_per_pod_witness :
  exists rep,
    validate test_summary
      (tool_requirements "custom" None (Some 4) false false None None "low-latency")
      = Ok rep /\
    msg_per_pod_exclusive ∉ warnings rep.
Proof.
  eexists. split; [reflexivity|].
  apply (tool_never_warns_per_pod test_summary "custom" None (Some 4) false false None
           None "low-latency").
  reflexivity.
Defined.

(** * Properties of the command *)

Section command_facts.
Context `{PyFloat} `{PyText}.

Implicit Types (s : summary) (h : gmap positive pyobj) (d : gmap string pyval).
Implicit Types (p l : positive) (v x : pyval) (k : string) (part : string).
Implicit Types (overrides : gmap string pyval).

(** The resolved dictionary is settled. *)
Lemma generate_parameters_settled s workload mcp_name profile_name (template : pyval)
    overrides h p h' :
  generate_parameters s workload mcp_name profile_name template overrides h = (Ok p, h') ->
  exists d', h' !! p = Some (ODict d') /\ settled s h' d'.
Proof.
  unfold generate_parameters, mbind, state_bind.
  destruct (merge_parameters _ _ _ _ _ _ h) as [[params|e] h1] eqn:Hmerge; [|done].
  intros Hadjust.
  destruct (merge_parameters_inv _ _ _ _ _ _ _ _ _ Hmerge)
    as (h0 & d0 & d6 & _ & _ & Hdm & _).
  destruct (_adjust_parameters_settles s h1 params _ p h' Hdm Hadjust)
    as (<- & d' & Hd' & Hsettled).
  by exists d'.
Qed.

(** The parts of a command that is built. *)
Lemma command_parts_inv must_gather_path h d parts :
  command_parts must_gather_path h d = Built parts ->
  exists mcp_name profile_name reserved disable_ht enable_dpdk split per_pod,
    truthy_in h (default VNone (d !! "per_pod_power_management")) = Ok per_pod /\
    parts =
      ["podman run --entrypoint performance-profile-creator";
       "-v " +:+ must_gather_path +:+ ":/must-gather:z";
       "quay.io/openshift/origin-cluster-node-tuning-operator:4.11";
       "--must-gather-dir-path /must-gather";
       "--mcp-name " +:+ py_str h mcp_name;
       "--profile-name " +:+ py_str h profile_name;
       "--reserved-cpu-count " +:+ py_str h reserved;
       "--rt-kernel " +:+ str_lower (py_str h (default (VBool false) (d !! "enable_rt_kernel")))]
      ++ (if disable_ht : bool then ["--disable-ht"] else [])
      ++ (if enable_dpdk : bool then ["--user-level-networking"] else [])
      ++ (if split : bool then ["--split-reserved-cpus-across-numa"] else [])
      ++ (if per_pod : bool then ["--per-pod-power-management"] else [])
      ++ (if negb (str_eq (default (VStr "default") (d !! "power_mode")) "default")
          then ["--power-consumption-mode " +:+
                py_str h (default (VStr "default") (d !! "power_mode"))]
          else [])
      ++ ["--topology-manager-policy " +:+
          py_str h (default (VStr "restricted") (d !! "topology_policy"));
          "> performance-profile.yaml"].
Proof.
  unfold command_parts, py_getitem.
  destruct (d !! "mcp_name") as [mcp_name|]; [|done].
  destruct (d !! "profile_name") as [profile_name|]; [|done].
  destruct (d !! "reserved_cpu_count") as [reserved|]; [|done]. simpl.
  destruct (truthy_in h (default VNone (d !! "disable_ht"))) as [disable_ht|]; [|done].
  destruct (truthy_in h (default VNone (d !! "enable_dpdk"))) as [enable_dpdk|]; [|done].
  destruct (truthy_in h (default VNone (d !! "split_reserved_across_numa")))
    as [split|]; [|done].
  destruct (truthy_in h (default VNone (d !! "per_pod_power_management")))
    as [per_pod|]; [|done].
  simpl. intros [= <-].
  exists mcp_name, profile_name, reserved, disable_ht, enable_dpdk, split, per_pod.
  split; [done|]. unfold append_if.
  destruct disable_ht, enable_dpdk, split, per_pod,
    (negb (str_eq (default (VStr "default") (d !! "power_mode")) "default"));
    reflexivity.
Qed.

(** X26. In the command of resolved parameters the flag for per-pod power
    management excludes the flag for the power consumption mode. *)
Theorem command_flags_exclusive s workload mcp_name profile_name (template : pyval)
    overrides h p h' d' must_gather_path parts :
  generate_parameters s workload mcp_name profile_name template overrides h = (Ok p, h') ->
  h' !! p = Some (ODict d') ->
  command_parts must_gather_path h' d' = Built parts ->
  "--per-pod-power-management" ∈ parts ->
  forall part, part ∈ parts -> is_power_mode_flag part = false.
Proof.
  intros Hrun Hd' Hparts Hflag.
  destruct (generate_parameters_settled _ _ _ _ _ _ _ _ _ Hrun) as (d & Hd & Hpower & _).
  rewrite Hd' in Hd. injection Hd as <-.
  destruct (command_parts_inv _ _ _ _ Hparts)
    as (mcp & profile & reserved & ht & dpdk & split & per_pod & Hper_pod & ->).
  assert (per_pod = true) as ->.
  { destruct per_pod; [done|]. exfalso.
    eassert (Forall (fun part => String.prefix "--per-pod-power-management" part = false) _)
      as Hall; [|rewrite Forall_forall in Hall; by pose proof (Hall _ Hflag)].
    destruct ht, dpdk, split, (negb _); simpl; repeat constructor. }
  unfold power_mode_conflict in Hpower. rewrite Hper_pod in Hpower. simpl in Hpower.
  injection Hpower as Hpower. apply negb_false_iff in Hpower.
  assert (negb (str_eq (default (VStr "default") (d' !! "power_mode")) "default") = false)
    as ->.
  { apply negb_false_iff. destruct (d' !! "power_mode"); [done|]. simpl in Hpower. done. }
  apply Forall_forall. destruct ht, dpdk, split; simpl; repeat constructor.
Qed.

Lemma truthy_in_plain_defined h v : is_ref v = false -> exists b, truthy_in h v = Ok b.
Proof. destruct v; try done; simpl; eauto. Qed.

Lemma command_architecture_ok s :
  architectures s <> Some [] -> exists a, command_architecture s = Ok a.
Proof.
  unfold command_architecture. destruct (architectures s) as [[|a archs]|]; simpl; eauto.
  done.
Qed.

(** The parts are built as soon as the three required keys are bound and
    the parameters are plain values; a missing key is the only cause of a
    [KeyError]. *)
Lemma command_parts_defined must_gather_path h d :
  is_Some (d !! "mcp_name") -> is_Some (d !! "profile_name") ->
  is_Some (d !! "reserved_cpu_count") ->
  (forall key, command_parts must_gather_path h d <> KeyError key) /\
  ((forall k v, d !! k = Some v -> is_ref v = false) ->
   exists parts, command_parts must_gather_path h d = Built parts).
Proof.
  intros [mcp Hmcp] [profile Hprofile] [reserved Hreserved].
  unfold command_parts, py_getitem. rewrite Hmcp, Hprofile, Hreserved. simpl.
  split.
  - intros key.
    destruct (truthy_in h (default VNone (d !! "disable_ht"))); [|done].
    destruct (truthy_in h (default VNone (d !! "enable_dpdk"))); [|done].
    destruct (truthy_in h (default VNone (d !! "split_reserved_across_numa"))); [|done].
    destruct (truthy_in h (default VNone (d !! "per_pod_power_management"))); done.
  - intros Hplain.
    assert (forall k, exists b, truthy_in h (default VNone (d !! k)) = Ok b) as Htruthy.
    { intros k. apply truthy_in_plain_defined.
      destruct (d !! k) as [v|] eqn:Hk; [by apply (Hplain k)|done]. }
    destruct (Htruthy "disable_ht") as [b1 ->].
    destruct (Htruthy "enable_dpdk") as [b2 ->].
    destruct (Htruthy "split_reserved_across_numa") as [b3 ->].
    destruct (Htruthy "per_pod_power_management") as [b4 ->].
    simpl. eauto.
Qed.


(** With an empty list of architectures in the summary [build_command]
    raises [IndexError], whatever the parameters. *)
Theorem build_command_no_architecture s must_gather_path p h :
  architectures s = Some [] ->
  build_command s must_gather_path p h = Fails IndexError.
Proof. intros Harch. unfold build_command, command_architecture. by rewrite Harch. Qed.

Lemma resolved_keeps_plain s h d d' :
  resolved s h d = Ok d' ->
  (forall k v, d !! k = Some v -> is_ref v = false) ->
  forall k v, d' !! k = Some v -> is_ref v = false.
Proof.
  unfold resolved.
  destruct (power_mode_conflict h d) as [c1|]; [|done].
  destruct (policy_conflict h d) as [c2|]; [|done].
  destruct (split_wanted s h d) as [c3|]; [|done]. simpl.
  intros [= <-] Hplain k v. unfold bind_if.
  destruct c3; [destruct (decide (k = "split_reserved_across_numa")) as [->|?];
    [rewrite lookup_insert_eq; by intros [= <-]|rewrite lookup_insert_ne by done]|];
  (destruct c2; [destruct (decide (k = "topology_policy")) as [->|?];
    [rewrite lookup_insert_eq; by intros [= <-]|rewrite lookup_insert_ne by done]|]);
  (destruct c1; [destruct (decide (k = "power_mode")) as [->|?];
    [rewrite lookup_insert_eq; by intros [= <-]|rewrite lookup_insert_ne by done]|]);
  apply Hplain.
Qed.

(** Plain overrides on a plain dictionary resolve to plain parameters. *)
Lemma generate_parameters_plain s workload mcp_name profile_name (template : pyval)
    overrides h p0 h0 d0 p h' :
  initial_parameters template h = (Ok p0, h0) ->
  h0 !! p0 = Some (ODict d0) ->
  (forall k v, overrides !! k = Some v -> is_ref v = false) ->
  (forall k v, d0 !! k = Some v -> is_ref v = false) ->
  generate_parameters s workload mcp_name profile_name template overrides h = (Ok p, h') ->
  exists d', h' !! p = Some (ODict d') /\ forall k v, d' !! k = Some v -> is_ref v = false.
Proof.
  intros Hinit Hd0 Hover Hplain Hrun.
  destruct (generate_parameters_outcome s workload mcp_name profile_name template
              overrides h p0 h0 d0 Hinit Hd0) as (h1 & Hout).
  rewrite Hrun in Hout. unfold outcome in Hout. simpl in Hout.
  destruct (merged s workload mcp_name profile_name overrides d0) as [dm|] eqn:Hmerged;
    [|done].
  simpl in Hout. destruct (resolved s h1 dm) as [d'|] eqn:Hresolved; [|done].
  simpl in Hout. injection Hout as Hd'. exists d'. split; [done|].
  apply (resolved_keeps_plain s h1 dm d' Hresolved).
  apply (merged_plain s workload mcp_name profile_name overrides d0 dm Hover); [|done].
  intros k v _. apply Hplain.
Qed.

(** X28. Through the tool the command step cannot fail: with a catalog of
    templates whose [default_config] holds plain values and a non-empty list
    of architectures, the command is built whenever [generate_parameters]
    returns. *)
Theorem tool_builds_command s must_gather_path (templates : loc) a h p h' :
  catalog_ok (Ok templates, h) = true ->
  architectures s <> Some [] ->
  generate_ppc_command_parameters s templates a h = (Ok p, h') ->
  exists command, build_command s must_gather_path p h' = Built command.
Proof.
  intros Hok Harch. unfold catalog_ok in Hok.
  destruct (h !! templates) as [[catalog|xs]|] eqn:Htemplates; try discriminate Hok.
  rewrite forallb_forall in Hok.
  unfold generate_ppc_command_parameters, get_template, mbind at 1, state_bind.
  rewrite (py_get_dict h templates catalog _ _ Htemplates).
  intros Hrun.
  assert (exists d', h' !! p = Some (ODict d') /\
                     forall k v, d' !! k = Some v -> is_ref v = false) as (d' & Hd' & Hplain).
  { revert Hrun.
    destruct (catalog !! arg_workload_type a) as [v|] eqn:Hv; cbn [default].
    - apply elem_of_map_to_list, list_elem_of_In, Hok in Hv. cbn [snd] in Hv.
      unfold template_ok in Hv.
      destruct v as [| | | |t]; try discriminate Hv.
      destruct (h !! t) as [[td|?]|] eqn:Ht; try discriminate Hv.
      destruct (td !! "default_config") as [[| | | |c]|] eqn:Hconfig; try discriminate Hv.
      destruct (h !! c) as [[cfg|?]|] eqn:Hc; try discriminate Hv.
      destruct (initial_parameters_template h t td c cfg Ht Hconfig Hc)
        as (p0 & h0 & Hinit & Hcfg).
      apply (generate_parameters_plain s _ _ _ _ _ h p0 h0 cfg p h' Hinit Hcfg).
      + apply tool_overrides_plain.
      + intros k x Hx. by destruct (plain_config_spec cfg k x Hv Hx).
    - apply (generate_parameters_plain s _ _ _ _ _ h _ _ base_defaults p h'
               (initial_parameters_none h) (lookup_insert_eq _ _ _)).
      + apply tool_overrides_plain.
      + apply base_defaults_plain. }
  destruct (generate_parameters_required_keys _ _ _ _ _ _ _ _ _ Hrun)
    as (d & Hd & Hmcp & Hprofile & Hreserved & _).
  rewrite Hd' in Hd. injection Hd as <-.
  destruct (command_parts_defined must_gather_path h' d' Hmcp Hprofile Hreserved)
    as [_ Hbuilt].
  unfold build_command. rewrite Hd'.
  destruct (command_architecture_ok s Harch) as [arch ->]. simpl.
  destruct (Hbuilt Hplain) as [parts ->]. simpl. eauto.
Qed.

End command_facts.


(** ** The command on concrete calls *)

Lemma command_flags_exclusive_witness :
  "--per-pod-power-management" ∈ conflicting_parts /\
  forall part, part ∈ conflicting_parts -> is_power_mode_flag part = false.
Proof.
  assert ("--per-pod-power-management" ∈ conflicting_parts) as Hflag.
  { apply (bool_decide_unpack _). by vm_compute. }
  split; [exact Hflag|].
  apply (command_flags_exclusive test_summary "custom" "worker-cnf" "performance" VNone
           conflicting_overrides ∅ 1%positive conflicting_run.2 conflicting_resolved
           "/must-gather" conflicting_parts).
  - vm_compute. reflexivity.
  - vm_compute. reflexivity.
  - vm_compute. reflexivity.
  - exact Hflag.
Defined.


Lemma build_command_no_architecture_witness :
  build_command no_architecture "/must-gather" 1%positive conflicting_run.2
    = Fails IndexError.
Proof. apply build_command_no_architecture. reflexivity. Defined.

Lemma tool_builds_command_witness :
  exists command,
    build_command test_summary "/must-gather" 31%positive default_run.2 = Built command.
Proof.
  apply (tool_builds_command test_summary "/must-gather" catalog_location
           default_arguments catalog_store 31%positive default_run.2).
  - vm_compute. reflexivity.
  - discriminate.
  - vm_compute. reflexivity.
Defined.

(** * Properties of the recommendations *)

Section recommendation_facts.
Context `{PyText}.

Implicit Types (description : string).

(** X29. The recommended settings never contradict each other in the way
    [_adjust_parameters] repairs: per-pod power management comes with the
    power mode "default" (it is recommended last), DPDK with the topology
    policy "single-numa-node"; so neither the power-mode block nor the policy
    block has anything to do on them. The workload type is one of five. *)
Theorem recommended_settings_consistent description :
  let r := get_workload_recommendations description in
  (is_Some (rec_settings r !! "per_pod_power_management") ->
   rec_settings r !! "power_mode" = Some (VStr "default")) /\
  (is_Some (rec_settings r !! "enable_dpdk") ->
   rec_settings r !! "topology_policy" = Some (VStr "single-numa-node")) /\
  power_mode_conflict ∅ (rec_settings r) = Ok false /\
  policy_conflict ∅ (rec_settings r) = Ok false /\
  rec_workload_type r ∈ ["custom"; "5g-ran"; "database"; "ai-inference"; "telco-vnf"].
Proof.
  cbv zeta. unfold get_workload_recommendations, when.
  set (d := str_lower description). clearbody d.
  match goal with
  | |- context [if mentions d ["real-time"; _; _; _; _] then _ else ?r] => set (r0 := r)
  end.
  assert (rec_settings r0 = ∅) as Hsettings by (unfold r0; by repeat case_match).
  assert (rec_workload_type r0 ∈
            ["custom"; "5g-ran"; "database"; "ai-inference"; "telco-vnf"]) as Htype.
  { unfold r0. repeat case_match; apply (bool_decide_unpack _); reflexivity. }
  clearbody r0.
  destruct (mentions d ["real-time"; "realtime"; "rt"; "low latency"; "latency-sensitive"]),
    (mentions d ["dpdk"; "user space networking"; "packet processing"]),
    (mentions d ["power efficient"; "power saving"; "energy"]),
    (mentions d ["numa"; "locality"; "affinity"]);
    cbn [rec_settings rec_workload_type reason recommend]; rewrite Hsettings;
    (split; [first [by intros _ | intros [? [=]]]|]);
    (split; [first [by intros _ | intros [? [=]]]|]);
    (split; [reflexivity|]); (split; [reflexivity|]);
    exact Htype.
Qed.

(** X30. The keywords are looked for inside words and the first group wins: a
    description in which the letters "ran" occur anywhere, as in
    "transactions", is classified as 5g-ran whatever else it mentions. *)
Theorem recommendation_substring_priority description :
  str_contains "ran" (str_lower description) = true ->
  rec_workload_type (get_workload_recommendations description) = "5g-ran".
Proof.
  intros Hran. unfold get_workload_recommendations, when.
  assert (mentions (str_lower description) ["5g"; "ran"; "radio"; "baseband"] = true) as ->.
  { unfold mentions. simpl. rewrite Hran. by rewrite orb_true_r. }
  by repeat case_match.
Qed.

End recommendation_facts.

Lemma recommendation_substring_priority_witness :
  rec_workload_type
    (get_workload_recommendations "PostgreSQL database for payment transactions")
  = "5g-ran".
Proof.
  apply recommendation_substring_priority. vm_compute. reflexivity.
Defined.
